(** * Alert persistence and retention: [pkg/database/alerts.go]

    A shallow embedding of the alert store client (bulk ingestion, the
    filter compiler, cascading delete and the retention flush) together with
    the properties stated for it.

    Conventions of the embedding:
    - a Go function returning [(v, err)] is a function returning the pair
      [(v, o)] with [o : option error]; [None] is the nil error;
    - a run-time panic (index out of range) is the outcome [Panics];
    - code that talks to the storage engine is a state transformer over
      [Client], the tables held by the engine;
    - [int], [int64] and [time.Duration] values are integers of [Z]; instants
      are nanoseconds since the Unix epoch, and [time.Now()] is the argument
      [now] of the function that reads the clock. *)

From Stdlib Require Import ZArith List String Ascii Lia Bool.
From stdpp Require Import base tactics option list sorting strings.

Local Open Scope string_scope.
Local Open Scope Z_scope.
Local Open Scope list_scope.

(** ** Errors *)

(** Modelled from the spec: the sentinel error values of the package, which
    are declared outside this file (the taxonomy of section 7, and
    [UserNotExists], which the file names).  Go compares them by identity
    ([errors.Cause(err) != UserNotExists]), hence an enumeration. *)
Inductive Sentinel : Type :=
| UserNotExists
| QueryFail
| DeleteFail
| ParseTimeFail
| ParseDurationFail
| MarshalFail
| BulkError
| ParseType
| InvalidIPOrRange
| InvalidFilter.

#[global] Instance Sentinel_eq_dec : EqDecision Sentinel.
Proof. solve_decision. Defined.

(** Error values.  [Wrap] is [errors.Wrap]/[errors.Wrapf] of pkg/errors: it
    keeps the cause and adds a context message, recorded as the format string
    with its arguments. *)
Inductive error : Type :=
| Sentinel_err (s : Sentinel)
| Foreign (text : string)
| Errorf (format : string) (args : list FmtArg)
| Wrap (cause : error) (format : string) (args : list FmtArg)
with FmtArg : Type :=
| ArgS (s : string)
| ArgE (e : option error)
| ArgD (n : Z)
| ArgV.

Coercion Sentinel_err : Sentinel >-> error.

(** [errors.Cause]: strip the wrappers. *)
Fixpoint Cause (e : error) : error :=
  match e with
  | Wrap c _ _ => Cause c
  | _ => e
  end.

(** [errors.Cause(err) == s] for a sentinel [s]. *)
Definition caused_by (s : Sentinel) (e : error) : bool :=
  match Cause e with
  | Sentinel_err s' => bool_decide (s' = s)
  | _ => false
  end.

(** ** Outcomes of a Go call *)

Inductive Go (A : Type) : Type :=
| Returns (a : A)
| Panics.
Arguments Returns {A} a.
Arguments Panics {A}.

Definition go_bind {A B : Type} (m : Go A) (k : A -> Go B) : Go B :=
  match m with
  | Returns a => k a
  | Panics => Panics
  end.

(** [value[0]] on a slice. *)
Definition index0 {A : Type} (value : list A) : Go A :=
  match value with
  | v :: _ => Returns v
  | [] => Panics
  end.

(** ** The parts of the Go standard library the file calls *)

Abbreviation Time := Z (only parsing).
Abbreviation Duration := Z (only parsing).

Definition Nanosecond : Z := 1.
Definition Microsecond : Z := 1000.
Definition Millisecond : Z := 1000000.
Definition Second : Z := 1000000000.
Definition Minute : Z := 60 * Second.
Definition Hour : Z := 60 * Minute.

Definition max_int64 : Z := 9223372036854775807.

(** The zero instant, January 1 of year 1, 00:00:00 UTC. *)
Definition zero_Time : Time := (-62135596800) * Second.

Definition IsZero (t : Time) : bool := t =? zero_Time.

Definition is_digit (c : ascii) : bool :=
  ((48 <=? N_of_ascii c) && (N_of_ascii c <=? 57))%N.

Definition digit_value (c : ascii) : Z := Z.of_N (N_of_ascii c) - 48.

Definition digit_char (d : Z) : ascii := ascii_of_N (48 + Z.to_N d).

Definition dquote : string := String (ascii_of_N 34) EmptyString.

Definition quote (s : string) : string := dquote +:+ s +:+ dquote.

Fixpoint all_digits (s : string) : bool :=
  match s with
  | EmptyString => true
  | String c s' => is_digit c && all_digits s'
  end.

(** [strconv.ParseBool]. *)
Definition ParseBool (str : string) : bool * option error :=
  if bool_decide (str ∈ ["1"; "t"; "T"; "true"; "TRUE"; "True"]) then (true, None)
  else if bool_decide (str ∈ ["0"; "f"; "F"; "false"; "FALSE"; "False"]) then (false, None)
  else (false, Some (Foreign ("strconv.ParseBool: parsing " +:+ quote str +:+ ": invalid syntax"))).

(** Decimal digits of a non-negative integer, most significant first. *)
Fixpoint decimal (fuel : nat) (u : Z) (acc : string) : string :=
  match fuel with
  | O => acc
  | S k =>
      let acc' := String (digit_char (u mod 10)) acc in
      if u <? 10 then acc' else decimal k (u / 10) acc'
  end.

Definition utoa (u : Z) : string := decimal (S (Z.to_nat (Z.log2 u))) u EmptyString.

(** [strconv.Itoa]. *)
Definition Itoa (i : Z) : string :=
  if i <? 0 then String "-" (utoa (- i)) else utoa i.

Fixpoint zeros (n : nat) : string :=
  match n with
  | O => EmptyString
  | S k => String "0" (zeros k)
  end.

(** [appendInt] of package time: sign, then the digits padded with zeros to
    [width]. *)
Definition appendInt (x : Z) (width : nat) : string :=
  let digits := utoa (Z.abs x) in
  (if x <? 0 then "-" else "") +:+ zeros (width - String.length digits) +:+ digits.

(** Calendar date of a day number counted from 1970-01-01. *)
Definition civil (days : Z) : Z * Z * Z :=
  let z := days + 719468 in
  let era := z / 146097 in
  let doe := z mod 146097 in
  let yoe := (doe - doe / 1460 + doe / 36524 - doe / 146096) / 365 in
  let doy := doe - (365 * yoe + yoe / 4 - yoe / 100) in
  let mp := (5 * doy + 2) / 153 in
  let d := doy - (153 * mp + 2) / 5 + 1 in
  let m := if mp <? 10 then mp + 3 else mp - 9 in
  let y := yoe + era * 400 + (if m <=? 2 then 1 else 0) in
  (y, m, d).

Definition two_digits (n : Z) : string :=
  String (digit_char ((n / 10) mod 10)) (String (digit_char (n mod 10)) EmptyString).

(** The zone suffix of the layout ["Z07:00"], for an offset in seconds east
    of UTC. *)
Definition zone_suffix (offset : Z) : string :=
  if offset =? 0 then "Z"
  else
    let a := Z.abs offset / 60 in
    (if offset <? 0 then "-" else "+") +:+ two_digits (a / 60) +:+ ":" +:+ two_digits (a mod 60).

(** [t.Format(time.RFC3339)], layout ["2006-01-02T15:04:05Z07:00"], for an
    instant shown in the zone at [offset] seconds east of UTC. *)
Definition Format_RFC3339 (offset : Z) (t : Time) : string :=
  let secs := t / Second + offset in
  let '(y, m, d) := civil (secs / 86400) in
  let sod := secs mod 86400 in
  appendInt y 4 +:+ "-" +:+ two_digits m +:+ "-" +:+ two_digits d +:+ "T" +:+
  two_digits (sod / 3600) +:+ ":" +:+ two_digits ((sod / 60) mod 60) +:+ ":" +:+
  two_digits (sod mod 60) +:+ zone_suffix offset.

(** [leadingInt] of package time: the leading digits of [s] as an integer,
    failing when the value leaves the int64 range. *)
Fixpoint leadingInt_from (x : Z) (s : string) : option (Z * string) :=
  match s with
  | String c s' =>
      if is_digit c then
        if x >? max_int64 / 10 then None
        else
          let x' := x * 10 + digit_value c in
          if x' >? max_int64 then None else leadingInt_from x' s'
      else Some (x, s)
  | EmptyString => Some (x, s)
  end.

Definition leadingInt (s : string) : option (Z * string) := leadingInt_from 0 s.

(** [leadingFraction] of package time: the digits after the period as a
    numerator [x] over [scale]; digits past the int64 range are dropped. *)
Fixpoint leadingFraction_from (x scale : Z) (overflow : bool) (s : string) : Z * Z * string :=
  match s with
  | String c s' =>
      if is_digit c then
        if overflow then leadingFraction_from x scale true s'
        else if x >? max_int64 / 10 then leadingFraction_from x scale true s'
        else
          let y := x * 10 + digit_value c in
          if y >? max_int64 then leadingFraction_from x scale true s'
          else leadingFraction_from y (scale * 10) false s'
      else (x, scale, s)
  | EmptyString => (x, scale, s)
  end.

Definition leadingFraction (s : string) : Z * Z * string :=
  leadingFraction_from 0 1 false s.

(** The unit of a duration group: the characters up to the next period or
    digit, and the rest. *)
Fixpoint span_unit (s : string) : string * string :=
  match s with
  | String c s' =>
      if (c =? ".")%char || is_digit c then (EmptyString, s)
      else let '(u, r) := span_unit s' in (String c u, r)
  | EmptyString => (EmptyString, EmptyString)
  end.

Definition micro_sign : string := String (ascii_of_N 194) (String (ascii_of_N 181) "s").
Definition greek_mu : string := String (ascii_of_N 206) (String (ascii_of_N 188) "s").

Definition unitMap (u : string) : option Z :=
  if bool_decide (u = "ns") then Some Nanosecond
  else if bool_decide (u = "us") then Some Microsecond
  else if bool_decide (u = micro_sign) then Some Microsecond
  else if bool_decide (u = greek_mu) then Some Microsecond
  else if bool_decide (u = "ms") then Some Millisecond
  else if bool_decide (u = "s") then Some Second
  else if bool_decide (u = "m") then Some Minute
  else if bool_decide (u = "h") then Some Hour
  else None.

Definition invalid_duration (orig : string) : error :=
  Foreign ("time: invalid duration " +:+ quote orig).

(** The loop of [time.ParseDuration] over the groups (digits, an optional
    period with more digits, then a unit); [d] is the sum so far.  Each round consumes at
    least one character, [fuel] bounds the rounds.  Where the library rounds
    the fractional part through float64 the model takes the exact quotient. *)
Fixpoint duration_groups (fuel : nat) (orig s : string) (d : Z) : option (Z * option error) :=
  match s with
  | EmptyString => Some (d, None)
  | String c _ =>
      match fuel with
      | O => None
      | S fuel' =>
          if negb ((c =? ".")%char || is_digit c) then Some (0, Some (invalid_duration orig))
          else
            match leadingInt s with
            | None => Some (0, Some (invalid_duration orig))
            | Some (v, s1) =>
                let pre := negb (String.length s =? String.length s1)%nat in
                let '(f, scale, post, s2) :=
                  match s1 with
                  | String c1 s1' =>
                      if (c1 =? ".")%char then
                        let '(f, scale, s2) := leadingFraction s1' in
                        (f, scale, negb (String.length s1' =? String.length s2)%nat, s2)
                      else (0, 1, false, s1)
                  | EmptyString => (0, 1, false, s1)
                  end in
                if negb pre && negb post then Some (0, Some (invalid_duration orig))
                else
                  let '(u, s3) := span_unit s2 in
                  if bool_decide (u = EmptyString) then
                    Some (0, Some (Foreign ("time: missing unit in duration " +:+ quote orig)))
                  else
                    match unitMap u with
                    | None =>
                        Some (0, Some (Foreign ("time: unknown unit " +:+ quote u +:+
                                                " in duration " +:+ quote orig)))
                    | Some unit =>
                        if v >? max_int64 / unit then Some (0, Some (invalid_duration orig))
                        else
                          let v1 := v * unit in
                          let v2 := if f >? 0 then v1 + f * unit / scale else v1 in
                          if v2 >? max_int64 then Some (0, Some (invalid_duration orig))
                          else
                            let d' := d + v2 in
                            if d' >? max_int64 then Some (0, Some (invalid_duration orig))
                            else duration_groups fuel' orig s3 d'
                    end
            end
      end
  end.

(** [time.ParseDuration]. *)
Definition ParseDuration (orig : string) : Duration * option error :=
  let '(neg, s) :=
    match orig with
    | String c s' =>
        if (c =? "-")%char || (c =? "+")%char then ((c =? "-")%char, s') else (false, orig)
    | EmptyString => (false, orig)
    end in
  if bool_decide (s = "0") then (0, None)
  else if bool_decide (s = EmptyString) then (0, Some (invalid_duration orig))
  else
    match duration_groups (String.length s) orig s 0 with
    | Some (d, None) => (if neg then - d else d, None)
    | Some (_, Some e) => (0, Some e)
    | None => (0, Some (invalid_duration orig))
    end.

(** ** Submitted alerts (package models) *)

(** The API layer validates submissions before they reach this package, so
    the required fields, pointers in Go, are plain values here.  Latitude and
    longitude are carried through unchanged, as integers. *)

Record models_MetaItems0 : Type := {
  mm_Key : string;
  mm_Value : string;
}.

Record models_Event : Type := {
  me_Timestamp : string;
  me_Meta : list models_MetaItems0;
}.

Record models_Decision : Type := {
  md_Duration : string;
  md_Scenario : string;
  md_Type : string;
  md_StartIP : Z;
  md_EndIP : Z;
  md_Value : string;
  md_Scope : string;
  md_Origin : string;
}.

Record models_Source : Type := {
  ms_Scope : string;
  ms_Value : string;
  ms_IP : string;
  ms_Range : string;
  ms_AsNumber : string;
  ms_AsName : string;
  ms_Cn : string;
  ms_Latitude : Z;
  ms_Longitude : Z;
}.

Record models_Alert : Type := {
  ma_MachineID : string;
  ma_StartAt : string;
  ma_StopAt : string;
  ma_Events : list models_Event;
  ma_Meta : list models_MetaItems0;
  ma_Decisions : list models_Decision;
  ma_Scenario : string;
  ma_Message : string;
  ma_EventsCount : Z;
  ma_Source : models_Source;
  ma_Capacity : Z;
  ma_Leakspeed : string;
  ma_Simulated : bool;
  ma_ScenarioVersion : string;
  ma_ScenarioHash : string;
}.

(** ** Stored rows (package ent) *)

(** Modelled from the spec: the entity shapes of the data model.  A child row
    (decision, event, meta) carries the identifier of its owning alert, an
    alert carries the identifier of its owning machine; a row created but not
    yet attached has no owner. *)

Record ent_Machine : Type := {
  machine_ID : Z;
  machine_MachineId : string;
}.

Record ent_Event : Type := {
  event_ID : Z;
  event_Time : Time;
  event_Serialized : string;
  event_owner : option Z;
}.

Record ent_Meta : Type := {
  meta_ID : Z;
  meta_Key : string;
  meta_Value : string;
  meta_owner : option Z;
}.

Record ent_Decision : Type := {
  decision_ID : Z;
  decision_Until : Time;
  decision_Scenario : string;
  decision_Type : string;
  decision_StartIP : Z;
  decision_EndIP : Z;
  decision_Value : string;
  decision_Scope : string;
  decision_Origin : string;
  decision_Simulated : bool;
  decision_owner : option Z;
}.

Record ent_Alert : Type := {
  alert_ID : Z;
  alert_CreatedAt : Time;
  alert_Scenario : string;
  alert_Message : string;
  alert_EventsCount : Z;
  alert_StartedAt : Time;
  alert_StoppedAt : Time;
  alert_SourceScope : string;
  alert_SourceValue : string;
  alert_SourceIp : string;
  alert_SourceRange : string;
  alert_SourceAsNumber : string;
  alert_SourceAsName : string;
  alert_SourceCountry : string;
  alert_SourceLatitude : Z;
  alert_SourceLongitude : Z;
  alert_Capacity : Z;
  alert_LeakSpeed : string;
  alert_Simulated : bool;
  alert_ScenarioVersion : string;
  alert_ScenarioHash : string;
  alert_owner : option Z;
}.

(** An alert as a query returns it, with the edges that were asked for. *)
Record AlertView : Type := {
  view_alert : ent_Alert;
  Edges_Decisions : list ent_Decision;
  Edges_Events : list ent_Event;
  Edges_Metas : list ent_Meta;
  Edges_Owner : option ent_Machine;
}.

(** The create builders: the fields set on them and, for an alert, the
    identifiers of the rows added as edges. *)

Record EventCreate : Type := {
  ec_Time : Time;
  ec_Serialized : string;
}.

Record MetaCreate : Type := {
  mc_Key : string;
  mc_Value : string;
}.

Record DecisionCreate : Type := {
  dc_Until : Time;
  dc_Scenario : string;
  dc_Type : string;
  dc_StartIP : Z;
  dc_EndIP : Z;
  dc_Value : string;
  dc_Scope : string;
  dc_Origin : string;
  dc_Simulated : bool;
}.

Record AlertCreate : Type := {
  ac_Scenario : string;
  ac_Message : string;
  ac_EventsCount : Z;
  ac_StartedAt : Time;
  ac_StoppedAt : Time;
  ac_SourceScope : string;
  ac_SourceValue : string;
  ac_SourceIp : string;
  ac_SourceRange : string;
  ac_SourceAsNumber : string;
  ac_SourceAsName : string;
  ac_SourceCountry : string;
  ac_SourceLatitude : Z;
  ac_SourceLongitude : Z;
  ac_Capacity : Z;
  ac_LeakSpeed : string;
  ac_Simulated : bool;
  ac_ScenarioVersion : string;
  ac_ScenarioHash : string;
  ac_Decisions : list Z;
  ac_Events : list Z;
  ac_Metas : list Z;
  ac_Owner : option Z;
}.

(** Query predicates, as the generated predicate packages build them. *)

Inductive decision_Predicate : Type :=
| decision_TypeEQ (v : string)
| decision_OriginNEQ (v : string)
| decision_UntilGTE (v : Time)
| decision_StartIPGTE (v : Z)
| decision_EndIPLTE (v : Z).

Inductive alert_Predicate : Type :=
| alert_SimulatedEQ (v : bool)
| alert_SourceScopeEQ (v : string)
| alert_SourceValueEQ (v : string)
| alert_ScenarioEQ (v : string)
| alert_CreatedAtGTE (v : Time)
| alert_CreatedAtLTE (v : Time)
| alert_HasDecisions
| alert_HasDecisionsWith (p : decision_Predicate)
| alert_Not (p : alert_Predicate)
| alert_And (p q : alert_Predicate).

(** An alert query under construction: the predicates given to [Where], the
    edges to load and whether [Order(ent.Asc(alert.FieldCreatedAt))] was
    asked. *)
Record AlertQuery : Type := {
  q_predicates : list alert_Predicate;
  q_withDecisions : bool;
  q_withEvents : bool;
  q_withMetas : bool;
  q_withOwner : bool;
  q_orderCreatedAt : bool;
}.

Definition Alert_Query : AlertQuery :=
  {| q_predicates := []; q_withDecisions := false; q_withEvents := false;
     q_withMetas := false; q_withOwner := false; q_orderCreatedAt := false |}.

Definition Where (p : alert_Predicate) (q : AlertQuery) : AlertQuery :=
  {| q_predicates := q_predicates q ++ [p]; q_withDecisions := q_withDecisions q;
     q_withEvents := q_withEvents q; q_withMetas := q_withMetas q;
     q_withOwner := q_withOwner q; q_orderCreatedAt := q_orderCreatedAt q |}.

Definition WithEdges (q : AlertQuery) : AlertQuery :=
  {| q_predicates := q_predicates q; q_withDecisions := true; q_withEvents := true;
     q_withMetas := true; q_withOwner := true; q_orderCreatedAt := q_orderCreatedAt q |}.

Definition OrderAscCreatedAt (q : AlertQuery) : AlertQuery :=
  {| q_predicates := q_predicates q; q_withDecisions := q_withDecisions q;
     q_withEvents := q_withEvents q; q_withMetas := q_withMetas q;
     q_withOwner := q_withOwner q; q_orderCreatedAt := true |}.

(** ** The storage engine *)

(** Modelled from the spec: the transactional entity store the package
    consumes (section 6): bulk create per entity kind, query with predicate
    composition, ordered scan, count, delete and relation attachment.  The
    tables are lists of rows in insertion order; identifiers come from one
    sequence per table.  [faults] is the script of engine failures: every call
    to the engine consumes its head, [true] meaning that this call fails and
    changes nothing; an exhausted script means no further failure. *)
Record Client : Type := {
  Machine_table : list ent_Machine;
  Alert_table : list ent_Alert;
  Decision_table : list ent_Decision;
  Event_table : list ent_Event;
  Meta_table : list ent_Meta;
  Alert_seq : Z;
  Decision_seq : Z;
  Event_seq : Z;
  Meta_seq : Z;
  faults : list bool;
}.

Definition set_faults (fs : list bool) (c : Client) : Client :=
  {| Machine_table := Machine_table c; Alert_table := Alert_table c;
     Decision_table := Decision_table c; Event_table := Event_table c;
     Meta_table := Meta_table c; Alert_seq := Alert_seq c;
     Decision_seq := Decision_seq c; Event_seq := Event_seq c;
     Meta_seq := Meta_seq c; faults := fs |}.

Definition set_Events (t : list ent_Event) (seq : Z) (c : Client) : Client :=
  {| Machine_table := Machine_table c; Alert_table := Alert_table c;
     Decision_table := Decision_table c; Event_table := t;
     Meta_table := Meta_table c; Alert_seq := Alert_seq c;
     Decision_seq := Decision_seq c; Event_seq := seq;
     Meta_seq := Meta_seq c; faults := faults c |}.

Definition set_Metas (t : list ent_Meta) (seq : Z) (c : Client) : Client :=
  {| Machine_table := Machine_table c; Alert_table := Alert_table c;
     Decision_table := Decision_table c; Event_table := Event_table c;
     Meta_table := t; Alert_seq := Alert_seq c;
     Decision_seq := Decision_seq c; Event_seq := Event_seq c;
     Meta_seq := seq; faults := faults c |}.

Definition set_Decisions (t : list ent_Decision) (seq : Z) (c : Client) : Client :=
  {| Machine_table := Machine_table c; Alert_table := Alert_table c;
     Decision_table := t; Event_table := Event_table c;
     Meta_table := Meta_table c; Alert_seq := Alert_seq c;
     Decision_seq := seq; Event_seq := Event_seq c;
     Meta_seq := Meta_seq c; faults := faults c |}.

Definition set_Alerts (t : list ent_Alert) (seq : Z) (c : Client) : Client :=
  {| Machine_table := Machine_table c; Alert_table := t;
     Decision_table := Decision_table c; Event_table := Event_table c;
     Meta_table := Meta_table c; Alert_seq := seq;
     Decision_seq := Decision_seq c; Event_seq := Event_seq c;
     Meta_seq := Meta_seq c; faults := faults c |}.

(** Code that calls the engine threads the client through. *)
Definition State (A : Type) : Type := Client -> A * Client.

#[global] Instance State_ret : MRet State := λ A a c, (a, c).

#[global] Instance State_bind : MBind State :=
  λ A B k m c, let '(a, c') := m c in k a c'.

Definition engine_failure : error := Foreign "storage engine failure".

Definition engine_call : State bool := λ c,
  match faults c with
  | [] => (false, c)
  | f :: fs => (f, set_faults fs c)
  end.

(** *** Create *)

Fixpoint new_events (next : Z) (builders : list EventCreate) : list ent_Event :=
  match builders with
  | [] => []
  | b :: bs =>
      {| event_ID := next; event_Time := ec_Time b; event_Serialized := ec_Serialized b;
         event_owner := None |} :: new_events (next + 1) bs
  end.

Fixpoint new_metas (next : Z) (builders : list MetaCreate) : list ent_Meta :=
  match builders with
  | [] => []
  | b :: bs =>
      {| meta_ID := next; meta_Key := mc_Key b; meta_Value := mc_Value b;
         meta_owner := None |} :: new_metas (next + 1) bs
  end.

Fixpoint new_decisions (next : Z) (builders : list DecisionCreate) : list ent_Decision :=
  match builders with
  | [] => []
  | b :: bs =>
      {| decision_ID := next; decision_Until := dc_Until b;
         decision_Scenario := dc_Scenario b; decision_Type := dc_Type b;
         decision_StartIP := dc_StartIP b; decision_EndIP := dc_EndIP b;
         decision_Value := dc_Value b; decision_Scope := dc_Scope b;
         decision_Origin := dc_Origin b; decision_Simulated := dc_Simulated b;
         decision_owner := None |} :: new_decisions (next + 1) bs
  end.

(** The row of an alert builder; [createdAt] is assigned on persist. *)
Definition alert_row (id : Z) (createdAt : Time) (b : AlertCreate) : ent_Alert :=
  {| alert_ID := id; alert_CreatedAt := createdAt;
     alert_Scenario := ac_Scenario b; alert_Message := ac_Message b;
     alert_EventsCount := ac_EventsCount b; alert_StartedAt := ac_StartedAt b;
     alert_StoppedAt := ac_StoppedAt b; alert_SourceScope := ac_SourceScope b;
     alert_SourceValue := ac_SourceValue b; alert_SourceIp := ac_SourceIp b;
     alert_SourceRange := ac_SourceRange b; alert_SourceAsNumber := ac_SourceAsNumber b;
     alert_SourceAsName := ac_SourceAsName b; alert_SourceCountry := ac_SourceCountry b;
     alert_SourceLatitude := ac_SourceLatitude b;
     alert_SourceLongitude := ac_SourceLongitude b; alert_Capacity := ac_Capacity b;
     alert_LeakSpeed := ac_LeakSpeed b; alert_Simulated := ac_Simulated b;
     alert_ScenarioVersion := ac_ScenarioVersion b;
     alert_ScenarioHash := ac_ScenarioHash b; alert_owner := ac_Owner b |}.

Fixpoint new_alerts (next : Z) (createdAt : Time) (builders : list AlertCreate) : list ent_Alert :=
  match builders with
  | [] => []
  | b :: bs => alert_row next createdAt b :: new_alerts (next + 1) createdAt bs
  end.

(** Relation attachment: the rows named by [ids] get [owner] as their owning
    alert. *)
Definition attach_event (owner : Z) (ids : list Z) (e : ent_Event) : ent_Event :=
  if bool_decide (event_ID e ∈ ids) then
    {| event_ID := event_ID e; event_Time := event_Time e;
       event_Serialized := event_Serialized e; event_owner := Some owner |}
  else e.

Definition attach_meta (owner : Z) (ids : list Z) (m : ent_Meta) : ent_Meta :=
  if bool_decide (meta_ID m ∈ ids) then
    {| meta_ID := meta_ID m; meta_Key := meta_Key m; meta_Value := meta_Value m;
       meta_owner := Some owner |}
  else m.

Definition attach_decision (owner : Z) (ids : list Z) (d : ent_Decision) : ent_Decision :=
  if bool_decide (decision_ID d ∈ ids) then
    {| decision_ID := decision_ID d; decision_Until := decision_Until d;
       decision_Scenario := decision_Scenario d; decision_Type := decision_Type d;
       decision_StartIP := decision_StartIP d; decision_EndIP := decision_EndIP d;
       decision_Value := decision_Value d; decision_Scope := decision_Scope d;
       decision_Origin := decision_Origin d; decision_Simulated := decision_Simulated d;
       decision_owner := Some owner |}
  else d.

(** The edges of the builders of one bulk, attached in the order of the
    builders; the first builder gets the identifier [next]. *)
Fixpoint attach_edges (next : Z) (builders : list AlertCreate)
    (t : list ent_Decision * list ent_Event * list ent_Meta)
    : list ent_Decision * list ent_Event * list ent_Meta :=
  match builders with
  | [] => t
  | b :: bs =>
      let '(ds, es, ms) := t in
      attach_edges (next + 1) bs
        (attach_decision next (ac_Decisions b) <$> ds,
         attach_event next (ac_Events b) <$> es,
         attach_meta next (ac_Metas b) <$> ms)
  end.

(** [c.Ent.Event.CreateBulk(builders...).Save(c.CTX)]. *)
Definition Event_CreateBulk_Save (builders : list EventCreate)
    : State (list ent_Event * option error) :=
  failed ← engine_call;
  if failed : bool then mret ([], Some engine_failure)
  else λ c,
    let rows := new_events (Event_seq c + 1) builders in
    ((rows, None),
     set_Events (Event_table c ++ rows) (Event_seq c + Z.of_nat (length builders)) c).

(** [c.Ent.Meta.CreateBulk(builders...).Save(c.CTX)]. *)
Definition Meta_CreateBulk_Save (builders : list MetaCreate)
    : State (list ent_Meta * option error) :=
  failed ← engine_call;
  if failed : bool then mret ([], Some engine_failure)
  else λ c,
    let rows := new_metas (Meta_seq c + 1) builders in
    ((rows, None),
     set_Metas (Meta_table c ++ rows) (Meta_seq c + Z.of_nat (length builders)) c).

(** [c.Ent.Decision.CreateBulk(builders...).Save(c.CTX)]. *)
Definition Decision_CreateBulk_Save (builders : list DecisionCreate)
    : State (list ent_Decision * option error) :=
  failed ← engine_call;
  if failed : bool then mret ([], Some engine_failure)
  else λ c,
    let rows := new_decisions (Decision_seq c + 1) builders in
    ((rows, None),
     set_Decisions (Decision_table c ++ rows)
       (Decision_seq c + Z.of_nat (length builders)) c).

(** [c.Ent.Alert.CreateBulk(builders...).Save(c.CTX)]: one row per builder, in
    the order of the builders, created at [now], with its edges attached. *)
Definition Alert_CreateBulk_Save (now : Time) (builders : list AlertCreate)
    : State (list ent_Alert * option error) :=
  failed ← engine_call;
  if failed : bool then mret ([], Some engine_failure)
  else λ c,
    let rows := new_alerts (Alert_seq c + 1) now builders in
    let '(ds, es, ms) :=
      attach_edges (Alert_seq c + 1) builders
        (Decision_table c, Event_table c, Meta_table c) in
    ((rows, None),
     set_Alerts (Alert_table c ++ rows) (Alert_seq c + Z.of_nat (length builders))
       (set_Decisions ds (Decision_seq c)
          (set_Events es (Event_seq c) (set_Metas ms (Meta_seq c) c)))).

(** *** Query *)

Definition decision_holds (p : decision_Predicate) (d : ent_Decision) : bool :=
  match p with
  | decision_TypeEQ v => bool_decide (decision_Type d = v)
  | decision_OriginNEQ v => bool_decide (decision_Origin d ≠ v)
  | decision_UntilGTE v => bool_decide (v ≤ decision_Until d)
  | decision_StartIPGTE v => bool_decide (v ≤ decision_StartIP d)
  | decision_EndIPLTE v => bool_decide (decision_EndIP d ≤ v)
  end.

(** The children of the alert [id]. *)
Definition decisions_of (c : Client) (id : Z) : list ent_Decision :=
  filter (λ d, decision_owner d = Some id) (Decision_table c).

Definition events_of (c : Client) (id : Z) : list ent_Event :=
  filter (λ e, event_owner e = Some id) (Event_table c).

Definition metas_of (c : Client) (id : Z) : list ent_Meta :=
  filter (λ m, meta_owner m = Some id) (Meta_table c).

Definition owner_of (c : Client) (a : ent_Alert) : option ent_Machine :=
  match alert_owner a with
  | Some id => head (filter (λ m, machine_ID m = id) (Machine_table c))
  | None => None
  end.

Fixpoint alert_holds (c : Client) (p : alert_Predicate) (a : ent_Alert) : bool :=
  match p with
  | alert_SimulatedEQ v => bool_decide (alert_Simulated a = v)
  | alert_SourceScopeEQ v => bool_decide (alert_SourceScope a = v)
  | alert_SourceValueEQ v => bool_decide (alert_SourceValue a = v)
  | alert_ScenarioEQ v => bool_decide (alert_Scenario a = v)
  | alert_CreatedAtGTE v => bool_decide (v ≤ alert_CreatedAt a)
  | alert_CreatedAtLTE v => bool_decide (alert_CreatedAt a ≤ v)
  | alert_HasDecisions => bool_decide (decisions_of c (alert_ID a) ≠ [])
  | alert_HasDecisionsWith dp => existsb (decision_holds dp) (decisions_of c (alert_ID a))
  | alert_Not q => negb (alert_holds c q a)
  | alert_And q r => alert_holds c q a && alert_holds c r a
  end.

(** An alert is selected when every predicate given to [Where] holds. *)
Definition selected (c : Client) (q : AlertQuery) (a : ent_Alert) : bool :=
  forallb (λ p, alert_holds c p a) (q_predicates q).

Definition created_le (a b : ent_Alert) : Prop := alert_CreatedAt a ≤ alert_CreatedAt b.

#[global] Instance created_le_dec : RelDecision created_le.
Proof. intros a b. unfold created_le. apply _. Defined.

Definition load_edges (c : Client) (q : AlertQuery) (a : ent_Alert) : AlertView :=
  {| view_alert := a;
     Edges_Decisions := if q_withDecisions q then decisions_of c (alert_ID a) else [];
     Edges_Events := if q_withEvents q then events_of c (alert_ID a) else [];
     Edges_Metas := if q_withMetas q then metas_of c (alert_ID a) else [];
     Edges_Owner := if q_withOwner q then owner_of c a else None |}.

(** The rows a query selects, in the order it returns them. *)
Definition query_rows (c : Client) (q : AlertQuery) : list ent_Alert :=
  let rows := filter (λ a, selected c q a) (Alert_table c) in
  if q_orderCreatedAt q then merge_sort created_le rows else rows.

(** [q.All(c.CTX)]. *)
Definition Alert_All (q : AlertQuery) : State (list AlertView * option error) :=
  failed ← engine_call;
  if failed : bool then mret ([], Some engine_failure)
  else λ c, ((map (load_edges c q) (query_rows c q), None), c).

(** [q.Count(c.CTX)]. *)
Definition Alert_Count (q : AlertQuery) : State (Z * option error) :=
  failed ← engine_call;
  if failed : bool then mret (0, Some engine_failure)
  else λ c, ((Z.of_nat (length (query_rows c q)), None), c).

(** *** Delete *)

(** [c.Ent.Event.Delete().Where(event.HasOwnerWith(alert.IDEQ(id))).Exec(c.CTX)]:
    the number of rows deleted and the error. *)
Definition Event_Delete_owned (id : Z) : State (Z * option error) :=
  failed ← engine_call;
  if failed : bool then mret (0, Some engine_failure)
  else λ c,
    ((Z.of_nat (length (events_of c id)), None),
     set_Events (filter (λ e, event_owner e ≠ Some id) (Event_table c)) (Event_seq c) c).

(** [c.Ent.Meta.Delete().Where(meta.HasOwnerWith(alert.IDEQ(id))).Exec(c.CTX)]. *)
Definition Meta_Delete_owned (id : Z) : State (Z * option error) :=
  failed ← engine_call;
  if failed : bool then mret (0, Some engine_failure)
  else λ c,
    ((Z.of_nat (length (metas_of c id)), None),
     set_Metas (filter (λ m, meta_owner m ≠ Some id) (Meta_table c)) (Meta_seq c) c).

(** [c.Ent.Decision.Delete().Where(decision.HasOwnerWith(alert.IDEQ(id))).Exec(c.CTX)]. *)
Definition Decision_Delete_owned (id : Z) : State (Z * option error) :=
  failed ← engine_call;
  if failed : bool then mret (0, Some engine_failure)
  else λ c,
    ((Z.of_nat (length (decisions_of c id)), None),
     set_Decisions (filter (λ d, decision_owner d ≠ Some id) (Decision_table c))
       (Decision_seq c) c).

(** [c.Ent.Alert.DeleteOne(alertItem).Exec(c.CTX)]. *)
Definition Alert_DeleteOne (alertItem : AlertView) : State (option error) :=
  failed ← engine_call;
  if failed : bool then mret (Some engine_failure)
  else λ c,
    (None,
     set_Alerts (filter (λ a, alert_ID a ≠ alert_ID (view_alert alertItem)) (Alert_table c))
       (Alert_seq c) c).

(** The store once the graph of the alert [id] is gone: its events, its
    metas, its decisions and the alert row. *)
Definition without_graph (id : Z) (c : Client) : Client :=
  set_Alerts (filter (λ a, alert_ID a ≠ id) (Alert_table c)) (Alert_seq c)
    (set_Decisions (filter (λ d, decision_owner d ≠ Some id) (Decision_table c))
       (Decision_seq c)
       (set_Metas (filter (λ m, meta_owner m ≠ Some id) (Meta_table c)) (Meta_seq c)
          (set_Events (filter (λ e, event_owner e ≠ Some id) (Event_table c))
             (Event_seq c) c))).

Definition without_graphs (ids : list Z) (c : Client) : Client :=
  foldl (λ c id, without_graph id c) c ids.

(** *** Machines *)

(** Modelled from the spec: the machine-lookup collaborator, which resolves a
    reporter identifier to a machine or to a distinguishable not-found signal
    ([UserNotExists]), and can fail otherwise. *)
Definition QueryMachineByID (machineID : string) : State (option ent_Machine * option error) :=
  failed ← engine_call;
  if failed : bool then mret (None, Some engine_failure)
  else λ c,
    match filter (λ m, machine_MachineId m = machineID) (Machine_table c) with
    | m :: _ => ((Some m, None), c)
    | [] => ((None, Some (Wrap UserNotExists "user '%s'" [ArgS machineID])), c)
    end.

(** ** Collaborators outside the file *)

(** The functions the file calls whose definitions live elsewhere: the
    RFC 3339 parser of package time, the JSON encoder, the IP codec of the
    package ([IsIpv4], [GetIpsFromIpRange]) and the zone of the local clock.
    The embedding is parametric in them. *)
Class Collaborators : Type := {
  time_Parse_RFC3339 : string -> Time * option error;
  json_Marshal : list models_MetaItems0 -> string * option error;
  IsIpv4 : string -> bool;
  GetIpsFromIpRange : string -> Z * Z * option error;
  Local_offset : Z;
}.

(** ** [CreateAlertBulk] *)

(** A run that either goes on with a value or leaves the function with
    [return []string{}, err]. *)
Definition Proc (A : Type) : Type := Client -> (error + A) * Client.

#[global] Instance Proc_ret : MRet Proc := λ A a c, (inr a, c).

#[global] Instance Proc_bind : MBind Proc :=
  λ A B k m c,
    match m c with
    | (inl e, c') => (inl e, c')
    | (inr a, c') => k a c'
    end.

(** [v, err := call; if err != nil { return []string{}, wrap(err) }]. *)
Definition check {A : Type} (m : State (A * option error)) (wrap : error -> error) : Proc A :=
  λ c,
    let '((a, err), c') := m c in
    match err with
    | Some e => (inl (wrap e), c')
    | None => (inr a, c')
    end.

Definition check_pure {A : Type} (r : A * option error) (wrap : error -> error) : Proc A :=
  check (mret r) wrap.

Definition leave {A : Type} (r : error + A) : Proc A := λ c, (r, c).

(** The variables that live across the rounds of the loop over [alertList]:
    [decisions], [metas] and [events] are declared before the loop, next to
    [ret] and [bulk]. *)
Record BulkVars : Type := {
  bv_decisions : list ent_Decision;
  bv_metas : list ent_Meta;
  bv_events : list ent_Event;
  bv_ret : list string;
  bv_bulk : list AlertCreate;
}.

Definition bulkSize : nat := 20.

(** A filter, [map[string][]string] in Go: its entries in the order in which
    [range] visits them, which Go leaves unspecified.  A statement about every
    list of entries is a statement about every order of visit. *)
Abbreviation FilterMap := (list (string * list string)).

Section Package.
Context `{Collaborators}.

(** Lines 48-61: the builders of the events of one alert. *)
Fixpoint event_builders (items : list models_Event) : error + list EventCreate :=
  match items with
  | [] => inr []
  | eventItem :: rest =>
      let '(ts, err) := time_Parse_RFC3339 (me_Timestamp eventItem) in
      match err with
      | Some _ =>
          inl (Wrap ParseTimeFail "event timestamp '%s' : %s"
                 [ArgS (me_Timestamp eventItem); ArgE err])
      | None =>
          let '(marshallMetas, err) := json_Marshal (me_Meta eventItem) in
          match err with
          | Some _ => inl (Wrap MarshalFail "event meta '%v' : %s" [ArgV; ArgE err])
          | None =>
              match event_builders rest with
              | inl e => inl e
              | inr bs =>
                  inr ({| ec_Time := ts; ec_Serialized := marshallMetas |} :: bs)
              end
          end
      end
  end.

(** Lines 70-74. *)
Definition meta_builders (items : list models_MetaItems0) : list MetaCreate :=
  (λ metaItem, {| mc_Key := mm_Key metaItem; mc_Value := mm_Value metaItem |}) <$> items.

(** Lines 83-98: [until] is the clock plus the declared duration. *)
Fixpoint decision_builders (now : Time) (simulated : bool) (items : list models_Decision)
    : error + list DecisionCreate :=
  match items with
  | [] => inr []
  | decisionItem :: rest =>
      let '(duration, err) := ParseDuration (md_Duration decisionItem) in
      match err with
      | Some _ => inl (Wrap ParseDurationFail "decision duration '%v' : %s" [ArgV; ArgE err])
      | None =>
          match decision_builders now simulated rest with
          | inl e => inl e
          | inr bs =>
              inr ({| dc_Until := now + duration;
                      dc_Scenario := md_Scenario decisionItem;
                      dc_Type := md_Type decisionItem;
                      dc_StartIP := md_StartIP decisionItem;
                      dc_EndIP := md_EndIP decisionItem;
                      dc_Value := md_Value decisionItem;
                      dc_Scope := md_Scope decisionItem;
                      dc_Origin := md_Origin decisionItem;
                      dc_Simulated := simulated |} :: bs)
          end
      end
  end.

(** Lines 106-133: the alert builder, with the children and the owner at
    hand. *)
Definition alert_builder (alertItem : models_Alert) (startAtTime stopAtTime : Time)
    (decisions : list ent_Decision) (events : list ent_Event) (metas : list ent_Meta)
    (owner : option ent_Machine) : AlertCreate :=
  {| ac_Scenario := ma_Scenario alertItem;
     ac_Message := ma_Message alertItem;
     ac_EventsCount := ma_EventsCount alertItem;
     ac_StartedAt := startAtTime;
     ac_StoppedAt := stopAtTime;
     ac_SourceScope := ms_Scope (ma_Source alertItem);
     ac_SourceValue := ms_Value (ma_Source alertItem);
     ac_SourceIp := ms_IP (ma_Source alertItem);
     ac_SourceRange := ms_Range (ma_Source alertItem);
     ac_SourceAsNumber := ms_AsNumber (ma_Source alertItem);
     ac_SourceAsName := ms_AsName (ma_Source alertItem);
     ac_SourceCountry := ms_Cn (ma_Source alertItem);
     ac_SourceLatitude := ms_Latitude (ma_Source alertItem);
     ac_SourceLongitude := ms_Longitude (ma_Source alertItem);
     ac_Capacity := ma_Capacity alertItem;
     ac_LeakSpeed := ma_Leakspeed alertItem;
     ac_Simulated := ma_Simulated alertItem;
     ac_ScenarioVersion := ma_ScenarioVersion alertItem;
     ac_ScenarioHash := ma_ScenarioHash alertItem;
     ac_Decisions := decision_ID <$> decisions;
     ac_Events := event_ID <$> events;
     ac_Metas := meta_ID <$> metas;
     ac_Owner := machine_ID <$> owner |}.

(** Lines 29-35: the owner; a lookup error other than [UserNotExists] leaves
    the function. *)
Definition resolve_owner (machineId : string) (alertItem : models_Alert)
    : Proc (option ent_Machine) :=
  λ c,
    let '((owner, err), c') := QueryMachineByID machineId c in
    match err with
    | Some e =>
        if negb (caused_by UserNotExists e) then
          (inl (Wrap QueryFail "machine '%s': %s" [ArgS (ma_MachineID alertItem); ArgE err]), c')
        else (inr None, c')
    | None => (inr owner, c')
    end.

(** Lines 46-66: the events of the alert are persisted when it has some;
    otherwise [events] keeps the value it has. *)
Definition persist_events (alertItem : models_Alert) (st : BulkVars) : Proc (list ent_Event) :=
  if (0 <? length (ma_Events alertItem))%nat then
    eventBulk ← leave (event_builders (ma_Events alertItem));
    check (Event_CreateBulk_Save eventBulk)
      (λ err, Wrap BulkError "creating alert events: %s" [ArgE (Some err)])
  else mret (bv_events st).

(** Lines 68-79, for [metas]. *)
Definition persist_metas (alertItem : models_Alert) (st : BulkVars) : Proc (list ent_Meta) :=
  if (0 <? length (ma_Meta alertItem))%nat then
    check (Meta_CreateBulk_Save (meta_builders (ma_Meta alertItem)))
      (λ err, Wrap BulkError "creating alert meta: %s" [ArgE (Some err)])
  else mret (bv_metas st).

(** Lines 81-104, for [decisions]. *)
Definition persist_decisions (now : Time) (alertItem : models_Alert) (st : BulkVars)
    : Proc (list ent_Decision) :=
  if (0 <? length (ma_Decisions alertItem))%nat then
    decisionBulk ←
      leave (decision_builders now (ma_Simulated alertItem) (ma_Decisions alertItem));
    check (Decision_CreateBulk_Save decisionBulk)
      (λ err, Wrap BulkError "creating alert decisions: %s" [ArgE (Some err)])
  else mret (bv_decisions st).

(** Lines 134-150: the builder joins the bulk, which is persisted when it
    reaches [bulkSize].  The slices made at lines 146 and 148 differ in
    capacity only; both are empty. *)
Definition append_to_bulk (now : Time) (alertB : AlertCreate)
    (decisions : list ent_Decision) (metas : list ent_Meta) (events : list ent_Event)
    (st : BulkVars) : Proc BulkVars :=
  let bulk := bv_bulk st ++ [alertB] in
  if (length bulk =? bulkSize)%nat then
    alerts ← check (Alert_CreateBulk_Save now bulk)
      (λ err, Wrap BulkError "creating alert : %s" [ArgE (Some err)]);
    mret {| bv_decisions := decisions; bv_metas := metas; bv_events := events;
            bv_ret := bv_ret st ++ ((λ a, Itoa (alert_ID a)) <$> alerts);
            bv_bulk := [] |}
  else
    mret {| bv_decisions := decisions; bv_metas := metas; bv_events := events;
            bv_ret := bv_ret st; bv_bulk := bulk |}.

(** Lines 29-150: one round of the loop. *)
Definition CreateAlertBulk_item (now : Time) (machineId : string)
    (alertItem : models_Alert) (st : BulkVars) : Proc BulkVars :=
  owner ← resolve_owner machineId alertItem;
  startAtTime ← check_pure (time_Parse_RFC3339 (ma_StartAt alertItem))
    (λ err, Wrap ParseTimeFail "start_at field time '%s': %s"
              [ArgS (ma_StartAt alertItem); ArgE (Some err)]);
  stopAtTime ← check_pure (time_Parse_RFC3339 (ma_StopAt alertItem))
    (λ err, Wrap ParseTimeFail "stop_at field time '%s': %s"
              [ArgS (ma_StopAt alertItem); ArgE (Some err)]);
  events ← persist_events alertItem st;
  metas ← persist_metas alertItem st;
  decisions ← persist_decisions now alertItem st;
  append_to_bulk now
    (alert_builder alertItem startAtTime stopAtTime decisions events metas owner)
    decisions metas events st.

Fixpoint CreateAlertBulk_loop (now : Time) (machineId : string)
    (alertList : list models_Alert) (st : BulkVars) : Proc BulkVars :=
  match alertList with
  | [] => mret st
  | alertItem :: rest =>
      st' ← CreateAlertBulk_item now machineId alertItem st;
      CreateAlertBulk_loop now machineId rest st'
  end.

Definition BulkVars_init : BulkVars :=
  {| bv_decisions := []; bv_metas := []; bv_events := []; bv_ret := []; bv_bulk := [] |}.

(** [func (c *Client) CreateAlertBulk(machineId string, alertList []*models.Alert)
    ([]string, error)], with the clock at [now]. *)
Definition CreateAlertBulk (now : Time) (machineId : string) (alertList : list models_Alert)
    : State (list string * option error) :=
  λ c,
    match CreateAlertBulk_loop now machineId alertList BulkVars_init c with
    | (inl e, c') => (([], Some e), c')
    | (inr st, c') =>
        let '((alerts, err), c'') := Alert_CreateBulk_Save now (bv_bulk st) c' in
        match err with
        | Some _ => (([], Some (Wrap BulkError "creating alert : %s" [ArgE err])), c'')
        | None => ((bv_ret st ++ ((λ a, Itoa (alert_ID a)) <$> alerts), None), c'')
        end
    end.

(** *** Vocabulary for the statements about ingestion *)

Definition parses {A : Type} (r : A * option error) : bool :=
  match snd r with
  | None => true
  | Some _ => false
  end.

(** A submission whose instants and durations parse and whose event
    metadata serializes. *)
Definition valid_submission (alertItem : models_Alert) : bool :=
  parses (time_Parse_RFC3339 (ma_StartAt alertItem)) &&
  parses (time_Parse_RFC3339 (ma_StopAt alertItem)) &&
  forallb (λ e, parses (time_Parse_RFC3339 (me_Timestamp e)) &&
                parses (json_Marshal (me_Meta e))) (ma_Events alertItem) &&
  forallb (λ d, parses (ParseDuration (md_Duration d))) (ma_Decisions alertItem).

(** The machine a fault-free lookup of [machineId] resolves to. *)
Definition machine_of (c : Client) (machineId : string) : option ent_Machine :=
  head (filter (λ m, machine_MachineId m = machineId) (Machine_table c)).

(** The row [row] carries the fields of the submission [alertItem], was
    created at [now] and is owned by [owner]. *)
Definition ingested (now : Time) (owner : option ent_Machine) (alertItem : models_Alert)
    (row : ent_Alert) : Prop :=
  alert_CreatedAt row = now /\
  alert_Scenario row = ma_Scenario alertItem /\
  alert_Message row = ma_Message alertItem /\
  alert_EventsCount row = ma_EventsCount alertItem /\
  alert_StartedAt row = fst (time_Parse_RFC3339 (ma_StartAt alertItem)) /\
  alert_StoppedAt row = fst (time_Parse_RFC3339 (ma_StopAt alertItem)) /\
  alert_SourceScope row = ms_Scope (ma_Source alertItem) /\
  alert_SourceValue row = ms_Value (ma_Source alertItem) /\
  alert_SourceIp row = ms_IP (ma_Source alertItem) /\
  alert_SourceRange row = ms_Range (ma_Source alertItem) /\
  alert_SourceAsNumber row = ms_AsNumber (ma_Source alertItem) /\
  alert_SourceAsName row = ms_AsName (ma_Source alertItem) /\
  alert_SourceCountry row = ms_Cn (ma_Source alertItem) /\
  alert_SourceLatitude row = ms_Latitude (ma_Source alertItem) /\
  alert_SourceLongitude row = ms_Longitude (ma_Source alertItem) /\
  alert_Capacity row = ma_Capacity alertItem /\
  alert_LeakSpeed row = ma_Leakspeed alertItem /\
  alert_Simulated row = ma_Simulated alertItem /\
  alert_ScenarioVersion row = ma_ScenarioVersion alertItem /\
  alert_ScenarioHash row = ma_ScenarioHash alertItem /\
  alert_owner row = machine_ID <$> owner.

(** Persisting children leaves the alerts, the machines and the script of
    failures as they are. *)
Definition alerts_untouched (c c' : Client) : Prop :=
  faults c' = [] /\ Alert_table c' = Alert_table c /\ Alert_seq c' = Alert_seq c /\
  Machine_table c' = Machine_table c.

(** The alert rows of the call so far, persisted or waiting in the bulk, and
    their identifiers as the call will return them. *)
Definition rows_so_far (now : Time) (st : BulkVars) (c : Client) : list ent_Alert :=
  Alert_table c ++ new_alerts (Alert_seq c + 1) now (bv_bulk st).

Definition ids_so_far (now : Time) (st : BulkVars) (c : Client) : list string :=
  bv_ret st ++ ((λ a, Itoa (alert_ID a)) <$> new_alerts (Alert_seq c + 1) now (bv_bulk st)).

(** The identifier the next alert of the call will get. *)
Definition next_id (st : BulkVars) (c : Client) : Z :=
  Alert_seq c + 1 + Z.of_nat (length (bv_bulk st)).

Fixpoint consecutive (first : Z) (n : nat) : list Z :=
  match n with
  | O => []
  | S k => first :: consecutive (first + 1) k
  end.

(** Alert identifiers are distinct and were handed out by the sequence. *)
Definition well_keyed (c : Client) : Prop :=
  NoDup (alert_ID <$> Alert_table c) /\
  Forall (λ a, alert_ID a <= Alert_seq c) (Alert_table c).

(** ** [BuildAlertRequestFromFilter] *)


Fixpoint Filter_lookup (k : string) (f : FilterMap) : option (list string) :=
  match f with
  | [] => None
  | (k', v) :: rest => if bool_decide (k' = k) then Some v else Filter_lookup k rest
  end.

Definition Filter_delete (k : string) (f : FilterMap) : FilterMap :=
  filter (λ kv, kv.1 ≠ k) f.

#[global] Instance Go_ret : MRet Go := λ A a, Returns a.

#[global] Instance Go_bind : MBind Go := λ A B k m, go_bind m k.

(** The variables of the compiler that live across the rounds: the query and
    the bounds set by the [ip] and [range] keys. *)
Record FilterVars : Type := {
  fv_alerts : AlertQuery;
  fv_startIP : Z;
  fv_endIP : Z;
}.

Definition fv_Where (p : alert_Predicate) (st : FilterVars) : FilterVars :=
  {| fv_alerts := Where p (fv_alerts st); fv_startIP := fv_startIP st;
     fv_endIP := fv_endIP st |}.

Definition fv_bounds (startIP endIP : Z) (st : FilterVars) : FilterVars :=
  {| fv_alerts := fv_alerts st; fv_startIP := startIP; fv_endIP := endIP |}.

(** Lines 179-239: the [switch] on one entry; [inl] is [return nil, err].  The
    line logged for an unknown [include_capi] value is not part of the
    result. *)
Definition BuildAlertRequestFromFilter_param (now : Time) (param : string)
    (value : list string) (st : FilterVars) : Go (error + FilterVars) :=
  if bool_decide (param = "scope") then
    v ← index0 value; mret (inr (fv_Where (alert_SourceScopeEQ v) st))
  else if bool_decide (param = "value") then
    v ← index0 value; mret (inr (fv_Where (alert_SourceValueEQ v) st))
  else if bool_decide (param = "scenario") then
    v ← index0 value; mret (inr (fv_Where (alert_ScenarioEQ v) st))
  else if bool_decide (param = "ip") then
    v ← index0 value;
    if negb (IsIpv4 v) then
      mret (inl (Wrap InvalidIPOrRange "unable to parse '%s': %s" [ArgS v; ArgE None]))
    else
      let '(startIP, endIP, err) := GetIpsFromIpRange (v +:+ "/32") in
      match err with
      | Some _ =>
          mret (inl (Wrap InvalidIPOrRange "unable to convert '%s' to int interval: %s"
                       [ArgS v; ArgE err]))
      | None => mret (inr (fv_bounds startIP endIP st))
      end
  else if bool_decide (param = "range") then
    v ← index0 value;
    let '(startIP, endIP, err) := GetIpsFromIpRange v in
    match err with
    | Some _ =>
        mret (inl (Wrap InvalidIPOrRange "unable to convert '%s' to int interval: %s"
                     [ArgS v; ArgE err]))
    | None => mret (inr (fv_bounds startIP endIP st))
    end
  else if bool_decide (param = "since") then
    v ← index0 value;
    let '(duration, err) := ParseDuration v in
    match err with
    | Some e => mret (inl (Wrap e "while parsing duration" []))
    | None =>
        let since := now + - duration in
        if IsZero since then mret (inl (Errorf "Empty time now() - %s" [ArgV]))
        else mret (inr (fv_Where (alert_CreatedAtGTE since) st))
    end
  else if bool_decide (param = "until") then
    v ← index0 value;
    let '(duration, err) := ParseDuration v in
    match err with
    | Some e => mret (inl (Wrap e "while parsing duration" []))
    | None =>
        let since := now + - duration in
        if IsZero since then mret (inl (Errorf "Empty time now() - %s" [ArgV]))
        else mret (inr (fv_Where (alert_CreatedAtLTE since) st))
    end
  else if bool_decide (param = "decision_type") then
    v ← index0 value;
    mret (inr (fv_Where (alert_HasDecisionsWith (decision_TypeEQ v)) st))
  else if bool_decide (param = "include_capi") then
    v ← index0 value;
    if bool_decide (v = "false") then
      mret (inr (fv_Where (alert_HasDecisionsWith (decision_OriginNEQ "CAPI")) st))
    else mret (inr st)
  else if bool_decide (param = "has_active_decision") then
    v ← index0 value;
    let '(hasActiveDecision, err) := ParseBool v in
    match err with
    | Some _ => mret (inl (Wrap ParseType "'%s' is not a boolean: %s" [ArgS v; ArgE err]))
    | None =>
        if hasActiveDecision then
          mret (inr (fv_Where (alert_HasDecisionsWith (decision_UntilGTE now)) st))
        else mret (inr (fv_Where (alert_Not alert_HasDecisions) st))
    end
  else
    v ← index0 value;
    mret (inl (Wrap InvalidFilter "Filter parameter '%s' is unknown (=%s)" [ArgS param; ArgS v])).

(** The keys the [switch] has a case for, and [simulated], which is handled
    before the loop. *)
Definition recognized_keys : list string :=
  ["simulated"; "scope"; "value"; "scenario"; "ip"; "range"; "since"; "until";
   "decision_type"; "include_capi"; "has_active_decision"].

(** Lines 178-240: [for param, value := range filter]. *)
Fixpoint BuildAlertRequestFromFilter_loop (now : Time) (entries : FilterMap) (st : FilterVars)
    : Go (error + FilterVars) :=
  match entries with
  | [] => mret (inr st)
  | (param, value) :: rest =>
      r ← BuildAlertRequestFromFilter_param now param value st;
      match r with
      | inl e => mret (inl e)
      | inr st' => BuildAlertRequestFromFilter_loop now rest st'
      end
  end.

(** Lines 241-246: the restriction to the bounds. *)
Definition bounds_restriction (st : FilterVars) : AlertQuery :=
  if bool_decide (fv_startIP st ≠ 0) && bool_decide (fv_endIP st ≠ 0) then
    Where (alert_And (alert_HasDecisionsWith (decision_StartIPGTE (fv_startIP st)))
                     (alert_HasDecisionsWith (decision_EndIPLTE (fv_endIP st))))
      (fv_alerts st)
  else fv_alerts st.

(** Lines 171-176: the [simulated] key is consumed before the loop and
    removed from the filter. *)
Definition simulated_prelude (alerts : AlertQuery) (f : FilterMap) : Go (AlertQuery * FilterMap) :=
  match Filter_lookup "simulated" f with
  | Some v =>
      v0 ← index0 v;
      mret (if bool_decide (v0 = "false") then Where (alert_SimulatedEQ false) alerts
            else alerts,
            Filter_delete "simulated" f)
  | None => mret (alerts, f)
  end.

Definition FilterVars_init (alerts : AlertQuery) : FilterVars :=
  {| fv_alerts := alerts; fv_startIP := 0; fv_endIP := 0 |}.

(** Lines 241-247: the end of the function, from the outcome of the loop. *)
Definition compiled (r : error + FilterVars) : option AlertQuery * option error :=
  match r with
  | inl e => (None, Some e)
  | inr st => (Some (bounds_restriction st), None)
  end.

(** [func BuildAlertRequestFromFilter(alerts, filter)] returning a query and an
    error, with the clock at [now]; the query returned is [None] for [nil]. *)
Definition BuildAlertRequestFromFilter (now : Time) (alerts : AlertQuery) (f : FilterMap)
    : Go (option AlertQuery * option error) :=
  '(alerts, f) ← simulated_prelude alerts f;
  r ← BuildAlertRequestFromFilter_loop now f (FilterVars_init alerts);
  mret (compiled r).

(** Two queries that differ by one predicate [p] given to [Where]: [q'] has
    [p] where [q] has nothing. *)
Definition one_more_predicate (p : alert_Predicate) (q q' : AlertQuery) : Prop :=
  q_withDecisions q' = q_withDecisions q /\ q_withEvents q' = q_withEvents q /\
  q_withMetas q' = q_withMetas q /\ q_withOwner q' = q_withOwner q /\
  q_orderCreatedAt q' = q_orderCreatedAt q /\
  exists l1 l2, q_predicates q = l1 ++ l2 /\ q_predicates q' = l1 ++ p :: l2.

Definition one_more_predicate_vars (p : alert_Predicate) (st st' : FilterVars) : Prop :=
  fv_startIP st' = fv_startIP st /\ fv_endIP st' = fv_endIP st /\
  one_more_predicate p (fv_alerts st) (fv_alerts st').

(** ** [QueryAlertWithFilter], [DeleteAlertGraph], [DeleteAlertWithFilter] *)

(** [func (c *Client) QueryAlertWithFilter(filter map[string][]string)
    ([]*ent.Alert, error)].  A nil query with a nil error cannot be used. *)
Definition QueryAlertWithFilter (now : Time) (f : FilterMap)
    : Client -> Go (list AlertView * option error) * Client :=
  λ c,
    match BuildAlertRequestFromFilter now Alert_Query f with
    | Panics => (Panics, c)
    | Returns (_, Some err) => (Returns ([], Some err), c)
    | Returns (None, None) => (Panics, c)
    | Returns (Some alerts, None) =>
        let '((result, err), c') := Alert_All (OrderAscCreatedAt (WithEdges alerts)) c in
        match err with
        | Some _ => (Returns ([], Some (Wrap QueryFail "filter '%+v'" [ArgV])), c')
        | None => (Returns (result, None), c')
        end
    end.

(** [func (c *Client) DeleteAlertGraph(alertItem *ent.Alert) error]. *)
Definition DeleteAlertGraph (alertItem : AlertView) : State (option error) :=
  let id := alert_ID (view_alert alertItem) in
  '(_, err) ← Event_Delete_owned id;
  match err with
  | Some _ => mret (Some (Wrap DeleteFail "event with alert ID '%d'" [ArgD id]))
  | None =>
      '(_, err) ← Meta_Delete_owned id;
      match err with
      | Some _ => mret (Some (Wrap DeleteFail "meta with alert ID '%d'" [ArgD id]))
      | None =>
          '(_, err) ← Decision_Delete_owned id;
          match err with
          | Some _ => mret (Some (Wrap DeleteFail "decision with alert ID '%d'" [ArgD id]))
          | None =>
              err ← Alert_DeleteOne alertItem;
              match err with
              | Some _ => mret (Some (Wrap DeleteFail "alert with ID '%d'" [ArgD id]))
              | None => mret None
              end
          end
      end
  end.

(** Lines 310-315: the loop over [alertsToDelete]; [Some e] is the error the
    function returns from inside the loop. *)
Fixpoint DeleteAlertWithFilter_loop (alertsToDelete : list AlertView) : State (option error) :=
  match alertsToDelete with
  | [] => mret None
  | alertItem :: rest =>
      err ← DeleteAlertGraph alertItem;
      match err with
      | Some _ =>
          mret (Some (Wrap DeleteFail "event with alert ID '%d'"
                        [ArgD (alert_ID (view_alert alertItem))]))
      | None => DeleteAlertWithFilter_loop rest
      end
  end.

(** [func (c *Client) DeleteAlertWithFilter(filter map[string][]string)
    ([]*ent.Alert, error)].  The error of the query is assigned at line 308
    and not read afterwards. *)
Definition DeleteAlertWithFilter (now : Time) (f : FilterMap)
    : Client -> Go (list AlertView * option error) * Client :=
  λ c,
    match QueryAlertWithFilter now f c with
    | (Panics, c') => (Panics, c')
    | (Returns (alertsToDelete, _), c') =>
        let '(err, c'') := DeleteAlertWithFilter_loop alertsToDelete c' in
        match err with
        | Some e => (Returns ([], Some e), c'')
        | None => (Returns (alertsToDelete, None), c'')
        end
    end.

(** ** [FlushAlerts] *)

(** Lines 350-357: the cascade over the first [nbToDelete] alerts; [itemNb] is
    the index of the head of [alerts]. *)
Fixpoint FlushAlerts_loop (nbToDelete itemNb : Z) (alerts : list AlertView)
    : State (option error) :=
  match alerts with
  | [] => mret None
  | alert :: rest =>
      if itemNb <? nbToDelete then
        err ← DeleteAlertGraph alert;
        match err with
        | Some e => mret (Some (Wrap e "unable to flush alert" []))
        | None => FlushAlerts_loop nbToDelete (itemNb + 1) rest
        end
      else FlushAlerts_loop nbToDelete (itemNb + 1) rest
  end.

(** Lines 333-360: the pass on the number of alerts, from [totalDeleted]
    deleted so far; the result is the new total, or the error returned. *)
Definition FlushAlerts_count (MaxItems : Z) (totalDeleted : Z) : State (error + Z) :=
  if 0 <? MaxItems then
    '(totalAlerts, err) ← Alert_Count Alert_Query;
    match err with
    | Some e => mret (inl (Wrap e "unable to get alerts count" []))
    | None =>
        if MaxItems <? totalAlerts then
          let nbToDelete := totalAlerts - MaxItems in
          '(alerts, err) ← Alert_All (OrderAscCreatedAt (WithEdges Alert_Query));
          match err with
          | Some e => mret (inl (Wrap e "unable to get all alerts" []))
          | None =>
              err ← FlushAlerts_loop nbToDelete 0 alerts;
              match err with
              | Some e => mret (inl e)
              | None => mret (inr (totalDeleted + nbToDelete))
              end
          end
        else mret (inr totalDeleted)
    end
  else mret (inr totalDeleted).

(** [func (c *Client) FlushAlerts(MaxAge time.Duration, MaxItems int) error],
    with the clock at [now].  The first component of the result is the total
    given to the closing [log.Debugf], when that line is reached. *)
Definition FlushAlerts (now : Time) (MaxAge : Duration) (MaxItems : Z)
    : Client -> Go (option Z * option error) * Client :=
  λ c,
    let until := now + - MaxAge in
    let aged : Go (error + Z) * Client :=
      if 0 <? MaxAge then
        let f : FilterMap := [("until", [Format_RFC3339 Local_offset until])] in
        match DeleteAlertWithFilter now f c with
        | (Panics, c') => (Panics, c')
        | (Returns (deleted, Some err), c') =>
            (Returns (inl (Wrap err "unable to flush alerts with filter %s" [ArgV])), c')
        | (Returns (deleted, None), c') => (Returns (inr (0 + Z.of_nat (length deleted))), c')
        end
      else (Returns (inr 0), c) in
    match aged with
    | (Panics, c') => (Panics, c')
    | (Returns (inl e), c') => (Returns (None, Some e), c')
    | (Returns (inr totalDeleted), c') =>
        match FlushAlerts_count MaxItems totalDeleted c' with
        | (inl e, c'') => (Returns (None, Some e), c'')
        | (inr totalDeleted', c'') => (Returns (Some totalDeleted', None), c'')
        end
    end.

End Package.

(** ** Vocabulary for the statements about the store *)

(** The same rows and sequences; the script of failures may differ. *)
Definition same_tables (c c' : Client) : Prop :=
  Machine_table c' = Machine_table c /\ Alert_table c' = Alert_table c /\
  Decision_table c' = Decision_table c /\ Event_table c' = Event_table c /\
  Meta_table c' = Meta_table c /\ Alert_seq c' = Alert_seq c /\
  Decision_seq c' = Decision_seq c /\ Event_seq c' = Event_seq c /\
  Meta_seq c' = Meta_seq c.

(** Rows were removed at most: every table of [c'] is what is left of the
    table of [c], in the same order. *)
Definition only_removes (c c' : Client) : Prop :=
  Machine_table c' = Machine_table c /\
  Alert_table c' `sublist_of` Alert_table c /\
  Decision_table c' `sublist_of` Decision_table c /\
  Event_table c' `sublist_of` Event_table c /\
  Meta_table c' `sublist_of` Meta_table c /\
  Alert_seq c' = Alert_seq c /\ Decision_seq c' = Decision_seq c /\
  Event_seq c' = Event_seq c /\ Meta_seq c' = Meta_seq c.

(** The number of engine calls, out of [n], made before the first failure of
    the script [fs]. *)
Fixpoint calls_before_failure (n : nat) (fs : list bool) : nat :=
  match n with
  | O => O
  | S k =>
      match fs with
      | [] => n
      | true :: _ => O
      | false :: fs' => S (calls_before_failure k fs')
      end
  end.

(** The store once the first [stage] steps of the cascade on the alert [id]
    are done: its events, then its metas, then its decisions, then the
    alert. *)
Definition partly_deleted (stage : nat) (id : Z) (c : Client) : Client :=
  let c1 :=
    if (1 <=? stage)%nat
    then set_Events (filter (λ e, event_owner e ≠ Some id) (Event_table c)) (Event_seq c) c
    else c in
  let c2 :=
    if (2 <=? stage)%nat
    then set_Metas (filter (λ m, meta_owner m ≠ Some id) (Meta_table c1)) (Meta_seq c1) c1
    else c1 in
  let c3 :=
    if (3 <=? stage)%nat
    then set_Decisions (filter (λ d, decision_owner d ≠ Some id) (Decision_table c2))
           (Decision_seq c2) c2
    else c2 in
  if (4 <=? stage)%nat
  then set_Alerts (filter (λ a, alert_ID a ≠ id) (Alert_table c3)) (Alert_seq c3) c3
  else c3.

(** The alerts of the result of a query or of a delete. *)
Definition matched (r : Go (list AlertView * option error) * Client) : list ent_Alert :=
  match r with
  | (Returns (result, _), _) => view_alert <$> result
  | (Panics, _) => []
  end.

(** ** Vocabulary for the statements about the filter compiler *)

(** The outcome [r1] of a compilation is the outcome [r0] with one more
    condition on the alerts selected: the same failure if [r0] fails, and
    otherwise a query that selects the alerts [r0] selects that meet
    [cond]. *)
Definition adds_condition (r0 r1 : Go (option AlertQuery * option error))
    (cond : Client -> ent_Alert -> Prop) : Prop :=
  match r0, r1 with
  | Returns (Some q0, None), Returns (Some q1, None) =>
      forall c a, selected c q1 a = true <-> selected c q0 a = true /\ cond c a
  | Returns (None, Some e0), Returns (None, Some e1) => e0 = e1
  | Panics, Panics => True
  | _, _ => False
  end.

(** Two outcomes of a compilation that both fail, or that both give a query,
    the two queries selecting the same alerts of every store. *)
Definition same_selection (r r' : Go (option AlertQuery * option error)) : Prop :=
  match r, r' with
  | Returns (Some q, None), Returns (Some q', None) =>
      forall c a, selected c q a = selected c q' a
  | Returns (Some _, None), _ | _, Returns (Some _, None) => False
  | _, _ => True
  end.

(** The alert has a decision that meets [P]. *)
Definition has_decision (P : ent_Decision -> Prop) (c : Client) (a : ent_Alert) : Prop :=
  exists d, d ∈ Decision_table c /\ decision_owner d = Some (alert_ID a) /\ P d.

(** The entry [(k, v)] of a filter sets the bounds to [startIP] and [endIP],
    whatever the state of the compiler. *)
Definition sets_bounds `{Collaborators} (now : Time) (k : string) (v : list string)
    (startIP endIP : Z) : Prop :=
  forall st, BuildAlertRequestFromFilter_param now k v st =
             Returns (inr (fv_bounds startIP endIP st)).

(** Two outcomes of the loop of the compiler that fail alike, or that end in
    states related by [R]. *)
Definition related (R : FilterVars -> FilterVars -> Prop)
    (r r' : Go (error + FilterVars)) : Prop :=
  match r, r' with
  | Returns (inr a), Returns (inr b) => R a b
  | Returns (inl e), Returns (inl e') => e = e'
  | Panics, Panics => True
  | _, _ => False
  end.

(** Two outcomes of the loop that both fail, in whatever way, or that end in
    states related by [R]. *)
Definition related_or_failed (R : FilterVars -> FilterVars -> Prop)
    (r r' : Go (error + FilterVars)) : Prop :=
  match r, r' with
  | Returns (inr a), Returns (inr b) => R a b
  | Returns (inr _), _ | _, Returns (inr _) => False
  | _, _ => True
  end.

(** Two states of the compiler with the same bounds and the same predicates,
    in whatever order. *)
Definition same_conditions (st st' : FilterVars) : Prop :=
  fv_startIP st = fv_startIP st' /\ fv_endIP st = fv_endIP st' /\
  q_predicates (fv_alerts st) ≡ₚ q_predicates (fv_alerts st').

(** ** A sample of the collaborators *)

(** The instance below is used to run the embedding on concrete inputs.  It
    reads instants in the UTC profile [YYYY-MM-DDTHH:MM:SSZ] only and IPv4
    addresses only. *)

Fixpoint split_on (sep : ascii) (s : string) : list string :=
  match s with
  | EmptyString => [EmptyString]
  | String c s' =>
      if (c =? sep)%char then EmptyString :: split_on sep s'
      else
        match split_on sep s' with
        | w :: ws => String c w :: ws
        | [] => [String c EmptyString]
        end
  end.

(** A string of one to [width] digits, as a number. *)
Definition parse_number (width : nat) (s : string) : option Z :=
  if bool_decide (s = EmptyString) || (width <? String.length s)%nat then None
  else
    match leadingInt s with
    | Some (v, EmptyString) => Some v
    | _ => None
    end.

Definition days_from_civil (y m d : Z) : Z :=
  let y' := if m <=? 2 then y - 1 else y in
  let era := y' / 400 in
  let yoe := y' mod 400 in
  let doy := (153 * (if 2 <? m then m - 3 else m + 9) + 2) / 5 + d - 1 in
  let doe := yoe * 365 + yoe / 4 - yoe / 100 + doy in
  era * 146097 + doe - 719468.

Definition not_an_instant (s : string) : error :=
  Foreign ("parsing time " +:+ quote s +:+ ": cannot parse").

Definition sample_time_Parse (s : string) : Time * option error :=
  match split_on "T" s with
  | [date; clock] =>
      match parse_number 4 <$> split_on "-" date, parse_number 2 <$> split_on ":" clock with
      | [Some y; Some m; Some d], [Some hh; Some mm; None] =>
          match split_on "Z" (default EmptyString (split_on ":" clock !! 2%nat)) with
          | [sec; EmptyString] =>
              match parse_number 2 sec with
              | Some ss =>
                  if (1 <=? m) && (m <=? 12) && (1 <=? d) && (d <=? 31) &&
                     (hh <? 24) && (mm <? 60) && (ss <? 60)
                  then (((days_from_civil y m d * 24 + hh) * 60 + mm) * 60 * Second
                        + ss * Second, None)
                  else (0, Some (not_an_instant s))
              | None => (0, Some (not_an_instant s))
              end
          | _ => (0, Some (not_an_instant s))
          end
      | _, _ => (0, Some (not_an_instant s))
      end
  | _ => (0, Some (not_an_instant s))
  end.

Definition sample_json_Marshal (items : list models_MetaItems0) : string * option error :=
  ("[" +:+
   foldr (λ i acc,
            "{" +:+ quote "key" +:+ ":" +:+ quote (mm_Key i) +:+ "," +:+
            quote "value" +:+ ":" +:+ quote (mm_Value i) +:+ "}" +:+ acc) "]" items,
   None).

(** Modelled from the spec: the IP range codec, which converts an IP or CIDR
    string into an inclusive numeric bound pair and fails on unparsable
    input; here for IPv4 in dotted-quad notation. *)
Definition parse_ipv4 (s : string) : option Z :=
  match parse_number 3 <$> split_on "." s with
  | [Some a; Some b; Some c; Some d] =>
      if (a <=? 255) && (b <=? 255) && (c <=? 255) && (d <=? 255)
      then Some (((a * 256 + b) * 256 + c) * 256 + d)
      else None
  | _ => None
  end.

Definition sample_IsIpv4 (host : string) : bool :=
  match parse_ipv4 host with
  | Some _ => true
  | None => false
  end.

Definition sample_GetIpsFromIpRange (host : string) : Z * Z * option error :=
  match split_on "/" host with
  | [ip; bits] =>
      match parse_ipv4 ip, parse_number 2 bits with
      | Some a, Some n =>
          if n <=? 32 then
            let size := 2 ^ (32 - n) in
            let ipStart := a / size * size in
            (ipStart, ipStart + size - 1, None)
          else (0, 0, Some (Errorf "'%s' is not a valid CIDR" [ArgS host]))
      | _, _ => (0, 0, Some (Errorf "'%s' is not a valid CIDR" [ArgS host]))
      end
  | _ => (0, 0, Some (Errorf "'%s' is not a valid CIDR" [ArgS host]))
  end.

Definition sample : Collaborators :=
  {| time_Parse_RFC3339 := sample_time_Parse;
     json_Marshal := sample_json_Marshal;
     IsIpv4 := sample_IsIpv4;
     GetIpsFromIpRange := sample_GetIpsFromIpRange;
     Local_offset := 0 |}.

Definition empty_Client : Client :=
  {| Machine_table := []; Alert_table := []; Decision_table := []; Event_table := [];
     Meta_table := []; Alert_seq := 0; Decision_seq := 0; Event_seq := 0; Meta_seq := 0;
     faults := [] |}.

(** Sample submissions: an alert reported for one address, with the given
    events, metas and decisions. *)
Definition sample_Source : models_Source :=
  {| ms_Scope := "Ip"; ms_Value := "10.0.0.5"; ms_IP := "10.0.0.5"; ms_Range := "";
     ms_AsNumber := "64496"; ms_AsName := "EXAMPLE"; ms_Cn := "FR";
     ms_Latitude := 48; ms_Longitude := 2 |}.

Definition sample_Alert (scenario : string) (events : list models_Event)
    (metas : list models_MetaItems0) (decisions : list models_Decision) : models_Alert :=
  {| ma_MachineID := "machine-1";
     ma_StartAt := "2024-01-01T00:00:00Z";
     ma_StopAt := "2024-01-01T00:00:10Z";
     ma_Events := events; ma_Meta := metas; ma_Decisions := decisions;
     ma_Scenario := scenario; ma_Message := "ssh brute force from 10.0.0.5";
     ma_EventsCount := 6; ma_Source := sample_Source; ma_Capacity := 5;
     ma_Leakspeed := "10s"; ma_Simulated := false; ma_ScenarioVersion := "0.1";
     ma_ScenarioHash := "4441dcff07020f6690d998b7101e642359ba405c2abb83565bbbdcee36de280f" |}.

Definition sample_Event : models_Event :=
  {| me_Timestamp := "2024-01-01T00:00:05Z";
     me_Meta := [{| mm_Key := "source_ip"; mm_Value := "10.0.0.5" |}] |}.

Definition sample_Meta : models_MetaItems0 :=
  {| mm_Key := "service"; mm_Value := "ssh" |}.

Definition sample_Decision : models_Decision :=
  {| md_Duration := "4h"; md_Scenario := "ssh-bruteforce"; md_Type := "ban";
     md_StartIP := 167772165; md_EndIP := 167772165; md_Value := "10.0.0.5";
     md_Scope := "Ip"; md_Origin := "CAPI" |}.

(** An alert with one event, one meta and one decision, followed by an alert
    with none. *)
Definition with_children : models_Alert :=
  sample_Alert "ssh-bruteforce" [sample_Event] [sample_Meta] [sample_Decision].

Definition without_children : models_Alert := sample_Alert "http-probing" [] [] [].

(** A stored alert with the identifier and creation instant given. *)
Definition stored_Alert (id : Z) (createdAt : Time) : ent_Alert :=
  alert_row id createdAt
    (alert_builder without_children 0 0 [] [] [] None).

(** A store of five alerts created one hour apart, in the table in the order
    3, 1, 5, 2, 4 of their age, each with one event. *)
Definition five_alerts : Client :=
  {| Machine_table := [];
     Alert_table := [stored_Alert 1 (3 * Hour); stored_Alert 2 (1 * Hour);
                     stored_Alert 3 (5 * Hour); stored_Alert 4 (2 * Hour);
                     stored_Alert 5 (4 * Hour)];
     Decision_table := [];
     Event_table :=
       (λ id, {| event_ID := id; event_Time := 0; event_Serialized := "[]";
                 event_owner := Some id |}) <$> [1; 2; 3; 4; 5];
     Meta_table := [];
     Alert_seq := 5; Decision_seq := 0; Event_seq := 5; Meta_seq := 0;
     faults := [] |}.

(** A store whose next engine call fails. *)
Definition failing_Client : Client := set_faults [true] empty_Client.

(** Three alerts at five hours past the epoch: the first owns a decision that
    lasts until the tenth hour, the second a decision that ended at the first
    hour, the third owns none. *)
Definition sample_stored_Decision (id owner : Z) (until : Time) : ent_Decision :=
  {| decision_ID := id; decision_Until := until; decision_Scenario := "ssh-bruteforce";
     decision_Type := "ban"; decision_StartIP := 167772165; decision_EndIP := 167772165;
     decision_Value := "10.0.0.5"; decision_Scope := "Ip"; decision_Origin := "cscli";
     decision_Simulated := false; decision_owner := Some owner |}.

Definition decided_alerts : Client :=
  {| Machine_table := [];
     Alert_table := [stored_Alert 1 (1 * Hour); stored_Alert 2 (2 * Hour);
                     stored_Alert 3 (3 * Hour)];
     Decision_table := [sample_stored_Decision 1 1 (10 * Hour);
                        sample_stored_Decision 2 2 (1 * Hour)];
     Event_table := []; Meta_table := [];
     Alert_seq := 3; Decision_seq := 2; Event_seq := 0; Meta_seq := 0;
     faults := [] |}.

(** * Properties *)

(** ** The standard library model on examples *)

Example ParseDuration_4h : ParseDuration "4h" = (4 * Hour, None).
Proof. reflexivity. Qed.

Example ParseDuration_1h30m : ParseDuration "1h30m" = (90 * Minute, None).
Proof. reflexivity. Qed.

Example ParseDuration_frac : ParseDuration "-1.5s" = (-1500 * Millisecond, None).
Proof. reflexivity. Qed.

Example Format_RFC3339_2024 :
  Format_RFC3339 0 (1704067200 * Second) = "2024-01-01T00:00:00Z".
Proof. reflexivity. Qed.

Example Format_RFC3339_offset :
  Format_RFC3339 7200 (1709210096 * Second) = "2024-02-29T14:34:56+02:00".
Proof. reflexivity. Qed.

Example ParseDuration_instant :
  snd (ParseDuration (Format_RFC3339 0 (1704067200 * Second))) =
  Some (Foreign ("time: unknown unit " +:+ quote "-" +:+ " in duration " +:+
                 quote "2024-01-01T00:00:00Z")).
Proof. reflexivity. Qed.

Example Itoa_42 : Itoa 42 = "42" /\ Itoa (-7) = "-7" /\ Itoa 0 = "0".
Proof. repeat split; reflexivity. Qed.

Example sample_time_Parse_2024 :
  sample_time_Parse "2024-01-01T00:00:00Z" = (1704067200 * Second, None).
Proof. reflexivity. Qed.

Example sample_time_Parse_leap :
  sample_time_Parse (Format_RFC3339 0 (1709217296 * Second)) = (1709217296 * Second, None).
Proof. reflexivity. Qed.

Example sample_time_Parse_bad : snd (sample_time_Parse "yesterday") <> None.
Proof. discriminate. Qed.

Example sample_codec_host :
  sample_GetIpsFromIpRange "10.0.0.5/32" = (167772165, 167772165, None).
Proof. reflexivity. Qed.

Example sample_codec_net :
  sample_GetIpsFromIpRange "192.168.1.77/24" = (3232235776, 3232236031, None).
Proof. reflexivity. Qed.

Example sample_codec_all :
  sample_GetIpsFromIpRange "0.0.0.0/0" = (0, 4294967295, None).
Proof. reflexivity. Qed.

(** ** The rounds of [time.ParseDuration] are bounded *)

Lemma leadingInt_from_length (x : Z) (s : string) (v : Z) (r : string) :
  leadingInt_from x s = Some (v, r) -> (String.length r <= String.length s)%nat.
Proof.
  revert x. induction s as [| c s IH]; intros x; cbn [leadingInt_from].
  - intros [= _ <-]. reflexivity.
  - destruct (is_digit c); [| intros [= _ <-]; reflexivity].
    destruct (x >? max_int64 / 10); [discriminate |].
    destruct (x * 10 + digit_value c >? max_int64); [discriminate |].
    intros Hrec. apply IH in Hrec. cbn [String.length]. lia.
Qed.

Lemma leadingFraction_from_length (x scale : Z) (overflow : bool) (s : string)
    (f scale' : Z) (r : string) :
  leadingFraction_from x scale overflow s = (f, scale', r) ->
  (String.length r <= String.length s)%nat.
Proof.
  revert x scale overflow. induction s as [| c s IH]; intros x scale overflow;
    cbn [leadingFraction_from].
  - intros [= _ _ <-]. reflexivity.
  - destruct (is_digit c); [| intros [= _ _ <-]; reflexivity].
    cbn [String.length].
    destruct overflow; [intros Hrec; apply IH in Hrec; lia |].
    destruct (x >? max_int64 / 10); [intros Hrec; apply IH in Hrec; lia |].
    destruct (x * 10 + digit_value c >? max_int64); intros Hrec; apply IH in Hrec; lia.
Qed.

Lemma span_unit_length (s u r : string) :
  span_unit s = (u, r) -> (String.length u + String.length r = String.length s)%nat.
Proof.
  revert u r. induction s as [| c s IH]; intros u r; cbn [span_unit].
  - intros [= <- <-]. reflexivity.
  - destruct ((c =? ".")%char || is_digit c); [intros [= <- <-]; reflexivity |].
    destruct (span_unit s) as [u' r'] eqn:Hspan. intros [= <- <-].
    specialize (IH u' r' eq_refl). cbn [String.length]. lia.
Qed.

Lemma fraction_part_length (s1 : string) (f scale : Z) (post : bool) (s2 : string) :
  match s1 with
  | EmptyString => (0, 1, false, s1)
  | String c1 s1' =>
      if (c1 =? ".")%char then
        let '(f, scale, s2) := leadingFraction s1' in
        (f, scale, negb (String.length s1' =? String.length s2)%nat, s2)
      else (0, 1, false, s1)
  end = (f, scale, post, s2) ->
  (String.length s2 <= String.length s1)%nat.
Proof.
  destruct s1 as [| c1 s1']; [intros [= _ _ _ <-]; reflexivity |].
  destruct (c1 =? ".")%char; [| intros [= _ _ _ <-]; reflexivity].
  destruct (leadingFraction s1') as [[f' scale'] s2'] eqn:Hf.
  apply leadingFraction_from_length in Hf. intros [= _ _ _ <-].
  cbn [String.length]. lia.
Qed.

(** The fuel given by [ParseDuration], the length of the string, is never
    used up: the loop ends with a duration or with an error of its own. *)
Lemma duration_groups_fuel (fuel : nat) (orig s : string) (d : Z) :
  (String.length s <= fuel)%nat -> duration_groups fuel orig s d <> None.
Proof.
  revert s d. induction fuel as [| fuel IH]; intros s d Hlen.
  - destruct s; [discriminate | cbn [String.length] in Hlen; lia].
  - destruct s as [| c s0]; [discriminate |].
    cbn [duration_groups].
    destruct (negb ((c =? ".")%char || is_digit c)); [discriminate |].
    destruct (leadingInt (String c s0)) as [[v s1] |] eqn:Hint; [| discriminate].
    apply leadingInt_from_length in Hint.
    destruct (match s1 with
              | EmptyString => (0, 1, false, s1)
              | String c1 s1' => _
              end) as [[[f scale] post] s2] eqn:Hmid.
    apply fraction_part_length in Hmid.
    destruct (negb _ && negb post); [discriminate |].
    destruct (span_unit s2) as [u s3] eqn:Hspan. apply span_unit_length in Hspan.
    case_bool_decide as Hu; [discriminate |].
    destruct (unitMap u) as [unit |]; [| discriminate].
    destruct (v >? max_int64 / unit); [discriminate |].
    destruct (_ >? max_int64); [discriminate |].
    destruct (_ >? max_int64); [discriminate |].
    apply IH.
    assert (0 < String.length u)%nat by (destruct u; [congruence | cbn; lia]).
    cbn [String.length] in Hlen, Hint. lia.
Qed.

(** An error of [ParseDuration] is an error of the grammar or of the int64
    range, not a lack of fuel. *)
Lemma ParseDuration_fuel (orig : string) :
  forall s, duration_groups (String.length s) orig s 0 <> None.
Proof. intros s. apply duration_groups_fuel. reflexivity. Qed.

(** ** A formatted instant is not a duration *)

Lemma is_digit_digit_char (d : Z) : 0 <= d < 10 -> is_digit (digit_char d) = true.
Proof.
  intros Hd.
  assert (Hcases : d = 0 \/ d = 1 \/ d = 2 \/ d = 3 \/ d = 4 \/ d = 5 \/ d = 6 \/
                   d = 7 \/ d = 8 \/ d = 9) by lia.
  repeat (destruct Hcases as [-> | Hcases]; [reflexivity |]).
  subst d. reflexivity.
Qed.

Lemma is_digit_mod10 (u : Z) : is_digit (digit_char (u mod 10)) = true.
Proof. apply is_digit_digit_char, Z.mod_pos_bound. lia. Qed.

Lemma all_digits_app (a b : string) :
  all_digits (a +:+ b) = all_digits a && all_digits b.
Proof.
  induction a as [| c a IH]; simpl; [reflexivity |].
  rewrite IH. apply andb_assoc.
Qed.

Lemma all_digits_decimal (fuel : nat) (u : Z) (acc : string) :
  all_digits acc = true -> all_digits (decimal fuel u acc) = true.
Proof.
  revert u acc. induction fuel as [| k IH]; intros u acc Hacc; simpl; [assumption |].
  assert (Hcons : all_digits (String (digit_char (u mod 10)) acc) = true).
  { simpl. rewrite is_digit_mod10. assumption. }
  destruct (u <? 10); [assumption |].
  apply IH. assumption.
Qed.

Lemma decimal_nonempty (fuel : nat) (u : Z) (c : ascii) (acc : string) :
  decimal fuel u (String c acc) <> EmptyString.
Proof.
  revert u c acc. induction fuel as [| k IH]; intros u c acc; simpl; [discriminate |].
  destruct (u <? 10); [discriminate | apply IH].
Qed.

Lemma all_digits_utoa (u : Z) : all_digits (utoa u) = true.
Proof. apply all_digits_decimal. reflexivity. Qed.

Lemma utoa_nonempty (u : Z) : utoa u <> EmptyString.
Proof.
  unfold utoa. simpl. destruct (u <? 10); [discriminate | apply decimal_nonempty].
Qed.

Lemma all_digits_zeros (n : nat) : all_digits (zeros n) = true.
Proof. induction n as [| n IH]; simpl; [reflexivity | assumption]. Qed.

Lemma all_digits_two_digits (n : Z) : all_digits (two_digits n) = true.
Proof.
  unfold two_digits. simpl. rewrite !is_digit_mod10. reflexivity.
Qed.

(** The digits of [leadingInt] stop at the first character that is not one. *)
Lemma leadingInt_from_digits (digits : string) (c : ascii) (rest : string) (x : Z) :
  all_digits digits = true -> is_digit c = false ->
  leadingInt_from x (digits +:+ String c rest) = None \/
  exists v, leadingInt_from x (digits +:+ String c rest) = Some (v, String c rest).
Proof.
  revert x. induction digits as [| d digits IH]; intros x Hd Hc; simpl.
  - rewrite Hc. right. eexists. reflexivity.
  - simpl in Hd. apply andb_true_iff in Hd as [Hd1 Hd2]. rewrite Hd1.
    destruct (x >? max_int64 / 10); [left; reflexivity |].
    destruct (x * 10 + digit_value d >? max_int64); [left; reflexivity |].
    apply IH; assumption.
Qed.

Lemma append_cons (c : ascii) (a b : string) : String c a +:+ b = String c (a +:+ b).
Proof. reflexivity. Qed.

Lemma append_nil (b : string) : EmptyString +:+ b = b.
Proof. reflexivity. Qed.

(** A group made of digits, a dash and a digit has no unit. *)
Lemma duration_groups_dash (fuel : nat) (orig digits : string) (c : ascii) (rest : string) :
  all_digits digits = true -> digits <> EmptyString -> is_digit c = true ->
  exists e,
    duration_groups (S fuel) orig (digits +:+ String "-" (String c rest)) 0 = Some (0, Some e).
Proof.
  intros Hd Hne Hc.
  destruct (leadingInt_from_digits digits "-" (String c rest) 0 Hd eq_refl) as [Hli | [v Hli]];
    destruct digits as [| d digits]; try congruence;
    simpl in Hd; apply andb_true_iff in Hd as [Hd1 Hd2];
    rewrite append_cons in Hli |- *;
    cbn [duration_groups]; rewrite Hd1, orb_true_r; cbn [negb];
    unfold leadingInt; rewrite Hli.
  - eexists. reflexivity.
  - cbn [Ascii.eqb Bool.eqb].
    match goal with
    | |- context [negb ?p && negb false] => destruct p
    end; cbn [negb andb]; [| eexists; reflexivity].
    cbn [span_unit Ascii.eqb Bool.eqb orb]. rewrite Hc, orb_true_r.
    change (is_digit "-") with false. cbv iota beta.
    eexists. reflexivity.
Qed.

Lemma ParseDuration_digits_dash (sign digits : string) (c : ascii) (rest : string) :
  sign = EmptyString \/ sign = "-" ->
  all_digits digits = true -> digits <> EmptyString -> is_digit c = true ->
  exists e, ParseDuration (sign +:+ digits +:+ String "-" (String c rest)) = (0, Some e).
Proof.
  intros Hsign Hd Hne Hc.
  set (s := digits +:+ String "-" (String c rest)).
  assert (Hs0 : s <> "0").
  { unfold s. destruct digits as [| d [| d' digits]]; try congruence;
      rewrite ?append_cons, ?append_nil; discriminate. }
  assert (Hse : s <> EmptyString).
  { unfold s. destruct digits; [congruence |]. rewrite append_cons. discriminate. }
  assert (Hgroups : forall orig, exists e,
            duration_groups (String.length s) orig s 0 = Some (0, Some e)).
  { intros orig. unfold s.
    destruct digits as [| d digits]; [congruence |].
    rewrite append_cons. cbn [String.length]. rewrite <- append_cons.
    apply duration_groups_dash; assumption. }
  unfold ParseDuration.
  destruct Hsign as [-> | ->].
  - rewrite append_nil. fold s.
    assert (Hhead : exists d s', s = String d s' /\ is_digit d = true).
    { unfold s. destruct digits as [| d digits]; [congruence |].
      rewrite append_cons. simpl in Hd. apply andb_true_iff in Hd as [Hd1 _]. eauto. }
    destruct Hhead as (d & s' & Hs & Hdd). rewrite Hs.
    assert (Hnot : (d =? "-")%char || (d =? "+")%char = false).
    { destruct (Ascii.eqb_spec d "-") as [-> |]; [discriminate Hdd |].
      destruct (Ascii.eqb_spec d "+") as [-> |]; [discriminate Hdd | reflexivity]. }
    rewrite Hnot, <- Hs.
    rewrite (bool_decide_eq_false_2 _ Hs0), (bool_decide_eq_false_2 _ Hse).
    destruct (Hgroups s) as [e He]. rewrite He. eauto.
  - rewrite append_cons, append_nil. fold s.
    cbn [Ascii.eqb Bool.eqb orb].
    rewrite (bool_decide_eq_false_2 _ Hs0), (bool_decide_eq_false_2 _ Hse).
    destruct (Hgroups (String "-" s)) as [e He]. rewrite He. eauto.
Qed.

Lemma append_assoc (a b c : string) : (a +:+ b) +:+ c = a +:+ (b +:+ c).
Proof.
  induction a as [| x a IH]; [reflexivity |].
  rewrite !append_cons, IH. reflexivity.
Qed.

(** [time.ParseDuration] rejects every instant in the RFC 3339 layout. *)
Lemma ParseDuration_Format_RFC3339 (offset : Z) (t : Time) :
  exists e, ParseDuration (Format_RFC3339 offset t) = (0, Some e).
Proof.
  unfold Format_RFC3339.
  destruct (civil ((t / Second + offset) / 86400)) as [[y m] d].
  unfold appendInt.
  set (digits := zeros (4 - String.length (utoa (Z.abs y))) +:+ utoa (Z.abs y)).
  set (tail := "-" +:+ two_digits d +:+ _).
  assert (Hdigits : all_digits digits = true).
  { unfold digits. rewrite all_digits_app, all_digits_zeros, all_digits_utoa. reflexivity. }
  assert (Hne : digits <> EmptyString).
  { unfold digits. destruct (zeros _); simpl; [apply utoa_nonempty | discriminate]. }
  assert (Hshape : forall sign,
    (sign +:+ digits) +:+ "-" +:+ two_digits m +:+ tail =
    sign +:+ digits +:+ String "-" (String (digit_char ((m / 10) mod 10))
                                      (String (digit_char (m mod 10)) tail))).
  { intros sign. rewrite append_assoc. reflexivity. }
  rewrite append_assoc, <- (append_assoc _ digits), Hshape.
  apply ParseDuration_digits_dash; [| assumption | assumption | apply is_digit_mod10].
  destruct (y <? 0); [right | left]; reflexivity.
Qed.

(** Case analysis on the outcome of the calls made by a case of the filter
    compiler. *)
Ltac destruct_calls :=
  repeat match goal with
  | |- context [ParseDuration ?v] => destruct (ParseDuration v) as [? [? |]]
  | |- context [ParseBool ?v] => destruct (ParseBool v) as [[|] [? |]]
  | |- context [IsZero ?t] => destruct (IsZero t)
  | |- context [GetIpsFromIpRange ?v] => destruct (GetIpsFromIpRange v) as [[? ?] [? |]]
  | |- context [IsIpv4 ?v] => destruct (IsIpv4 v)
  | |- context [bool_decide (?v = "false")] => destruct (bool_decide (v = "false"))
  end.

(** ** The engine without failures *)

Lemma engine_call_ok (c : Client) : faults c = [] -> engine_call c = (false, c).
Proof. intros Hf. unfold engine_call. rewrite Hf. reflexivity. Qed.

Ltac engine_ok :=
  intros; unfold mbind, State_bind; rewrite engine_call_ok by assumption; reflexivity.

Lemma Alert_All_ok (q : AlertQuery) (c : Client) :
  faults c = [] ->
  Alert_All q c = ((map (load_edges c q) (query_rows c q), None), c).
Proof. unfold Alert_All. engine_ok. Qed.

Lemma Alert_Count_ok (q : AlertQuery) (c : Client) :
  faults c = [] ->
  Alert_Count q c = ((Z.of_nat (length (query_rows c q)), None), c).
Proof. unfold Alert_Count. engine_ok. Qed.

Lemma Event_CreateBulk_Save_ok (builders : list EventCreate) (c : Client) :
  faults c = [] ->
  Event_CreateBulk_Save builders c =
  ((new_events (Event_seq c + 1) builders, None),
   set_Events (Event_table c ++ new_events (Event_seq c + 1) builders)
     (Event_seq c + Z.of_nat (length builders)) c).
Proof. unfold Event_CreateBulk_Save. engine_ok. Qed.

Lemma Meta_CreateBulk_Save_ok (builders : list MetaCreate) (c : Client) :
  faults c = [] ->
  Meta_CreateBulk_Save builders c =
  ((new_metas (Meta_seq c + 1) builders, None),
   set_Metas (Meta_table c ++ new_metas (Meta_seq c + 1) builders)
     (Meta_seq c + Z.of_nat (length builders)) c).
Proof. unfold Meta_CreateBulk_Save. engine_ok. Qed.

Lemma Decision_CreateBulk_Save_ok (builders : list DecisionCreate) (c : Client) :
  faults c = [] ->
  Decision_CreateBulk_Save builders c =
  ((new_decisions (Decision_seq c + 1) builders, None),
   set_Decisions (Decision_table c ++ new_decisions (Decision_seq c + 1) builders)
     (Decision_seq c + Z.of_nat (length builders)) c).
Proof. unfold Decision_CreateBulk_Save. engine_ok. Qed.

Lemma QueryMachineByID_ok (machineID : string) (c : Client) :
  faults c = [] ->
  QueryMachineByID machineID c =
  (match filter (λ m, machine_MachineId m = machineID) (Machine_table c) with
   | m :: _ => (Some m, None)
   | [] => (None, Some (Wrap UserNotExists "user '%s'" [ArgS machineID]))
   end, c).
Proof.
  intros Hf. unfold QueryMachineByID, mbind, State_bind.
  rewrite engine_call_ok by assumption.
  destruct (filter _ (Machine_table c)); reflexivity.
Qed.

(** ** Cascading delete *)

Lemma DeleteAlertGraph_ok (alertItem : AlertView) (c : Client) :
  faults c = [] ->
  DeleteAlertGraph alertItem c = (None, without_graph (alert_ID (view_alert alertItem)) c).
Proof.
  intros Hf.
  unfold DeleteAlertGraph, Event_Delete_owned, Meta_Delete_owned, Decision_Delete_owned,
    Alert_DeleteOne, mbind, State_bind, mret, State_ret.
  rewrite (engine_call_ok c Hf).
  rewrite engine_call_ok by exact Hf.
  rewrite engine_call_ok by exact Hf.
  rewrite engine_call_ok by exact Hf.
  reflexivity.
Qed.

Lemma without_graph_faults (id : Z) (c : Client) : faults (without_graph id c) = faults c.
Proof. reflexivity. Qed.

Lemma without_graphs_faults (ids : list Z) (c : Client) :
  faults (without_graphs ids c) = faults c.
Proof.
  revert c. induction ids as [| id ids IH]; intros c; [reflexivity |].
  cbn [without_graphs foldl]. apply (IH (without_graph id c)).
Qed.

Lemma without_graphs_cons (id : Z) (ids : list Z) (c : Client) :
  without_graphs (id :: ids) c = without_graphs ids (without_graph id c).
Proof. reflexivity. Qed.

Lemma without_graphs_Alert_table (ids : list Z) (c : Client) :
  Alert_table (without_graphs ids c) = filter (λ a, alert_ID a ∉ ids) (Alert_table c).
Proof.
  revert c. induction ids as [| id ids IH]; intros c.
  - cbn [without_graphs foldl]. symmetry. induction (Alert_table c) as [| a l IHl];
      [reflexivity |]. rewrite filter_cons_True by apply not_elem_of_nil. congruence.
  - rewrite without_graphs_cons, IH. cbn [without_graph set_Alerts Alert_table].
    rewrite list_filter_filter. apply list_filter_iff. intros a.
    rewrite not_elem_of_cons. tauto.
Qed.

Lemma without_graphs_Event_table (ids : list Z) (c : Client) :
  Event_table (without_graphs ids c) =
  filter (λ e, event_owner e ∉ Some <$> ids) (Event_table c).
Proof.
  revert c. induction ids as [| id ids IH]; intros c.
  - cbn [without_graphs foldl]. symmetry. induction (Event_table c) as [| a l IHl];
      [reflexivity |].
    rewrite filter_cons_True by apply not_elem_of_nil. congruence.
  - rewrite without_graphs_cons, IH. cbn [without_graph set_Alerts set_Decisions set_Metas
      set_Events Event_table].
    rewrite list_filter_filter. apply list_filter_iff. intros e.
    rewrite fmap_cons, not_elem_of_cons. tauto.
Qed.

Lemma without_graphs_Meta_table (ids : list Z) (c : Client) :
  Meta_table (without_graphs ids c) =
  filter (λ m, meta_owner m ∉ Some <$> ids) (Meta_table c).
Proof.
  revert c. induction ids as [| id ids IH]; intros c.
  - cbn [without_graphs foldl]. symmetry. induction (Meta_table c) as [| a l IHl];
      [reflexivity |].
    rewrite filter_cons_True by apply not_elem_of_nil. congruence.
  - rewrite without_graphs_cons, IH. cbn [without_graph set_Alerts set_Decisions set_Metas
      set_Events Meta_table].
    rewrite list_filter_filter. apply list_filter_iff. intros m.
    rewrite fmap_cons, not_elem_of_cons. tauto.
Qed.

Lemma without_graphs_Decision_table (ids : list Z) (c : Client) :
  Decision_table (without_graphs ids c) =
  filter (λ d, decision_owner d ∉ Some <$> ids) (Decision_table c).
Proof.
  revert c. induction ids as [| id ids IH]; intros c.
  - cbn [without_graphs foldl]. symmetry. induction (Decision_table c) as [| a l IHl];
      [reflexivity |].
    rewrite filter_cons_True by apply not_elem_of_nil. congruence.
  - rewrite without_graphs_cons, IH. cbn [without_graph set_Alerts set_Decisions set_Metas
      set_Events Decision_table].
    rewrite list_filter_filter. apply list_filter_iff. intros d.
    rewrite fmap_cons, not_elem_of_cons. tauto.
Qed.

(** Without engine failures the loop of the flush deletes the graphs of the
    first [nbToDelete - itemNb] alerts it is given. *)
Lemma FlushAlerts_loop_ok (nbToDelete itemNb : Z) (alerts : list AlertView) (c : Client) :
  faults c = [] ->
  FlushAlerts_loop nbToDelete itemNb alerts c =
  (None,
   without_graphs ((λ v, alert_ID (view_alert v)) <$>
                     take (Z.to_nat (nbToDelete - itemNb)) alerts) c).
Proof.
  revert itemNb c. induction alerts as [| alert rest IH]; intros itemNb c Hf.
  - rewrite take_nil. reflexivity.
  - cbn [FlushAlerts_loop]. destruct (Z.ltb_spec itemNb nbToDelete) as [Hlt | Hge].
    + unfold mbind, State_bind. rewrite DeleteAlertGraph_ok by assumption.
      rewrite IH by (rewrite without_graph_faults; assumption).
      replace (Z.to_nat (nbToDelete - itemNb))
        with (S (Z.to_nat (nbToDelete - (itemNb + 1)))) by lia.
      reflexivity.
    + rewrite IH by assumption.
      replace (Z.to_nat (nbToDelete - itemNb)) with 0%nat by lia.
      replace (Z.to_nat (nbToDelete - (itemNb + 1))) with 0%nat by lia.
      reflexivity.
Qed.

(** ** Lists: filtering by identifier, ordering by creation *)

Lemma filter_all {A : Type} (P : A -> Prop) `{!forall x, Decision (P x)} (l : list A) :
  (forall x, x ∈ l -> P x) -> filter P l = l.
Proof.
  induction l as [| x l IH]; intros Hall; [reflexivity |].
  rewrite filter_cons_True by (apply Hall; left).
  rewrite IH; [reflexivity |]. intros y Hy. apply Hall. right. exact Hy.
Qed.

Lemma filter_none {A : Type} (P : A -> Prop) `{!forall x, Decision (P x)} (l : list A) :
  (forall x, x ∈ l -> ~ P x) -> filter P l = [].
Proof.
  induction l as [| x l IH]; intros Hall; [reflexivity |].
  rewrite filter_cons_False by (apply Hall; left).
  apply IH. intros y Hy. apply Hall. right. exact Hy.
Qed.

(** With distinct keys, dropping the rows whose key is among the first [n]
    leaves the rows after the first [n]. *)
Lemma filter_not_in_take {A : Type} (key : A -> Z) (l : list A) (n : nat) :
  NoDup (key <$> l) ->
  filter (λ a, key a ∉ key <$> take n l) l = drop n l.
Proof.
  intros Hnd.
  rewrite <- (take_drop n l) in Hnd. rewrite fmap_app in Hnd.
  apply NoDup_app in Hnd as (_ & Hdisj & _).
  set (P := λ a, key a ∉ key <$> take n l).
  transitivity (filter P (take n l ++ drop n l)); [rewrite take_drop; reflexivity |].
  rewrite filter_app, filter_none, filter_all; [reflexivity | |]; unfold P.
  - intros x Hx Hin. apply (Hdisj (key x)); [exact Hin |].
    apply list_elem_of_fmap. eauto.
  - intros x Hx Hnot. apply Hnot. apply list_elem_of_fmap. eauto.
Qed.

Lemma owned_once_deleted {A : Type} (own : A -> option Z) (ids : list Z) (id : Z)
    (t : list A) :
  id ∈ ids ->
  filter (λ x, own x = Some id) (filter (λ x, own x ∉ Some <$> ids) t) = [].
Proof.
  intros Hin. apply filter_none. intros x Hx Hown.
  apply list_elem_of_filter in Hx as [Hnot _]. apply Hnot.
  rewrite Hown. apply list_elem_of_fmap. eauto.
Qed.

Lemma owned_once_kept {A : Type} (own : A -> option Z) (ids : list Z) (id : Z)
    (t : list A) :
  id ∉ ids ->
  filter (λ x, own x = Some id) (filter (λ x, own x ∉ Some <$> ids) t) =
  filter (λ x, own x = Some id) t.
Proof.
  intros Hnot. apply list_filter_filter_l. intros x Hown Hin. apply Hnot.
  rewrite Hown in Hin. apply list_elem_of_fmap in Hin as (id' & [= ->] & Hin). exact Hin.
Qed.

#[global] Instance created_le_transitive : Transitive created_le.
Proof. unfold created_le. intros a b c. lia. Qed.

#[global] Instance created_le_total : Total created_le.
Proof. unfold created_le. intros a b. lia. Qed.

Lemma query_rows_all (c : Client) : query_rows c Alert_Query = Alert_table c.
Proof. unfold query_rows. cbn. apply filter_all. intros a _. exact I. Qed.

Lemma query_rows_sorted (c : Client) :
  query_rows c (OrderAscCreatedAt (WithEdges Alert_Query)) =
  merge_sort created_le (Alert_table c).
Proof.
  unfold query_rows. cbn [q_orderCreatedAt OrderAscCreatedAt]. f_equal.
  apply filter_all. intros a _. exact I.
Qed.

Lemma fmap_ID_load_edges (c : Client) (q : AlertQuery) (rows : list ent_Alert) :
  (λ v, alert_ID (view_alert v)) <$> map (load_edges c q) rows = alert_ID <$> rows.
Proof.
  induction rows as [| a rows IH]; [reflexivity |].
  cbn [map fmap list_fmap]. cbn [fmap] in IH. rewrite IH. reflexivity.
Qed.

Lemma take_map {A B : Type} (f : A -> B) (n : nat) (l : list A) :
  take n (map f l) = map f (take n l).
Proof. revert n. induction l as [| x l IH]; intros [| n]; cbn; congruence. Qed.

(** The pass on the number of alerts, without engine failures. *)
Lemma FlushAlerts_count_ok (MaxItems totalDeleted : Z) (c : Client) :
  faults c = [] ->
  FlushAlerts_count MaxItems totalDeleted c =
  if (0 <? MaxItems) && (MaxItems <? Z.of_nat (length (Alert_table c))) then
    (inr (totalDeleted + (Z.of_nat (length (Alert_table c)) - MaxItems)),
     without_graphs
       (alert_ID <$> take (Z.to_nat (Z.of_nat (length (Alert_table c)) - MaxItems))
                       (merge_sort created_le (Alert_table c))) c)
  else (inr totalDeleted, c).
Proof.
  intros Hf. unfold FlushAlerts_count.
  destruct (0 <? MaxItems); [| reflexivity].
  unfold mbind, State_bind. rewrite Alert_Count_ok, query_rows_all by assumption.
  cbn [andb]. destruct (MaxItems <? Z.of_nat (length (Alert_table c))); [| reflexivity].
  rewrite Alert_All_ok, query_rows_sorted by assumption.
  rewrite FlushAlerts_loop_ok by assumption.
  rewrite Z.sub_0_r, take_map, fmap_ID_load_edges. reflexivity.
Qed.

Section Properties.
Context `{Collaborators}.

(** ** The cases of the filter compiler *)

Lemma param_empty (now : Time) (param : string) (st : FilterVars) :
  BuildAlertRequestFromFilter_param now param [] st = Panics.
Proof.
  unfold BuildAlertRequestFromFilter_param.
  repeat (case_bool_decide; [reflexivity |]). reflexivity.
Qed.

Lemma param_until (now : Time) (v : string) (vs : list string) (st : FilterVars) :
  BuildAlertRequestFromFilter_param now "until" (v :: vs) st =
  let '(duration, err) := ParseDuration v in
  match err with
  | Some e => Returns (inl (Wrap e "while parsing duration" []))
  | None =>
      if IsZero (now + - duration) then Returns (inl (Errorf "Empty time now() - %s" [ArgV]))
      else Returns (inr (fv_Where (alert_CreatedAtLTE (now + - duration)) st))
  end.
Proof. reflexivity. Qed.

Lemma param_has_active_decision (now : Time) (v : string) (vs : list string)
    (st : FilterVars) :
  BuildAlertRequestFromFilter_param now "has_active_decision" (v :: vs) st =
  let '(hasActiveDecision, err) := ParseBool v in
  match err with
  | Some _ =>
      Returns (inl (Wrap ParseType "'%s' is not a boolean: %s" [ArgS v; ArgE err]))
  | None =>
      if hasActiveDecision then
        Returns (inr (fv_Where (alert_HasDecisionsWith (decision_UntilGTE now)) st))
      else Returns (inr (fv_Where (alert_Not alert_HasDecisions) st))
  end.
Proof. reflexivity. Qed.

Lemma param_ip (now : Time) (v : string) (vs : list string) (st : FilterVars) :
  BuildAlertRequestFromFilter_param now "ip" (v :: vs) st =
  if negb (IsIpv4 v) then
    Returns (inl (Wrap InvalidIPOrRange "unable to parse '%s': %s" [ArgS v; ArgE None]))
  else
    let '(startIP, endIP, err) := GetIpsFromIpRange (v +:+ "/32") in
    match err with
    | Some _ =>
        Returns (inl (Wrap InvalidIPOrRange "unable to convert '%s' to int interval: %s"
                        [ArgS v; ArgE err]))
    | None => Returns (inr (fv_bounds startIP endIP st))
    end.
Proof. reflexivity. Qed.

Lemma param_range (now : Time) (v : string) (vs : list string) (st : FilterVars) :
  BuildAlertRequestFromFilter_param now "range" (v :: vs) st =
  let '(startIP, endIP, err) := GetIpsFromIpRange v in
  match err with
  | Some _ =>
      Returns (inl (Wrap InvalidIPOrRange "unable to convert '%s' to int interval: %s"
                      [ArgS v; ArgE err]))
  | None => Returns (inr (fv_bounds startIP endIP st))
  end.
Proof. reflexivity. Qed.

(** ** Compilation errors in query, delete and flush *)

Lemma BuildAlertRequestFromFilter_until_instant (now : Time) (q : AlertQuery)
    (offset : Z) (t : Time) :
  exists e,
    BuildAlertRequestFromFilter now q [("until", [Format_RFC3339 offset t])] =
    Returns (None, Some (Wrap e "while parsing duration" [])).
Proof.
  destruct (ParseDuration_Format_RFC3339 offset t) as [e He].
  exists e. revert He. generalize (Format_RFC3339 offset t). intros s He.
  unfold BuildAlertRequestFromFilter, simulated_prelude.
  change (Filter_lookup "simulated" [("until", [s])]) with (@None (list string)).
  cbn [mbind mret Go_bind Go_ret go_bind BuildAlertRequestFromFilter_loop].
  rewrite param_until, He. reflexivity.
Qed.

Lemma QueryAlertWithFilter_compile_error (now : Time) (f : FilterMap) (c : Client)
    (o : option AlertQuery) (e : error) :
  BuildAlertRequestFromFilter now Alert_Query f = Returns (o, Some e) ->
  QueryAlertWithFilter now f c = (Returns ([], Some e), c).
Proof. intros Hb. unfold QueryAlertWithFilter. rewrite Hb. destruct o; reflexivity. Qed.

Lemma QueryAlertWithFilter_panic (now : Time) (f : FilterMap) (c : Client) :
  BuildAlertRequestFromFilter now Alert_Query f = Panics ->
  QueryAlertWithFilter now f c = (Panics, c).
Proof. intros Hb. unfold QueryAlertWithFilter. rewrite Hb. reflexivity. Qed.

Lemma DeleteAlertWithFilter_compile_error (now : Time) (f : FilterMap) (c : Client)
    (e : error) :
  BuildAlertRequestFromFilter now Alert_Query f = Returns (None, Some e) ->
  DeleteAlertWithFilter now f c = (Returns ([], None), c).
Proof.
  intros Hb. unfold DeleteAlertWithFilter.
  rewrite (QueryAlertWithFilter_compile_error now f c None e Hb). reflexivity.
Qed.

(** C3: when the compilation of the filter fails with an error [e], the
    query returns [e], but [DeleteAlertWithFilter] does not: it deletes
    nothing and returns an empty list with a nil error. *)
Theorem DeleteAlertWithFilter_loses_compile_error (now : Time) (f : FilterMap) (c : Client)
    (e : error) :
  BuildAlertRequestFromFilter now Alert_Query f = Returns (None, Some e) ->
  QueryAlertWithFilter now f c = (Returns ([], Some e), c) /\
  DeleteAlertWithFilter now f c = (Returns ([], None), c).
Proof.
  intros Hb. split.
  - apply (QueryAlertWithFilter_compile_error now f c None e Hb).
  - apply (DeleteAlertWithFilter_compile_error now f c e Hb).
Qed.

(** The pass on the age never selects an alert: whatever [MaxAge], the flush
    is its pass on the number of alerts. *)
Lemma FlushAlerts_is_count_pass (now : Time) (MaxAge : Duration) (MaxItems : Z) (c : Client) :
  FlushAlerts now MaxAge MaxItems c =
  match FlushAlerts_count MaxItems 0 c with
  | (inl e, c') => (Returns (None, Some e), c')
  | (inr totalDeleted, c') => (Returns (Some totalDeleted, None), c')
  end.
Proof.
  unfold FlushAlerts.
  destruct (0 <? MaxAge); [| reflexivity].
  destruct (BuildAlertRequestFromFilter_until_instant now Alert_Query Local_offset
              (now + - MaxAge)) as [e He].
  rewrite (DeleteAlertWithFilter_compile_error now _ c _ He). reflexivity.
Qed.

(** C1: for every [MaxAge > 0] the pass on the age deletes nothing, however
    old the stored alerts are: the flush returns a nil error, reports zero
    and leaves every table as it was. *)
Theorem FlushAlerts_age_pass_deletes_nothing (now : Time) (MaxAge : Duration) (c : Client) :
  0 < MaxAge ->
  DeleteAlertWithFilter now [("until", [Format_RFC3339 Local_offset (now + - MaxAge)])] c =
    (Returns ([], None), c) /\
  FlushAlerts now MaxAge 0 c = (Returns (Some 0, None), c).
Proof.
  intros _. split.
  - destruct (BuildAlertRequestFromFilter_until_instant now Alert_Query Local_offset
                (now + - MaxAge)) as [e He].
    apply (DeleteAlertWithFilter_compile_error now _ c _ He).
  - rewrite FlushAlerts_is_count_pass. reflexivity.
Qed.

(** ** The loop of the filter compiler *)

Lemma BuildAlertRequestFromFilter_loop_app (now : Time) (f1 f2 : FilterMap) (st : FilterVars) :
  BuildAlertRequestFromFilter_loop now (f1 ++ f2) st =
  match BuildAlertRequestFromFilter_loop now f1 st with
  | Returns (inr st') => BuildAlertRequestFromFilter_loop now f2 st'
  | other => other
  end.
Proof.
  revert st. induction f1 as [| [param value] f1 IH]; intros st; [reflexivity |].
  cbn [app BuildAlertRequestFromFilter_loop mbind Go_bind go_bind mret Go_ret].
  destruct (BuildAlertRequestFromFilter_param now param value st) as [[e | st'] |];
    [reflexivity | apply IH | reflexivity].
Qed.

Lemma Filter_lookup_app_cons_ne (key k : string) (v : list string) (f1 f2 : FilterMap) :
  k <> key -> Filter_lookup key (f1 ++ (k, v) :: f2) = Filter_lookup key (f1 ++ f2).
Proof.
  intros Hne. induction f1 as [| [k' v'] f1 IH]; cbn [app Filter_lookup].
  - rewrite bool_decide_eq_false_2 by assumption. reflexivity.
  - rewrite IH. reflexivity.
Qed.

Lemma Filter_delete_app_cons_ne (key k : string) (v : list string) (f1 f2 : FilterMap) :
  k <> key ->
  Filter_delete key (f1 ++ (k, v) :: f2) =
  Filter_delete key f1 ++ (k, v) :: Filter_delete key f2.
Proof.
  intros Hne. unfold Filter_delete. rewrite filter_app, filter_cons_True; [reflexivity |].
  exact Hne.
Qed.

Lemma Filter_delete_app (key : string) (f1 f2 : FilterMap) :
  Filter_delete key (f1 ++ f2) = Filter_delete key f1 ++ Filter_delete key f2.
Proof. apply filter_app. Qed.

(** The compilation of a filter with an entry [(k, v)] in it, [k] other than
    [simulated]: what comes before the entry, the entry, what comes after. *)
Lemma BuildAlertRequestFromFilter_around (now : Time) (q : AlertQuery) (f1 f2 : FilterMap) :
  simulated_prelude q (f1 ++ f2) = Panics /\
  (forall k v, k <> "simulated" ->
     BuildAlertRequestFromFilter now q (f1 ++ (k, v) :: f2) = Panics) \/
  exists q0 g1 g2,
    simulated_prelude q (f1 ++ f2) = Returns (q0, g1 ++ g2) /\
    (forall k v, k <> "simulated" ->
       BuildAlertRequestFromFilter now q (f1 ++ (k, v) :: f2) =
       r ← BuildAlertRequestFromFilter_loop now (g1 ++ (k, v) :: g2) (FilterVars_init q0);
       mret (compiled r)) /\
    (Forall (λ kv, kv.2 <> []) (f1 ++ f2) -> Forall (λ kv, kv.2 <> []) (g1 ++ g2)) /\
    (forall key, key ∉ (f1 ++ f2).*1 -> key ∉ (g1 ++ g2).*1).
Proof.
  unfold BuildAlertRequestFromFilter, simulated_prelude.
  destruct (Filter_lookup "simulated" (f1 ++ f2)) as [[| v0 vs] |] eqn:Hlook.
  - left. split; [reflexivity |]. intros k v Hk.
    rewrite Filter_lookup_app_cons_ne, Hlook by assumption. reflexivity.
  - right. eexists _, (Filter_delete "simulated" f1), (Filter_delete "simulated" f2).
    split; [rewrite Filter_delete_app; reflexivity |]. split; [| split].
    + intros k v Hk.
      rewrite Filter_lookup_app_cons_ne, Hlook, Filter_delete_app_cons_ne by assumption.
      reflexivity.
    + rewrite <- Filter_delete_app. unfold Filter_delete. intros Hall.
      apply Forall_forall. intros kv Hin. apply list_elem_of_filter in Hin as [_ Hin].
      revert kv Hin. apply Forall_forall. assumption.
    + intros key Hkey Hin. apply Hkey. rewrite <- Filter_delete_app in Hin.
      apply list_elem_of_fmap in Hin as (kv & -> & Hin).
      apply list_elem_of_filter in Hin as [_ Hin].
      apply list_elem_of_fmap. eauto.
  - right. exists q, f1, f2. split; [reflexivity |]. split; [| tauto].
    intros k v Hk. rewrite Filter_lookup_app_cons_ne, Hlook by assumption. reflexivity.
Qed.

(** ** Empty value lists *)

Lemma param_nonempty (now : Time) (param : string) (value : list string) (st : FilterVars) :
  value <> [] -> BuildAlertRequestFromFilter_param now param value st <> Panics.
Proof.
  intros Hne. destruct value as [| v vs]; [congruence |].
  unfold BuildAlertRequestFromFilter_param.
  cbn [index0 mbind mret Go_bind Go_ret go_bind].
  repeat case_bool_decide; try discriminate;
    repeat match goal with
    | |- context [let '(_, _) := ?x in _] => destruct x
    | |- context [match ?x with _ => _ end] => destruct x
    end; discriminate.
Qed.

Lemma loop_nonempty (now : Time) (f : FilterMap) (st : FilterVars) :
  Forall (λ kv, kv.2 <> []) f -> BuildAlertRequestFromFilter_loop now f st <> Panics.
Proof.
  intros Hall. revert st.
  induction Hall as [| [param value] f Hv Hall IH]; intros st; [discriminate |].
  cbn [BuildAlertRequestFromFilter_loop mbind Go_bind go_bind mret Go_ret].
  pose proof (param_nonempty now param value st Hv) as Hp.
  destruct (BuildAlertRequestFromFilter_param now param value st) as [[e | st'] |];
    [discriminate | apply IH | congruence].
Qed.

Lemma Filter_lookup_elem_of (k : string) (f : FilterMap) (v : list string) :
  Filter_lookup k f = Some v -> (k, v) ∈ f.
Proof.
  induction f as [| [k' v'] f IH]; cbn [Filter_lookup]; [discriminate |].
  case_bool_decide as Hk.
  - intros [= ->]. subst k'. apply list_elem_of_here.
  - intros Hl. apply list_elem_of_further, IH, Hl.
Qed.

Lemma Filter_delete_Forall (P : string * list string -> Prop) (k : string) (f : FilterMap) :
  Forall P f -> Forall P (Filter_delete k f).
Proof.
  intros Hall. apply Forall_forall. intros kv Hin.
  apply list_elem_of_filter in Hin as [_ Hin].
  revert kv Hin. apply Forall_forall. assumption.
Qed.

(** C9: the filter compiler returns (a query or an error) whenever every
    value list of the filter is non-empty; every case of the switch, and the
    handling of [simulated], indexes the value list at 0 without a guard, so a
    recognized key with an empty list makes the call panic instead of
    returning an error. *)
Theorem BuildAlertRequestFromFilter_reads_first_value (now : Time) (q : AlertQuery) :
  (forall f, Forall (λ kv, kv.2 <> []) f -> BuildAlertRequestFromFilter now q f <> Panics) /\
  (forall param st, BuildAlertRequestFromFilter_param now param [] st = Panics) /\
  (forall k, k ∈ recognized_keys -> BuildAlertRequestFromFilter now q [(k, [])] = Panics) /\
  (forall f, Filter_lookup "simulated" f = Some [] ->
     BuildAlertRequestFromFilter now q f = Panics) /\
  (forall k f1 f2, k <> "simulated" ->
     BuildAlertRequestFromFilter now q (f1 ++ (k, []) :: f2) = Panics \/
     exists e, BuildAlertRequestFromFilter now q (f1 ++ (k, []) :: f2) = Returns (None, Some e)).
Proof.
  assert (Hsim : forall f, Filter_lookup "simulated" f = Some [] ->
                   BuildAlertRequestFromFilter now q f = Panics).
  { intros f Hl. unfold BuildAlertRequestFromFilter, simulated_prelude. rewrite Hl.
    reflexivity. }
  assert (Hmid : forall k f1 f2, k <> "simulated" ->
     BuildAlertRequestFromFilter now q (f1 ++ (k, []) :: f2) = Panics \/
     exists e, BuildAlertRequestFromFilter now q (f1 ++ (k, []) :: f2) = Returns (None, Some e)).
  { intros k f1 f2 Hk.
    destruct (BuildAlertRequestFromFilter_around now q f1 f2)
      as [[_ Hp] | (q0 & g1 & g2 & _ & Hb & _)].
    - left. apply Hp, Hk.
    - rewrite (Hb k [] Hk), BuildAlertRequestFromFilter_loop_app.
      destruct (BuildAlertRequestFromFilter_loop now g1 (FilterVars_init q0))
        as [[e | st1] |].
      + right. exists e. reflexivity.
      + left. cbn [BuildAlertRequestFromFilter_loop mbind Go_bind go_bind].
        rewrite param_empty. reflexivity.
      + left. reflexivity. }
  split; [| split; [| split; [| split]]].
  - intros f Hall. unfold BuildAlertRequestFromFilter, simulated_prelude.
    destruct (Filter_lookup "simulated" f) as [v |] eqn:Hl.
    + apply Filter_lookup_elem_of in Hl.
      pose proof (proj1 (Forall_forall _ _) Hall _ Hl) as Hv. cbn in Hv.
      destruct v as [| v0 vs]; [congruence |].
      cbn [index0 mbind mret Go_bind Go_ret go_bind].
      pose proof (loop_nonempty now (Filter_delete "simulated" f)
                    (FilterVars_init (if bool_decide (v0 = "false")
                                      then Where (alert_SimulatedEQ false) q else q))
                    (Filter_delete_Forall _ _ _ Hall)) as Hloop.
      destruct (BuildAlertRequestFromFilter_loop _ _ _); [discriminate | congruence].
    + cbn [mbind mret Go_bind Go_ret go_bind].
      pose proof (loop_nonempty now f (FilterVars_init q) Hall) as Hloop.
      destruct (BuildAlertRequestFromFilter_loop _ _ _); [discriminate | congruence].
  - intros param st. apply param_empty.
  - intros k Hk. unfold recognized_keys in Hk.
    repeat (apply elem_of_cons in Hk; destruct Hk as [Hk | Hk];
            [subst k; reflexivity |]).
    inversion Hk.
  - exact Hsim.
  - exact Hmid.
Qed.

(** ** The bounds set by [ip] and [range] *)

(** Only the [ip] and [range] cases read or write the bounds. *)
Lemma param_bounds (now : Time) (param : string) (value : list string) (st : FilterVars)
    (startIP endIP : Z) :
  param <> "ip" -> param <> "range" ->
  BuildAlertRequestFromFilter_param now param value (fv_bounds startIP endIP st) =
  match BuildAlertRequestFromFilter_param now param value st with
  | Returns (inr st') => Returns (inr (fv_bounds startIP endIP st'))
  | other => other
  end.
Proof.
  intros Hip Hrange. unfold BuildAlertRequestFromFilter_param.
  destruct value as [| v vs]; cbn [index0 mbind mret Go_bind Go_ret go_bind];
    repeat case_bool_decide; try congruence; try reflexivity;
    destruct_calls; reflexivity.
Qed.

Lemma loop_bounds (now : Time) (f : FilterMap) (st : FilterVars) (startIP endIP : Z) :
  "ip" ∉ f.*1 -> "range" ∉ f.*1 ->
  BuildAlertRequestFromFilter_loop now f (fv_bounds startIP endIP st) =
  match BuildAlertRequestFromFilter_loop now f st with
  | Returns (inr st') => Returns (inr (fv_bounds startIP endIP st'))
  | other => other
  end.
Proof.
  revert st. induction f as [| [param value] f IH]; intros st Hip Hrange; [reflexivity |].
  cbn [fmap list_fmap fst] in Hip, Hrange.
  apply not_elem_of_cons in Hip as [Hip Hip'].
  apply not_elem_of_cons in Hrange as [Hrange Hrange'].
  cbn [BuildAlertRequestFromFilter_loop mbind Go_bind go_bind mret Go_ret].
  rewrite param_bounds by congruence.
  destruct (BuildAlertRequestFromFilter_param now param value st) as [[e | st'] |];
    [reflexivity | apply IH; assumption | reflexivity].
Qed.

Lemma fv_bounds_same (st : FilterVars) : fv_bounds (fv_startIP st) (fv_endIP st) st = st.
Proof. destruct st. reflexivity. Qed.

Lemma loop_keeps_bounds (now : Time) (f : FilterMap) (st st' : FilterVars) :
  "ip" ∉ f.*1 -> "range" ∉ f.*1 ->
  BuildAlertRequestFromFilter_loop now f st = Returns (inr st') ->
  fv_startIP st' = fv_startIP st /\ fv_endIP st' = fv_endIP st.
Proof.
  intros Hip Hrange Hloop.
  pose proof (loop_bounds now f st (fv_startIP st) (fv_endIP st) Hip Hrange) as Hb.
  rewrite fv_bounds_same, Hloop in Hb. injection Hb as ->. split; reflexivity.
Qed.

(** An entry that sets the start bound to 0 compiles to nothing. *)
Lemma zero_start_entry_dropped (now : Time) (q : AlertQuery) (f1 f2 : FilterMap)
    (k : string) (v : list string) (endIP : Z) :
  k <> "simulated" ->
  (forall st, BuildAlertRequestFromFilter_param now k v st =
              Returns (inr (fv_bounds 0 endIP st))) ->
  "ip" ∉ (f1 ++ f2).*1 -> "range" ∉ (f1 ++ f2).*1 ->
  BuildAlertRequestFromFilter now q (f1 ++ (k, v) :: f2) =
  BuildAlertRequestFromFilter now q (f1 ++ f2).
Proof.
  intros Hk Hparam Hip Hrange.
  destruct (BuildAlertRequestFromFilter_around now q f1 f2)
    as [[Hpre Hp] | (q0 & g1 & g2 & Hpre & Hb & _ & Hkeys)].
  - rewrite Hp by assumption.
    unfold BuildAlertRequestFromFilter. rewrite Hpre. reflexivity.
  - rewrite Hb by assumption.
    unfold BuildAlertRequestFromFilter at 1. rewrite Hpre.
    cbn [mbind Go_bind go_bind].
    apply Hkeys in Hip, Hrange. clear Hkeys Hb Hpre.
    rewrite fmap_app in Hip, Hrange.
    apply not_elem_of_app in Hip as [Hip1 Hip2].
    apply not_elem_of_app in Hrange as [Hrange1 Hrange2].
    rewrite !BuildAlertRequestFromFilter_loop_app.
    destruct (BuildAlertRequestFromFilter_loop now g1 (FilterVars_init q0))
      as [[e | st1] |] eqn:Hloop1; [reflexivity | | reflexivity].
    destruct (loop_keeps_bounds now g1 _ _ Hip1 Hrange1 Hloop1) as [Hs1 He1].
    cbn [BuildAlertRequestFromFilter_loop mbind Go_bind go_bind mret Go_ret].
    rewrite Hparam. cbn [mbind Go_bind go_bind].
    rewrite loop_bounds by assumption.
    destruct (BuildAlertRequestFromFilter_loop now g2 st1)
      as [[e | st2] |] eqn:Hloop2; [reflexivity | | reflexivity].
    destruct (loop_keeps_bounds now g2 _ _ Hip2 Hrange2 Hloop2) as [Hs2 He2].
    cbn [mbind Go_bind go_bind mret Go_ret compiled]. unfold bounds_restriction.
    cbn [fv_bounds fv_startIP fv_endIP fv_alerts].
    rewrite Hs2, Hs1. reflexivity.
Qed.

(** C10: the restriction to the bounds derived from [ip]/[range] is added
    exactly when both bounds are non-zero; a range, or an address, whose start
    bound is 0 (such as the whole address space) adds no restriction: the
    filter compiles, and the query answers, as it does without the entry. *)
Theorem zero_start_bound_drops_restriction (now : Time) (q : AlertQuery) :
  (forall st,
     q_predicates (bounds_restriction st) =
     q_predicates (fv_alerts st) ++
     (if decide (fv_startIP st <> 0 /\ fv_endIP st <> 0)
      then [alert_And (alert_HasDecisionsWith (decision_StartIPGTE (fv_startIP st)))
                      (alert_HasDecisionsWith (decision_EndIPLTE (fv_endIP st)))]
      else [])) /\
  (forall f1 f2 r vs endIP,
     GetIpsFromIpRange r = (0, endIP, None) ->
     "ip" ∉ (f1 ++ f2).*1 -> "range" ∉ (f1 ++ f2).*1 ->
     BuildAlertRequestFromFilter now q (f1 ++ ("range", r :: vs) :: f2) =
     BuildAlertRequestFromFilter now q (f1 ++ f2)) /\
  (forall f1 f2 r vs endIP c,
     GetIpsFromIpRange r = (0, endIP, None) ->
     "ip" ∉ (f1 ++ f2).*1 -> "range" ∉ (f1 ++ f2).*1 ->
     QueryAlertWithFilter now (f1 ++ ("range", r :: vs) :: f2) c =
     QueryAlertWithFilter now (f1 ++ f2) c) /\
  (forall f1 f2 X vs endIP c,
     IsIpv4 X = true -> GetIpsFromIpRange (X +:+ "/32") = (0, endIP, None) ->
     "ip" ∉ (f1 ++ f2).*1 -> "range" ∉ (f1 ++ f2).*1 ->
     QueryAlertWithFilter now (f1 ++ ("ip", X :: vs) :: f2) c =
     QueryAlertWithFilter now (f1 ++ f2) c).
Proof.
  split; [| split; [| split]].
  - intros st. unfold bounds_restriction.
    destruct (decide (fv_startIP st <> 0 /\ fv_endIP st <> 0)) as [[Hs He] | Hn].
    + rewrite !bool_decide_eq_true_2 by assumption. reflexivity.
    + destruct (decide (fv_startIP st = 0)) as [Hs | Hs].
      * rewrite (bool_decide_eq_false_2 (fv_startIP st <> 0)) by tauto.
        cbn. rewrite app_nil_r. reflexivity.
      * rewrite (bool_decide_eq_false_2 (fv_endIP st <> 0)) by tauto.
        rewrite andb_false_r, app_nil_r. reflexivity.
  - intros f1 f2 r vs endIP Hr Hip Hrange.
    apply (zero_start_entry_dropped now q f1 f2 "range" (r :: vs) endIP);
      [discriminate | | assumption | assumption].
    intros st. rewrite param_range, Hr. reflexivity.
  - intros f1 f2 r vs endIP c Hr Hip Hrange. unfold QueryAlertWithFilter.
    rewrite (zero_start_entry_dropped now Alert_Query f1 f2 "range" (r :: vs) endIP);
      [reflexivity | discriminate | | assumption | assumption].
    intros st. rewrite param_range, Hr. reflexivity.
  - intros f1 f2 X vs endIP c HX Hr Hip Hrange. unfold QueryAlertWithFilter.
    rewrite (zero_start_entry_dropped now Alert_Query f1 f2 "ip" (X :: vs) endIP);
      [reflexivity | discriminate | | assumption | assumption].
    intros st. rewrite param_ip, HX, Hr. reflexivity.
Qed.

(** ** [ip] and [range] *)

(** C8: for an IPv4 address [X], the filters [ip=X] and [range=X/32], in any
    position among other entries, compile to the same query; when the codec
    rejects the range both fail with [InvalidIPOrRange]; and on every store
    the two queries return the same alerts. *)
Theorem ip_filter_is_host_range (now : Time) (X : string) (vs ws : list string)
    (f1 f2 : FilterMap) :
  IsIpv4 X = true ->
  (forall q,
     match BuildAlertRequestFromFilter now q (f1 ++ ("ip", X :: vs) :: f2),
           BuildAlertRequestFromFilter now q (f1 ++ ("range", (X +:+ "/32") :: ws) :: f2) with
     | Returns (Some q1, None), Returns (Some q2, None) => q1 = q2
     | Returns (None, Some e1), Returns (None, Some e2) => Cause e1 = Cause e2
     | Panics, Panics => True
     | _, _ => False
     end) /\
  (forall c,
     match QueryAlertWithFilter now (f1 ++ ("ip", X :: vs) :: f2) c,
           QueryAlertWithFilter now (f1 ++ ("range", (X +:+ "/32") :: ws) :: f2) c with
     | (Returns (l1, e1), c1), (Returns (l2, e2), c2) =>
         l1 = l2 /\ c1 = c2 /\ (e1 = None <-> e2 = None)
     | (Panics, c1), (Panics, c2) => c1 = c2
     | _, _ => False
     end).
Proof.
  intros HX.
  assert (Hbuild : forall q,
     match BuildAlertRequestFromFilter now q (f1 ++ ("ip", X :: vs) :: f2),
           BuildAlertRequestFromFilter now q (f1 ++ ("range", (X +:+ "/32") :: ws) :: f2) with
     | Returns (Some q1, None), Returns (Some q2, None) => q1 = q2
     | Returns (None, Some e1), Returns (None, Some e2) => Cause e1 = Cause e2
     | Panics, Panics => True
     | _, _ => False
     end).
  { intros q.
    destruct (BuildAlertRequestFromFilter_around now q f1 f2)
      as [[_ Hp] | (q0 & g1 & g2 & _ & Hb & _)].
    - rewrite !Hp by discriminate. exact I.
    - rewrite !Hb by discriminate. rewrite !BuildAlertRequestFromFilter_loop_app.
      destruct (BuildAlertRequestFromFilter_loop now g1 (FilterVars_init q0))
        as [[e | st1] |]; [reflexivity | | exact I].
      cbn [BuildAlertRequestFromFilter_loop mbind Go_bind go_bind mret Go_ret].
      rewrite param_ip, param_range, HX. cbn [negb].
      destruct (GetIpsFromIpRange (X +:+ "/32")) as [[startIP endIP] [e |]].
      + reflexivity.
      + cbn [mbind Go_bind go_bind mret Go_ret].
        destruct (BuildAlertRequestFromFilter_loop now g2 (fv_bounds startIP endIP st1))
          as [[e | st2] |]; [reflexivity | reflexivity | exact I]. }
  split; [exact Hbuild |].
  intros c. unfold QueryAlertWithFilter.
  specialize (Hbuild Alert_Query).
  destruct (BuildAlertRequestFromFilter now Alert_Query (f1 ++ ("ip", X :: vs) :: f2))
    as [[[q1 |] [e1 |]] |];
    destruct (BuildAlertRequestFromFilter now Alert_Query
                (f1 ++ ("range", (X +:+ "/32") :: ws) :: f2))
      as [[[q2 |] [e2 |]] |]; try contradiction; try (repeat split; congruence).
  subst q2.
  destruct (Alert_All (OrderAscCreatedAt (WithEdges q1)) c) as [[result [e |]] c'];
    repeat split; congruence.
Qed.

(** ** What a compiled query returns *)

Lemma QueryAlertWithFilter_ok (now : Time) (f : FilterMap) (c : Client) (q : AlertQuery) :
  faults c = [] ->
  BuildAlertRequestFromFilter now Alert_Query f = Returns (Some q, None) ->
  QueryAlertWithFilter now f c =
  (Returns (map (load_edges c (OrderAscCreatedAt (WithEdges q)))
              (query_rows c (OrderAscCreatedAt (WithEdges q))), None), c).
Proof.
  intros Hf Hb. unfold QueryAlertWithFilter. rewrite Hb, Alert_All_ok by assumption.
  reflexivity.
Qed.

Lemma view_alert_load_edges (c : Client) (q : AlertQuery) (rows : list ent_Alert) :
  view_alert <$> map (load_edges c q) rows = rows.
Proof.
  induction rows as [| a rows IH]; [reflexivity |].
  cbn [map fmap list_fmap]. cbn [fmap] in IH. rewrite IH. reflexivity.
Qed.

Lemma elem_of_query_rows (c : Client) (q : AlertQuery) (a : ent_Alert) :
  a ∈ query_rows c (OrderAscCreatedAt (WithEdges q)) <->
  a ∈ Alert_table c /\ selected c q a = true.
Proof.
  unfold query_rows. cbn [q_orderCreatedAt OrderAscCreatedAt].
  rewrite merge_sort_Permutation, list_elem_of_filter.
  unfold selected. cbn [q_predicates OrderAscCreatedAt WithEdges].
  rewrite Is_true_true. tauto.
Qed.

Lemma existsb_elem_of {A : Type} (p : A -> bool) (l : list A) :
  existsb p l = true <-> exists x, x ∈ l /\ p x = true.
Proof.
  rewrite existsb_exists. split; intros (x & Hx & Hp); exists x;
    (split; [apply list_elem_of_In; assumption | assumption]).
Qed.

(** ** An entry that adds one predicate *)

Lemma one_more_predicate_Where (p p' : alert_Predicate) (q q' : AlertQuery) :
  one_more_predicate p q q' -> one_more_predicate p (Where p' q) (Where p' q').
Proof.
  intros (Hd & He & Hm & Ho & Hord & l1 & l2 & Hq & Hq').
  unfold one_more_predicate. cbn [Where q_withDecisions q_withEvents q_withMetas
    q_withOwner q_orderCreatedAt q_predicates].
  repeat (split; [assumption |]).
  exists l1, (l2 ++ [p']). rewrite Hq, Hq', <- !app_assoc. split; reflexivity.
Qed.

Lemma one_more_predicate_fv_Where (p p' : alert_Predicate) (st st' : FilterVars) :
  one_more_predicate_vars p st st' ->
  one_more_predicate_vars p (fv_Where p' st) (fv_Where p' st').
Proof.
  intros (Hs & He & Hq). unfold one_more_predicate_vars.
  cbn [fv_Where fv_startIP fv_endIP fv_alerts].
  repeat (split; [assumption |]). apply one_more_predicate_Where, Hq.
Qed.

Lemma one_more_predicate_fv_bounds (p : alert_Predicate) (st st' : FilterVars)
    (startIP endIP : Z) :
  one_more_predicate_vars p st st' ->
  one_more_predicate_vars p (fv_bounds startIP endIP st) (fv_bounds startIP endIP st').
Proof.
  intros (Hs & He & Hq). unfold one_more_predicate_vars.
  cbn [fv_bounds fv_startIP fv_endIP fv_alerts]. auto.
Qed.

(** The outcome of a case of the switch does not depend on the predicates
    gathered so far. *)
Lemma param_one_more_predicate (now : Time) (p : alert_Predicate) (param : string)
    (value : list string) (st st' : FilterVars) :
  one_more_predicate_vars p st st' ->
  match BuildAlertRequestFromFilter_param now param value st,
        BuildAlertRequestFromFilter_param now param value st' with
  | Returns (inr a), Returns (inr b) => one_more_predicate_vars p a b
  | Returns (inl e), Returns (inl e') => e = e'
  | Panics, Panics => True
  | _, _ => False
  end.
Proof.
  intros Hrel. unfold BuildAlertRequestFromFilter_param.
  destruct value as [| v vs]; cbn [index0 mbind mret Go_bind Go_ret go_bind];
    repeat case_bool_decide; try exact I; destruct_calls;
    cbn [mbind mret Go_bind Go_ret go_bind];
    first [ reflexivity
          | apply one_more_predicate_fv_Where, Hrel
          | apply one_more_predicate_fv_bounds, Hrel
          | exact Hrel ].
Qed.

Lemma loop_one_more_predicate (now : Time) (p : alert_Predicate) (f : FilterMap)
    (st st' : FilterVars) :
  one_more_predicate_vars p st st' ->
  match BuildAlertRequestFromFilter_loop now f st,
        BuildAlertRequestFromFilter_loop now f st' with
  | Returns (inr a), Returns (inr b) => one_more_predicate_vars p a b
  | Returns (inl e), Returns (inl e') => e = e'
  | Panics, Panics => True
  | _, _ => False
  end.
Proof.
  revert st st'. induction f as [| [param value] f IH]; intros st st' Hrel; [exact Hrel |].
  cbn [BuildAlertRequestFromFilter_loop mbind Go_bind go_bind mret Go_ret].
  pose proof (param_one_more_predicate now p param value st st' Hrel) as Hstep.
  destruct (BuildAlertRequestFromFilter_param now param value st) as [[e | a] |];
    destruct (BuildAlertRequestFromFilter_param now param value st') as [[e' | b] |];
    try contradiction; try assumption.
  apply IH, Hstep.
Qed.

Lemma selected_one_more_predicate (c : Client) (p : alert_Predicate) (q q' : AlertQuery)
    (a : ent_Alert) :
  one_more_predicate p q q' ->
  selected c q' a = selected c q a && alert_holds c p a.
Proof.
  intros (_ & _ & _ & _ & _ & l1 & l2 & Hq & Hq'). unfold selected.
  rewrite Hq, Hq', !forallb_app. cbn [forallb].
  destruct (forallb _ l1), (alert_holds c p a), (forallb _ l2); reflexivity.
Qed.

Lemma bounds_restriction_one_more_predicate (p : alert_Predicate) (st st' : FilterVars) :
  one_more_predicate_vars p st st' ->
  one_more_predicate p (bounds_restriction st) (bounds_restriction st').
Proof.
  intros (Hs & He & Hq). unfold bounds_restriction. rewrite Hs, He.
  destruct (bool_decide (fv_startIP st <> 0) && bool_decide (fv_endIP st <> 0));
    [apply one_more_predicate_Where |]; exact Hq.
Qed.

(** An entry whose case adds the predicate [p] whatever the state: the
    filter compiles as it does without the entry, with [p] as one more
    conjunct. *)
Lemma entry_adds_conjunct (now : Time) (q : AlertQuery) (f1 f2 : FilterMap)
    (k : string) (v : list string) (p : alert_Predicate) :
  k <> "simulated" ->
  (forall st, BuildAlertRequestFromFilter_param now k v st = Returns (inr (fv_Where p st))) ->
  match BuildAlertRequestFromFilter now q (f1 ++ f2),
        BuildAlertRequestFromFilter now q (f1 ++ (k, v) :: f2) with
  | Returns (Some q0, None), Returns (Some q1, None) =>
      forall c a, selected c q1 a = selected c q0 a && alert_holds c p a
  | Returns (None, Some e0), Returns (None, Some e1) => e0 = e1
  | Panics, Panics => True
  | _, _ => False
  end.
Proof.
  intros Hk Hparam.
  destruct (BuildAlertRequestFromFilter_around now q f1 f2)
    as [[Hpre Hp] | (q0 & g1 & g2 & Hpre & Hb & _)].
  - rewrite Hp by assumption.
    unfold BuildAlertRequestFromFilter. rewrite Hpre. exact I.
  - rewrite Hb by assumption.
    unfold BuildAlertRequestFromFilter. rewrite Hpre.
    cbn [mbind Go_bind go_bind]. rewrite !BuildAlertRequestFromFilter_loop_app.
    destruct (BuildAlertRequestFromFilter_loop now g1 (FilterVars_init q0))
      as [[e | st1] |]; [reflexivity | | exact I].
    cbn [BuildAlertRequestFromFilter_loop mbind Go_bind go_bind mret Go_ret].
    rewrite Hparam. cbn [mbind Go_bind go_bind].
    assert (Hrel : one_more_predicate_vars p st1 (fv_Where p st1)).
    { unfold one_more_predicate_vars, one_more_predicate.
      cbn [fv_Where fv_startIP fv_endIP fv_alerts Where q_withDecisions q_withEvents
        q_withMetas q_withOwner q_orderCreatedAt q_predicates].
      repeat (split; [reflexivity |]).
      exists (q_predicates (fv_alerts st1)), []. rewrite app_nil_r. split; reflexivity. }
    pose proof (loop_one_more_predicate now p g2 _ _ Hrel) as Hloop.
    destruct (BuildAlertRequestFromFilter_loop now g2 st1) as [[e | a] |];
      destruct (BuildAlertRequestFromFilter_loop now g2 (fv_Where p st1)) as [[e' | b] |];
      try contradiction; cbn [mret Go_ret compiled]; [exact Hloop | | exact I].
    intros c x. apply selected_one_more_predicate,
      bounds_restriction_one_more_predicate, Hloop.
Qed.

(** ** [has_active_decision] *)

Lemma holds_active_decision (now : Time) (c : Client) (a : ent_Alert) :
  alert_holds c (alert_HasDecisionsWith (decision_UntilGTE now)) a = true <->
  exists d, d ∈ Decision_table c /\ decision_owner d = Some (alert_ID a) /\
            now <= decision_Until d.
Proof.
  cbn [alert_holds]. rewrite existsb_elem_of. unfold decisions_of.
  split; intros (d & Hd & Hp); exists d.
  - apply list_elem_of_filter in Hd as [Ho Hd].
    cbn [decision_holds] in Hp. apply bool_decide_eq_true in Hp. tauto.
  - destruct Hp as [Ho Hu]. split; [apply list_elem_of_filter; tauto |].
    cbn [decision_holds]. apply bool_decide_eq_true. exact Hu.
Qed.

Lemma holds_no_decision (c : Client) (a : ent_Alert) :
  alert_holds c (alert_Not alert_HasDecisions) a = true <->
  ~ exists d, d ∈ Decision_table c /\ decision_owner d = Some (alert_ID a).
Proof.
  cbn [alert_holds]. rewrite negb_true_iff, bool_decide_eq_false. unfold decisions_of.
  split; intros Hn.
  - intros (d & Hd & Ho). apply Hn. intros Hnil.
    assert (Hin : d ∈ filter (λ d, decision_owner d = Some (alert_ID a))
                        (Decision_table c)) by (apply list_elem_of_filter; tauto).
    rewrite Hnil in Hin. inversion Hin.
  - intros Hne. apply Hn.
    destruct (filter (λ d, decision_owner d = Some (alert_ID a)) (Decision_table c))
      as [| d l] eqn:Hfl; [congruence |].
    exists d.
    assert (Hin : d ∈ filter (λ d, decision_owner d = Some (alert_ID a))
                        (Decision_table c)) by (rewrite Hfl; apply list_elem_of_here).
    apply list_elem_of_filter in Hin. tauto.
Qed.

(** C7: the [has_active_decision] filter with value ["true"] selects exactly
    the stored alerts that own a decision whose [until] is at or after the
    clock; with value ["false"], exactly the alerts that own no decision;
    among other entries it adds that condition to theirs; with a value that
    [strconv.ParseBool] rejects the compilation fails with [ParseType] and
    yields no query. *)
Theorem has_active_decision_filter (now : Time) :
  (forall c, faults c = [] ->
     exists result,
       QueryAlertWithFilter now [("has_active_decision", ["true"])] c =
         (Returns (result, None), c) /\
       forall a, a ∈ view_alert <$> result <->
         a ∈ Alert_table c /\
         exists d, d ∈ Decision_table c /\ decision_owner d = Some (alert_ID a) /\
                   now <= decision_Until d) /\
  (forall c, faults c = [] ->
     exists result,
       QueryAlertWithFilter now [("has_active_decision", ["false"])] c =
         (Returns (result, None), c) /\
       forall a, a ∈ view_alert <$> result <->
         a ∈ Alert_table c /\
         ~ exists d, d ∈ Decision_table c /\ decision_owner d = Some (alert_ID a)) /\
  (forall q f1 f2 v vs, ParseBool v = (true, None) ->
     match BuildAlertRequestFromFilter now q (f1 ++ f2),
           BuildAlertRequestFromFilter now q (f1 ++ ("has_active_decision", v :: vs) :: f2) with
     | Returns (Some q0, None), Returns (Some q1, None) =>
         forall c a, selected c q1 a = true <->
           selected c q0 a = true /\
           exists d, d ∈ Decision_table c /\ decision_owner d = Some (alert_ID a) /\
                     now <= decision_Until d
     | Returns (None, Some e0), Returns (None, Some e1) => e0 = e1
     | Panics, Panics => True
     | _, _ => False
     end) /\
  (forall q f1 f2 v vs, ParseBool v = (false, None) ->
     match BuildAlertRequestFromFilter now q (f1 ++ f2),
           BuildAlertRequestFromFilter now q (f1 ++ ("has_active_decision", v :: vs) :: f2) with
     | Returns (Some q0, None), Returns (Some q1, None) =>
         forall c a, selected c q1 a = true <->
           selected c q0 a = true /\
           ~ exists d, d ∈ Decision_table c /\ decision_owner d = Some (alert_ID a)
     | Returns (None, Some e0), Returns (None, Some e1) => e0 = e1
     | Panics, Panics => True
     | _, _ => False
     end) /\
  (forall v vs q f1 f2, snd (ParseBool v) <> None ->
     BuildAlertRequestFromFilter now q [("has_active_decision", v :: vs)] =
       Returns (None, Some (Wrap ParseType "'%s' is not a boolean: %s"
                              [ArgS v; ArgE (snd (ParseBool v))])) /\
     forall q', BuildAlertRequestFromFilter now q
                  (f1 ++ ("has_active_decision", v :: vs) :: f2) <> Returns (Some q', None)).
Proof.
  split; [| split; [| split; [| split]]].
  - intros c Hf. eexists. split.
    + apply QueryAlertWithFilter_ok; [assumption | reflexivity].
    + intros a. rewrite view_alert_load_edges, elem_of_query_rows.
      unfold selected.
      change (q_predicates (bounds_restriction _))
        with [alert_HasDecisionsWith (decision_UntilGTE now)].
      cbn [forallb]. rewrite andb_true_r, holds_active_decision. reflexivity.
  - intros c Hf. eexists. split.
    + apply QueryAlertWithFilter_ok; [assumption | reflexivity].
    + intros a. rewrite view_alert_load_edges, elem_of_query_rows.
      unfold selected.
      change (q_predicates (bounds_restriction _)) with [alert_Not alert_HasDecisions].
      cbn [forallb]. rewrite andb_true_r, holds_no_decision. reflexivity.
  - intros q f1 f2 v vs Hv.
    pose proof (entry_adds_conjunct now q f1 f2 "has_active_decision" (v :: vs)
                  (alert_HasDecisionsWith (decision_UntilGTE now))) as Hadd.
    destruct (BuildAlertRequestFromFilter now q (f1 ++ f2)) as [[[q0 |] [e0 |]] |];
      destruct (BuildAlertRequestFromFilter now q
                  (f1 ++ ("has_active_decision", v :: vs) :: f2)) as [[[q1 |] [e1 |]] |];
      try (apply Hadd; [discriminate | intros st; rewrite param_has_active_decision, Hv;
                                        reflexivity]).
    intros c a. rewrite Hadd, andb_true_iff, holds_active_decision;
      [reflexivity | discriminate |].
    intros st. rewrite param_has_active_decision, Hv. reflexivity.
  - intros q f1 f2 v vs Hv.
    pose proof (entry_adds_conjunct now q f1 f2 "has_active_decision" (v :: vs)
                  (alert_Not alert_HasDecisions)) as Hadd.
    destruct (BuildAlertRequestFromFilter now q (f1 ++ f2)) as [[[q0 |] [e0 |]] |];
      destruct (BuildAlertRequestFromFilter now q
                  (f1 ++ ("has_active_decision", v :: vs) :: f2)) as [[[q1 |] [e1 |]] |];
      try (apply Hadd; [discriminate | intros st; rewrite param_has_active_decision, Hv;
                                        reflexivity]).
    intros c a. rewrite Hadd, andb_true_iff, holds_no_decision;
      [reflexivity | discriminate |].
    intros st. rewrite param_has_active_decision, Hv. reflexivity.
  - intros v vs q f1 f2 Hv. split.
    + unfold BuildAlertRequestFromFilter, simulated_prelude.
      change (Filter_lookup "simulated" [("has_active_decision", v :: vs)])
        with (@None (list string)).
      cbn [mbind mret Go_bind Go_ret go_bind BuildAlertRequestFromFilter_loop].
      rewrite param_has_active_decision.
      destruct (ParseBool v) as [b [e |]]; [reflexivity | contradiction].
    + intros q'.
      destruct (BuildAlertRequestFromFilter_around now q f1 f2)
        as [[_ Hp] | (q0 & g1 & g2 & _ & Hb & _)].
      * rewrite Hp by discriminate. discriminate.
      * rewrite Hb by discriminate. rewrite BuildAlertRequestFromFilter_loop_app.
        destruct (BuildAlertRequestFromFilter_loop now g1 (FilterVars_init q0))
          as [[e | st1] |]; [discriminate | | discriminate].
        cbn [BuildAlertRequestFromFilter_loop mbind Go_bind go_bind mret Go_ret].
        rewrite param_has_active_decision.
        destruct (ParseBool v) as [b [e |]]; [discriminate | contradiction].
Qed.

(** ** The flush by number of alerts *)

(** C5: on a store with [count] alerts and no engine failure, when
    [0 < MaxItems < count] the flush deletes the [count - MaxItems] alerts
    that come first by ascending [createdAt], with their events, metas and
    decisions, keeps the other [MaxItems] alerts with their children, and
    reports [count - MaxItems]; when [MaxItems <= 0] or [count <= MaxItems]
    it deletes nothing, reports zero and returns a nil error. *)
Theorem FlushAlerts_count_pass (now : Time) (MaxAge : Duration) (MaxItems : Z) (c : Client) :
  faults c = [] ->
  NoDup (alert_ID <$> Alert_table c) ->
  let count := Z.of_nat (length (Alert_table c)) in
  let sorted := merge_sort created_le (Alert_table c) in
  let n := Z.to_nat (count - MaxItems) in
  (0 < MaxItems < count ->
   exists c',
     FlushAlerts now MaxAge MaxItems c = (Returns (Some (count - MaxItems), None), c') /\
     (Alert_table c' ≡ₚ drop n sorted) /\
     Z.of_nat (length (Alert_table c')) = MaxItems /\
     length (take n sorted) = n /\
     (forall a b, a ∈ take n sorted -> b ∈ Alert_table c' ->
                  alert_CreatedAt a <= alert_CreatedAt b) /\
     (forall a, a ∈ take n sorted ->
                (a ∉ Alert_table c') /\ events_of c' (alert_ID a) = [] /\
                metas_of c' (alert_ID a) = [] /\ decisions_of c' (alert_ID a) = []) /\
     (forall b, b ∈ Alert_table c' ->
                events_of c' (alert_ID b) = events_of c (alert_ID b) /\
                metas_of c' (alert_ID b) = metas_of c (alert_ID b) /\
                decisions_of c' (alert_ID b) = decisions_of c (alert_ID b))) /\
  (MaxItems <= 0 \/ count <= MaxItems ->
   FlushAlerts now MaxAge MaxItems c = (Returns (Some 0, None), c)).
Proof.
  intros Hf Hnd count sorted n. split.
  - intros [Hpos Hlt].
    exists (without_graphs (alert_ID <$> take n sorted) c).
    assert (Hperm : sorted ≡ₚ Alert_table c) by apply merge_sort_Permutation.
    assert (Hnds : NoDup (alert_ID <$> sorted)) by (rewrite Hperm; exact Hnd).
    assert (Htable : Alert_table (without_graphs (alert_ID <$> take n sorted) c) ≡ₚ
                     drop n sorted).
    { rewrite without_graphs_Alert_table, <- Hperm. rewrite filter_not_in_take by exact Hnds.
      reflexivity. }
    assert (Hlen : length sorted = length (Alert_table c)) by (rewrite Hperm; reflexivity).
    assert (Hkept : forall b, b ∈ Alert_table (without_graphs (alert_ID <$> take n sorted) c) ->
                      alert_ID b ∉ alert_ID <$> take n sorted).
    { intros b Hb. rewrite without_graphs_Alert_table in Hb.
      apply list_elem_of_filter in Hb. tauto. }
    split; [| split; [| split; [| split; [| split; [| split]]]]].
    + rewrite FlushAlerts_is_count_pass, FlushAlerts_count_ok by assumption.
      fold count.
      replace (0 <? MaxItems) with true by (symmetry; apply Z.ltb_lt; lia).
      replace (MaxItems <? count) with true by (symmetry; apply Z.ltb_lt; lia).
      reflexivity.
    + exact Htable.
    + rewrite Htable, length_drop, Hlen. unfold n, count. lia.
    + rewrite length_take_le; [reflexivity |]. rewrite Hlen. unfold n, count. lia.
    + intros a b Ha Hb. rewrite Htable in Hb.
      pose proof (StronglySorted_merge_sort created_le (Alert_table c)) as Hsorted.
      fold sorted in Hsorted. rewrite <- (take_drop n sorted) in Hsorted.
      apply (StronglySorted_app_1_elem_of _ _ _ _ _ Hsorted Ha Hb).
    + intros a Ha.
      assert (Hid : alert_ID a ∈ alert_ID <$> take n sorted)
        by (apply list_elem_of_fmap; eauto).
      split; [intros Hin; apply (Hkept a Hin Hid) |].
      unfold events_of, metas_of, decisions_of.
      rewrite without_graphs_Event_table, without_graphs_Meta_table,
        without_graphs_Decision_table.
      rewrite !owned_once_deleted by exact Hid. auto.
    + intros b Hb. apply Hkept in Hb.
      unfold events_of, metas_of, decisions_of.
      rewrite without_graphs_Event_table, without_graphs_Meta_table,
        without_graphs_Decision_table.
      rewrite !owned_once_kept by exact Hb. auto.
  - intros Hno. rewrite FlushAlerts_is_count_pass, FlushAlerts_count_ok by assumption.
    fold count.
    destruct (Z.ltb_spec 0 MaxItems) as [Hpos | Hnpos]; [| reflexivity].
    destruct (Z.ltb_spec MaxItems count) as [Hlt | Hge]; [lia | reflexivity].
Qed.

(** ** Ingestion without engine failures *)

Lemma resolve_owner_ok (machineId : string) (alertItem : models_Alert) (c : Client) :
  faults c = [] ->
  resolve_owner machineId alertItem c = (inr (machine_of c machineId), c).
Proof.
  intros Hf. unfold resolve_owner, machine_of.
  rewrite QueryMachineByID_ok by assumption.
  destruct (filter _ (Machine_table c)); reflexivity.
Qed.

Lemma check_pure_ok {A : Type} (r : A * option error) (wrap : error -> error) (c : Client) :
  parses r = true -> check_pure r wrap c = (inr (fst r), c).
Proof.
  destruct r as [a [e |]]; unfold parses; cbn [snd]; [discriminate |]. reflexivity.
Qed.

Lemma event_builders_ok (items : list models_Event) :
  forallb (λ e, parses (time_Parse_RFC3339 (me_Timestamp e)) &&
                parses (json_Marshal (me_Meta e))) items = true ->
  exists bs, event_builders items = inr bs.
Proof.
  induction items as [| e items IH]; cbn [forallb event_builders]; [eauto |].
  intros Hv. apply andb_true_iff in Hv as [Hv Hrest].
  apply andb_true_iff in Hv as [Ht Hm]. unfold parses in Ht, Hm.
  destruct (time_Parse_RFC3339 (me_Timestamp e)) as [ts [err |]]; [discriminate |].
  destruct (json_Marshal (me_Meta e)) as [m [err |]]; [discriminate |].
  destruct (IH Hrest) as [bs ->]. eauto.
Qed.

Lemma decision_builders_ok (now : Time) (simulated : bool) (items : list models_Decision) :
  forallb (λ d, parses (ParseDuration (md_Duration d))) items = true ->
  exists bs, decision_builders now simulated items = inr bs.
Proof.
  induction items as [| d items IH]; cbn [forallb decision_builders]; [eauto |].
  intros Hv. apply andb_true_iff in Hv as [Hd Hrest]. unfold parses in Hd.
  destruct (ParseDuration (md_Duration d)) as [duration [err |]]; [discriminate |].
  destruct (IH Hrest) as [bs ->]. eauto.
Qed.

Lemma valid_submission_parts (alertItem : models_Alert) :
  valid_submission alertItem = true ->
  parses (time_Parse_RFC3339 (ma_StartAt alertItem)) = true /\
  parses (time_Parse_RFC3339 (ma_StopAt alertItem)) = true /\
  (exists bs, event_builders (ma_Events alertItem) = inr bs) /\
  (forall now simulated,
     exists bs, decision_builders now simulated (ma_Decisions alertItem) = inr bs).
Proof.
  unfold valid_submission. rewrite !andb_true_iff. intros [[[Hs Hp] He] Hd].
  repeat split; try assumption.
  - apply event_builders_ok, He.
  - intros now simulated. apply decision_builders_ok, Hd.
Qed.

Lemma persist_events_ok (alertItem : models_Alert) (st : BulkVars) (c : Client) :
  faults c = [] -> valid_submission alertItem = true ->
  exists es c', persist_events alertItem st c = (inr es, c') /\ alerts_untouched c c'.
Proof.
  intros Hf Hv. apply valid_submission_parts in Hv as (_ & _ & [bs Hbs] & _).
  unfold persist_events, alerts_untouched.
  destruct (0 <? length (ma_Events alertItem))%nat.
  - unfold mbind, Proc_bind, leave, check. rewrite Hbs.
    rewrite Event_CreateBulk_Save_ok by assumption.
    eexists _, _. split; [reflexivity |]. repeat split; exact Hf.
  - eexists _, c. split; [reflexivity |]. repeat split; exact Hf.
Qed.

Lemma persist_metas_ok (alertItem : models_Alert) (st : BulkVars) (c : Client) :
  faults c = [] ->
  exists ms c', persist_metas alertItem st c = (inr ms, c') /\ alerts_untouched c c'.
Proof.
  intros Hf. unfold persist_metas, alerts_untouched.
  destruct (0 <? length (ma_Meta alertItem))%nat.
  - unfold check. rewrite Meta_CreateBulk_Save_ok by assumption.
    eexists _, _. split; [reflexivity |]. repeat split; exact Hf.
  - eexists _, c. split; [reflexivity |]. repeat split; exact Hf.
Qed.

Lemma persist_decisions_ok (now : Time) (alertItem : models_Alert) (st : BulkVars)
    (c : Client) :
  faults c = [] -> valid_submission alertItem = true ->
  exists ds c', persist_decisions now alertItem st c = (inr ds, c') /\ alerts_untouched c c'.
Proof.
  intros Hf Hv. apply valid_submission_parts in Hv as (_ & _ & _ & Hd).
  destruct (Hd now (ma_Simulated alertItem)) as [bs Hbs].
  unfold persist_decisions, alerts_untouched.
  destruct (0 <? length (ma_Decisions alertItem))%nat.
  - unfold mbind, Proc_bind, leave, check. rewrite Hbs.
    rewrite Decision_CreateBulk_Save_ok by assumption.
    eexists _, _. split; [reflexivity |]. repeat split; exact Hf.
  - eexists _, c. split; [reflexivity |]. repeat split; exact Hf.
Qed.

Lemma new_alerts_app (next : Z) (now : Time) (l : list AlertCreate) (b : AlertCreate) :
  new_alerts next now (l ++ [b]) =
  new_alerts next now l ++ [alert_row (next + Z.of_nat (length l)) now b].
Proof.
  revert next. induction l as [| x l IH]; intros next.
  - cbn. rewrite Z.add_0_r. reflexivity.
  - cbn [app new_alerts length]. rewrite IH.
    replace (next + 1 + Z.of_nat (length l)) with (next + Z.of_nat (S (length l))) by lia.
    reflexivity.
Qed.

Lemma Alert_CreateBulk_Save_ok (now : Time) (builders : list AlertCreate) (c : Client) :
  faults c = [] ->
  exists c',
    Alert_CreateBulk_Save now builders c =
      ((new_alerts (Alert_seq c + 1) now builders, None), c') /\
    faults c' = [] /\ Machine_table c' = Machine_table c /\
    Alert_table c' = Alert_table c ++ new_alerts (Alert_seq c + 1) now builders /\
    Alert_seq c' = Alert_seq c + Z.of_nat (length builders).
Proof.
  intros Hf. unfold Alert_CreateBulk_Save, mbind, State_bind.
  rewrite engine_call_ok by assumption.
  destruct (attach_edges _ builders _) as [[ds es] ms].
  eexists. split; [reflexivity |]. auto.
Qed.

Lemma append_to_bulk_ok (now : Time) (alertB : AlertCreate) (decisions : list ent_Decision)
    (metas : list ent_Meta) (events : list ent_Event) (st : BulkVars) (c : Client) :
  faults c = [] ->
  exists st' c',
    append_to_bulk now alertB decisions metas events st c = (inr st', c') /\
    faults c' = [] /\ Machine_table c' = Machine_table c /\
    rows_so_far now st' c' =
      rows_so_far now st c ++
      [alert_row (Alert_seq c + 1 + Z.of_nat (length (bv_bulk st))) now alertB] /\
    ids_so_far now st' c' =
      ids_so_far now st c ++
      [Itoa (Alert_seq c + 1 + Z.of_nat (length (bv_bulk st)))] /\
    next_id st' c' = next_id st c + 1.
Proof.
  intros Hf. unfold append_to_bulk, rows_so_far, ids_so_far, next_id.
  destruct (length (bv_bulk st ++ [alertB]) =? bulkSize)%nat.
  - destruct (Alert_CreateBulk_Save_ok now (bv_bulk st ++ [alertB]) c Hf)
      as (c' & Hsave & Hf' & Hm & Ht & Hs).
    unfold mbind, Proc_bind, check. rewrite Hsave.
    eexists _, c'. split; [reflexivity |].
    cbn [bv_bulk bv_ret new_alerts fmap list_fmap].
    rewrite Ht, Hs, new_alerts_app, fmap_app, !app_nil_r, !app_assoc, length_app.
    repeat split; try assumption. cbn [length]. lia.
  - eexists _, c. split; [reflexivity |].
    cbn [bv_bulk bv_ret].
    rewrite new_alerts_app, fmap_app, !app_assoc, length_app.
    repeat split; try assumption. cbn [length]. lia.
Qed.

Lemma ingested_alert_row (now : Time) (owner : option ent_Machine) (alertItem : models_Alert)
    (id : Z) (decisions : list ent_Decision) (events : list ent_Event)
    (metas : list ent_Meta) :
  ingested now owner alertItem
    (alert_row id now
       (alert_builder alertItem (fst (time_Parse_RFC3339 (ma_StartAt alertItem)))
          (fst (time_Parse_RFC3339 (ma_StopAt alertItem))) decisions events metas owner)).
Proof. unfold ingested. repeat split. Qed.

(** One round of the loop on a valid submission: the call goes on, with one
    more alert row, which carries the fields of the submission. *)
Lemma CreateAlertBulk_item_ok (now : Time) (machineId : string) (alertItem : models_Alert)
    (st : BulkVars) (c : Client) :
  faults c = [] -> valid_submission alertItem = true ->
  exists st' c' row,
    CreateAlertBulk_item now machineId alertItem st c = (inr st', c') /\
    faults c' = [] /\ Machine_table c' = Machine_table c /\
    rows_so_far now st' c' = rows_so_far now st c ++ [row] /\
    ids_so_far now st' c' = ids_so_far now st c ++ [Itoa (alert_ID row)] /\
    ingested now (machine_of c machineId) alertItem row /\
    alert_ID row = next_id st c /\ next_id st' c' = next_id st c + 1.
Proof.
  intros Hf Hv.
  pose proof (valid_submission_parts _ Hv) as (Hstart & Hstop & _ & _).
  unfold CreateAlertBulk_item, mbind, Proc_bind.
  rewrite resolve_owner_ok by assumption.
  rewrite !check_pure_ok by assumption.
  destruct (persist_events_ok alertItem st c Hf Hv) as (es & c1 & -> & Hf1 & Ht1 & Hs1 & Hm1).
  destruct (persist_metas_ok alertItem st c1 Hf1) as (ms & c2 & -> & Hf2 & Ht2 & Hs2 & Hm2).
  destruct (persist_decisions_ok now alertItem st c2 Hf2 Hv)
    as (ds & c3 & -> & Hf3 & Ht3 & Hs3 & Hm3).
  destruct (append_to_bulk_ok now
              (alert_builder alertItem (fst (time_Parse_RFC3339 (ma_StartAt alertItem)))
                 (fst (time_Parse_RFC3339 (ma_StopAt alertItem))) ds es ms
                 (machine_of c machineId)) ds ms es st c3 Hf3)
    as (st' & c' & -> & Hf' & Hm' & Hrows & Hids & Hnext).
  eexists st', c', _. split; [reflexivity |].
  split; [exact Hf' |]. split; [congruence |].
  unfold rows_so_far, ids_so_far, next_id in *.
  rewrite Hrows, Hids, Hnext, Ht3, Ht2, Ht1, Hs3, Hs2, Hs1.
  split; [reflexivity |]. split; [reflexivity |].
  split; [apply ingested_alert_row |]. split; reflexivity.
Qed.

Lemma CreateAlertBulk_loop_ok (now : Time) (machineId : string)
    (alertList : list models_Alert) (st : BulkVars) (c : Client) :
  faults c = [] -> forallb valid_submission alertList = true ->
  exists st' c' rows,
    CreateAlertBulk_loop now machineId alertList st c = (inr st', c') /\
    faults c' = [] /\ Machine_table c' = Machine_table c /\
    rows_so_far now st' c' = rows_so_far now st c ++ rows /\
    ids_so_far now st' c' = ids_so_far now st c ++ ((λ a, Itoa (alert_ID a)) <$> rows) /\
    Forall2 (ingested now (machine_of c machineId)) alertList rows /\
    alert_ID <$> rows = consecutive (next_id st c) (length alertList) /\
    next_id st' c' = next_id st c + Z.of_nat (length alertList).
Proof.
  revert st c. induction alertList as [| alertItem rest IH]; intros st c Hf Hv.
  - exists st, c, []. cbn [fmap list_fmap length consecutive]. rewrite !app_nil_r.
    repeat split; try assumption; try constructor. lia.
  - cbn [forallb] in Hv. apply andb_true_iff in Hv as [Hv Hrest].
    destruct (CreateAlertBulk_item_ok now machineId alertItem st c Hf Hv)
      as (st1 & c1 & row & Hitem & Hf1 & Hm1 & Hrows1 & Hids1 & Hrow & Hid1 & Hnext1).
    destruct (IH st1 c1 Hf1 Hrest)
      as (st' & c' & rows & Hloop & Hf' & Hm' & Hrows & Hids & Hall & Hcons & Hnext).
    exists st', c', (row :: rows).
    cbn [CreateAlertBulk_loop]. unfold mbind, Proc_bind. rewrite Hitem, Hloop.
    split; [reflexivity |]. split; [exact Hf' |]. split; [congruence |].
    rewrite Hrows, Hids, Hrows1, Hids1, !fmap_cons, <- !app_assoc.
    split; [reflexivity |]. split; [reflexivity |].
    split; [| split].
    + constructor; [exact Hrow |].
      unfold machine_of in *. rewrite <- Hm1. exact Hall.
    + cbn [length consecutive]. rewrite Hcons, Hid1, Hnext1. reflexivity.
    + rewrite Hnext, Hnext1. cbn [length]. lia.
Qed.

Lemma CreateAlertBulk_loop_app (now : Time) (machineId : string)
    (pre post : list models_Alert) (st : BulkVars) (c : Client) :
  CreateAlertBulk_loop now machineId (pre ++ post) st c =
  match CreateAlertBulk_loop now machineId pre st c with
  | (inl e, c') => (inl e, c')
  | (inr st', c') => CreateAlertBulk_loop now machineId post st' c'
  end.
Proof.
  revert st c. induction pre as [| alertItem pre IH]; intros st c; [reflexivity |].
  cbn [app CreateAlertBulk_loop]. unfold mbind, Proc_bind.
  destruct (CreateAlertBulk_item now machineId alertItem st c) as [[e | st1] c1];
    [reflexivity | apply IH].
Qed.

(** The ingestion of valid submissions without engine failure. *)
Lemma CreateAlertBulk_ok (now : Time) (machineId : string)
    (alertList : list models_Alert) (c : Client) :
  faults c = [] -> forallb valid_submission alertList = true ->
  exists rows c',
    CreateAlertBulk now machineId alertList c =
      (((λ a, Itoa (alert_ID a)) <$> rows, None), c') /\
    length rows = length alertList /\
    Alert_table c' = Alert_table c ++ rows /\
    Forall2 (ingested now (machine_of c machineId)) alertList rows /\
    alert_ID <$> rows = consecutive (Alert_seq c + 1) (length alertList) /\
    Alert_seq c' = Alert_seq c + Z.of_nat (length alertList).
Proof.
  intros Hf Hv.
  destruct (CreateAlertBulk_loop_ok now machineId alertList BulkVars_init c Hf Hv)
    as (st & c1 & rows & Hloop & Hf1 & _ & Hrows & Hids & Hall & Hcons & Hnext).
  destruct (Alert_CreateBulk_Save_ok now (bv_bulk st) c1 Hf1)
    as (c2 & Hsave & _ & _ & Ht2 & Hs2).
  exists rows, c2. unfold CreateAlertBulk. rewrite Hloop, Hsave.
  unfold rows_so_far, ids_so_far, next_id in Hrows, Hids, Hcons, Hnext.
  cbn [BulkVars_init bv_bulk bv_ret new_alerts fmap list_fmap app length]
    in Hrows, Hids, Hcons, Hnext.
  rewrite app_nil_r in Hrows. rewrite Z.add_0_r in Hcons.
  split; [rewrite Hids; reflexivity |].
  split; [symmetry; apply (Forall2_length _ _ _ Hall) |].
  split; [rewrite Ht2; exact Hrows |].
  split; [exact Hall |]. split; [exact Hcons | lia].
Qed.

(** ** Identifiers returned by the ingestion *)

(** C4: for every list of valid submissions, on a store without engine
    failure, [CreateAlertBulk] returns a nil error and one identifier per
    submission, in the order of the submissions: the identifiers are those of
    the rows added to the alert table, the i-th row carrying the fields of the
    i-th submission and the i-th identifier handed out by the sequence,
    whatever the length of the list is with respect to the size of a bulk. *)
Theorem CreateAlertBulk_returns_ids_in_order (now : Time) (machineId : string)
    (alertList : list models_Alert) (c : Client) :
  faults c = [] -> forallb valid_submission alertList = true ->
  exists rows c',
    CreateAlertBulk now machineId alertList c =
      (((λ a, Itoa (alert_ID a)) <$> rows, None), c') /\
    length rows = length alertList /\
    Alert_table c' = Alert_table c ++ rows /\
    Forall2 (ingested now (machine_of c machineId)) alertList rows /\
    alert_ID <$> rows = consecutive (Alert_seq c + 1) (length alertList) /\
    Alert_seq c' = Alert_seq c + Z.of_nat (length alertList).
Proof. apply CreateAlertBulk_ok. Qed.

(** ** The owner of an ingested alert *)

(** C6: in any round of the ingestion loop, a machine lookup that fails with
    an error other than [UserNotExists] makes the whole call return an empty
    identifier list and a [QueryFail] error; a lookup that reports
    [UserNotExists] lets the round go on with no owner, and the alerts of the
    call are then created without an owner. *)
Theorem machine_lookup_outcomes (now : Time) (machineId : string) :
  (forall pre alertItem post c st c1 o e c2,
     CreateAlertBulk_loop now machineId pre BulkVars_init c = (inr st, c1) ->
     QueryMachineByID machineId c1 = ((o, Some e), c2) ->
     caused_by UserNotExists e = false ->
     CreateAlertBulk now machineId (pre ++ alertItem :: post) c =
       (([], Some (Wrap QueryFail "machine '%s': %s"
                     [ArgS (ma_MachineID alertItem); ArgE (Some e)])), c2)) /\
  (forall alertItem c o e c2,
     QueryMachineByID machineId c = ((o, Some e), c2) ->
     caused_by UserNotExists e = true ->
     resolve_owner machineId alertItem c = (inr None, c2)) /\
  (forall alertList c o e c2,
     faults c = [] -> forallb valid_submission alertList = true ->
     QueryMachineByID machineId c = ((o, Some e), c2) ->
     caused_by UserNotExists e = true ->
     exists rows c',
       CreateAlertBulk now machineId alertList c =
         (((λ a, Itoa (alert_ID a)) <$> rows, None), c') /\
       length rows = length alertList /\
       Alert_table c' = Alert_table c ++ rows /\
       Forall (λ row, alert_owner row = None) rows).
Proof.
  split; [| split].
  - intros pre alertItem post c st c1 o e c2 Hloop Hlookup Hcause.
    unfold CreateAlertBulk. rewrite CreateAlertBulk_loop_app, Hloop.
    cbn [CreateAlertBulk_loop]. unfold mbind, Proc_bind.
    unfold CreateAlertBulk_item, mbind, Proc_bind, resolve_owner.
    rewrite Hlookup, Hcause. reflexivity.
  - intros alertItem c o e c2 Hlookup Hcause.
    unfold resolve_owner. rewrite Hlookup, Hcause. reflexivity.
  - intros alertList c o e c2 Hf Hv Hlookup Hcause.
    destruct (CreateAlertBulk_ok now machineId alertList c Hf Hv)
      as (rows & c' & Hcall & Hlen & Htable & Hall & _).
    exists rows, c'. repeat split; try assumption.
    assert (Hnone : machine_of c machineId = None).
    { rewrite QueryMachineByID_ok in Hlookup by assumption. unfold machine_of.
      destruct (filter _ (Machine_table c)); [reflexivity | discriminate]. }
    rewrite Hnone in Hall. clear -Hall.
    induction Hall as [| a row l rows Hrow _ IH]; constructor; [| exact IH].
    unfold ingested in Hrow. tauto.
Qed.

(** ** Children of an ingested alert *)

(** C2: a submission without events, metas or decisions does not reset the
    variables [events], [metas] and [decisions], which keep the rows made for
    an earlier submission of the call and are handed to its builder.  On an
    alert with one event, one meta and one decision followed by an alert with
    none: the builder of the second alert names the children of the first,
    and once both are persisted the second alert owns the three children and
    the first owns none. *)
Theorem CreateAlertBulk_reuses_children :
  (forall now alertItem st c,
     ma_Events alertItem = [] -> ma_Meta alertItem = [] -> ma_Decisions alertItem = [] ->
     persist_events alertItem st c = (inr (bv_events st), c) /\
     persist_metas alertItem st c = (inr (bv_metas st), c) /\
     persist_decisions now alertItem st c = (inr (bv_decisions st), c)) /\
  let now := 1704067200 * Second in
  let '(st, c1) :=
    CreateAlertBulk_loop (H := sample) now "machine-1" [with_children; without_children]
      BulkVars_init empty_Client in
  let '(r, c2) :=
    CreateAlertBulk (H := sample) now "machine-1" [with_children; without_children]
      empty_Client in
  ((λ b, (ac_Events b, ac_Metas b, ac_Decisions b)) <$>
     match st with inr st' => bv_bulk st' | inl _ => [] end) =
    [([1], [1], [1]); ([1], [1], [1])] /\
  r = (["1"; "2"], None) /\
  alert_Scenario <$> Alert_table c2 = ["ssh-bruteforce"; "http-probing"] /\
  (length (events_of c2 1), length (metas_of c2 1), length (decisions_of c2 1)) =
    (0, 0, 0)%nat /\
  (event_ID <$> events_of c2 2, meta_ID <$> metas_of c2 2,
   decision_ID <$> decisions_of c2 2) = ([1], [1], [1]).
Proof.
  split.
  - intros now alertItem st c He Hm Hd.
    unfold persist_events, persist_metas, persist_decisions.
    rewrite He, Hm, Hd. repeat split.
  - vm_compute. repeat split.
Qed.

(** ** Alert identifiers stay distinct *)

Lemma elem_of_consecutive (first : Z) (n : nat) (x : Z) :
  x ∈ consecutive first n -> first <= x < first + Z.of_nat n.
Proof.
  revert first. induction n as [| n IH]; intros first; cbn [consecutive].
  - intros Hin. inversion Hin.
  - intros Hin. apply elem_of_cons in Hin as [-> | Hin]; [lia |].
    apply IH in Hin. lia.
Qed.

Lemma NoDup_consecutive (first : Z) (n : nat) : NoDup (consecutive first n).
Proof.
  revert first. induction n as [| n IH]; intros first; cbn [consecutive].
  - constructor.
  - constructor; [| apply IH].
    intros Hin. apply elem_of_consecutive in Hin. lia.
Qed.

(** Ingestion keeps the alert identifiers distinct. *)
Lemma CreateAlertBulk_well_keyed (now : Time) (machineId : string)
    (alertList : list models_Alert) (c : Client) :
  faults c = [] -> forallb valid_submission alertList = true -> well_keyed c ->
  well_keyed (snd (CreateAlertBulk now machineId alertList c)).
Proof.
  intros Hf Hv [Hnd Hle].
  destruct (CreateAlertBulk_ok now machineId alertList c Hf Hv)
    as (rows & c' & -> & _ & Ht & _ & Hids & Hseq).
  cbn [snd]. unfold well_keyed. rewrite Ht, Hseq, fmap_app, Hids. split.
  - apply NoDup_app. split; [exact Hnd |]. split; [| apply NoDup_consecutive].
    intros id Hin Hnew. apply elem_of_consecutive in Hnew.
    apply list_elem_of_fmap in Hin as (a & -> & Ha).
    pose proof (proj1 (Forall_forall _ _) Hle a Ha) as Hbound. cbn in Hbound. lia.
  - apply Forall_app. split.
    + apply Forall_forall. intros a Ha.
      pose proof (proj1 (Forall_forall _ _) Hle a Ha) as Hbound. cbn in Hbound. lia.
    + apply Forall_forall. intros a Ha.
      assert (Hin : alert_ID a ∈ consecutive (Alert_seq c + 1) (length alertList))
        by (rewrite <- Hids; apply list_elem_of_fmap; eauto).
      apply elem_of_consecutive in Hin. lia.
Qed.

Lemma without_graphs_Alert_seq (ids : list Z) (c : Client) :
  Alert_seq (without_graphs ids c) = Alert_seq c.
Proof.
  revert c. induction ids as [| id ids IH]; intros c; [reflexivity |].
  rewrite without_graphs_cons, IH. reflexivity.
Qed.

(** So does the cascading delete. *)
Lemma without_graphs_well_keyed (ids : list Z) (c : Client) :
  well_keyed c -> well_keyed (without_graphs ids c).
Proof.
  intros [Hnd Hle]. unfold well_keyed.
  rewrite without_graphs_Alert_table, without_graphs_Alert_seq. split.
  - revert Hnd. generalize (Alert_table c). intros l Hnd.
    induction l as [| a l IH]; [constructor |].
    cbn [fmap list_fmap] in Hnd. apply NoDup_cons in Hnd as [Ha Hnd].
    rewrite filter_cons. destruct (decide (alert_ID a ∉ ids)); [| apply IH, Hnd].
    cbn [fmap list_fmap]. apply NoDup_cons. split; [| apply IH, Hnd].
    intros Hin. apply Ha. apply list_elem_of_fmap in Hin as (b & Hb & Hin).
    apply list_elem_of_filter in Hin as [_ Hin].
    apply list_elem_of_fmap. eauto.
  - apply Forall_forall. intros a Ha. apply list_elem_of_filter in Ha as [_ Ha].
    apply (proj1 (Forall_forall _ _) Hle a Ha).
Qed.

(** * Further properties *)

(** ** Queries read, deletes remove *)

Lemma same_tables_refl (c : Client) : same_tables c c.
Proof. unfold same_tables. repeat split. Qed.

Lemma same_tables_trans (c1 c2 c3 : Client) :
  same_tables c1 c2 -> same_tables c2 c3 -> same_tables c1 c3.
Proof. unfold same_tables. intuition congruence. Qed.

Lemma engine_call_same_tables (c : Client) : same_tables c (snd (engine_call c)).
Proof.
  unfold engine_call. destruct (faults c) as [| f fs]; cbn [snd];
    unfold same_tables; repeat split.
Qed.

Lemma Alert_All_same_tables (q : AlertQuery) (c : Client) :
  same_tables c (snd (Alert_All q c)) /\
  (snd (fst (Alert_All q c)) <> None -> fst (fst (Alert_All q c)) = []).
Proof.
  unfold Alert_All, mbind, State_bind.
  pose proof (engine_call_same_tables c) as Hsame.
  destruct (engine_call c) as [[|] c1]; cbn [fst snd] in *; split; try assumption.
  - reflexivity.
  - intros Hne. contradiction.
Qed.

Lemma Alert_Count_same_tables (q : AlertQuery) (c : Client) :
  same_tables c (snd (Alert_Count q c)).
Proof.
  unfold Alert_Count, mbind, State_bind.
  pose proof (engine_call_same_tables c) as Hsame.
  destruct (engine_call c) as [[|] c1]; cbn [fst snd] in *; assumption.
Qed.

(** A query leaves the rows as they are, and returns no alert with an
    error. *)
Lemma QueryAlertWithFilter_reads_only_tables (now : Time) (f : FilterMap) (c : Client) :
  same_tables c (snd (QueryAlertWithFilter now f c)) /\
  (forall result e c',
     QueryAlertWithFilter now f c = (Returns (result, Some e), c') -> result = []).
Proof.
  unfold QueryAlertWithFilter.
  destruct (BuildAlertRequestFromFilter now Alert_Query f) as [[[q |] [e |]] |];
    cbn [snd]; try (split; [apply same_tables_refl |]; intros result e' c' [= <- <- <-];
                    reflexivity);
    try (split; [apply same_tables_refl |]; intros result e' c'; discriminate).
  destruct (Alert_All_same_tables (OrderAscCreatedAt (WithEdges q)) c) as [Hsame _].
  destruct (Alert_All (OrderAscCreatedAt (WithEdges q)) c) as [[result [e |]] c1];
    cbn [snd] in *; (split; [exact Hsame |]).
  - intros result' e' c' [= <- <- <-]. reflexivity.
  - intros result' e' c'. discriminate.
Qed.

(** X1: a query never changes a stored row, whatever the filter and whether
    or not the engine fails; when it returns an error it returns no alert,
    and that error is the error of the filter compiler or wraps
    [QueryFail]. *)
Theorem QueryAlertWithFilter_reads_only (now : Time) (f : FilterMap) (c : Client) :
  same_tables c (snd (QueryAlertWithFilter now f c)) /\
  (forall result e c',
     QueryAlertWithFilter now f c = (Returns (result, Some e), c') ->
     result = [] /\
     ((exists o, BuildAlertRequestFromFilter now Alert_Query f = Returns (o, Some e)) \/
      caused_by QueryFail e = true)).
Proof.
  unfold QueryAlertWithFilter.
  destruct (BuildAlertRequestFromFilter now Alert_Query f) as [[[q |] [e |]] |];
    cbn [snd]; try (split; [apply same_tables_refl |]; intros result e' c' [= <- <- <-];
                    split; [reflexivity | left; eexists; reflexivity]);
    try (split; [apply same_tables_refl |]; intros result e' c'; discriminate).
  destruct (Alert_All_same_tables (OrderAscCreatedAt (WithEdges q)) c) as [Hsame _].
  destruct (Alert_All (OrderAscCreatedAt (WithEdges q)) c) as [[result [e |]] c1];
    cbn [snd] in *; (split; [exact Hsame |]).
  - intros result' e' c' [= <- <- <-]. split; [reflexivity | right; reflexivity].
  - intros result' e' c'. discriminate.
Qed.

(** X2: when the filter compiles and the engine does not fail, the query
    returns exactly the stored alerts that the compiled predicates select,
    each once per row, in ascending order of [createdAt], each with its
    decisions, events, metas and owner loaded. *)
Theorem QueryAlertWithFilter_sorted_views (now : Time) (f : FilterMap) (c : Client)
    (q : AlertQuery) :
  faults c = [] ->
  BuildAlertRequestFromFilter now Alert_Query f = Returns (Some q, None) ->
  exists result,
    QueryAlertWithFilter now f c = (Returns (result, None), c) /\
    (view_alert <$> result ≡ₚ filter (λ a, selected c q a) (Alert_table c)) /\
    StronglySorted created_le (view_alert <$> result) /\
    Forall (λ v, Edges_Decisions v = decisions_of c (alert_ID (view_alert v)) /\
                 Edges_Events v = events_of c (alert_ID (view_alert v)) /\
                 Edges_Metas v = metas_of c (alert_ID (view_alert v)) /\
                 Edges_Owner v = owner_of c (view_alert v)) result.
Proof.
  intros Hf Hb. eexists. split; [apply (QueryAlertWithFilter_ok now f c q Hf Hb) |].
  rewrite view_alert_load_edges. unfold query_rows.
  cbn [q_orderCreatedAt OrderAscCreatedAt].
  split; [apply merge_sort_Permutation |].
  split; [apply StronglySorted_merge_sort; apply _ |].
  apply Forall_forall. intros v Hv.
  apply list_elem_of_In, in_map_iff in Hv as (a & <- & _).
  repeat split.
Qed.

(** ** The cascade, step by step *)

Lemma calls_before_failure_le (n : nat) (fs : list bool) :
  (calls_before_failure n fs <= n)%nat.
Proof.
  revert fs. induction n as [| n IH]; intros fs; cbn; [lia |].
  destruct fs as [| [|] fs]; [lia | lia | specialize (IH fs); lia].
Qed.

(** The outcome of the cascade on any script of failures. *)
Lemma DeleteAlertGraph_outcome (alertItem : AlertView) (c : Client) :
  let id := alert_ID (view_alert alertItem) in
  let stage := calls_before_failure 4 (faults c) in
  same_tables (partly_deleted stage id c) (snd (DeleteAlertGraph alertItem c)) /\
  (fst (DeleteAlertGraph alertItem c) = None <-> stage = 4%nat) /\
  (forall e, fst (DeleteAlertGraph alertItem c) = Some e -> caused_by DeleteFail e = true).
Proof.
  destruct c as [machines alerts decisions events metas aseq dseq eseq mseq fs].
  unfold DeleteAlertGraph, Event_Delete_owned, Meta_Delete_owned, Decision_Delete_owned,
    Alert_DeleteOne, mbind, State_bind, mret, State_ret, engine_call.
  cbn [faults].
  destruct fs as [| [|] [| [|] [| [|] [| [|] fs]]]];
    cbn [faults set_faults set_Events set_Metas set_Decisions set_Alerts
         Machine_table Alert_table Decision_table Event_table Meta_table
         Alert_seq Decision_seq Event_seq Meta_seq fst snd
         calls_before_failure partly_deleted Nat.leb];
    (split; [unfold same_tables; repeat split |]);
    (split; [split; (discriminate || reflexivity || lia) |]);
    intros e [= <-]; reflexivity.
Qed.

(** X3: the cascade on an alert deletes its events, then its metas, then its
    decisions, then the alert row, and stops at the first engine call that
    fails: it returns nil exactly when the four steps were done, otherwise an
    error that wraps [DeleteFail], the steps before the failure staying done
    and the alert row still stored. *)
Theorem DeleteAlertGraph_steps (alertItem : AlertView) (c : Client) :
  let id := alert_ID (view_alert alertItem) in
  let stage := calls_before_failure 4 (faults c) in
  same_tables (partly_deleted stage id c) (snd (DeleteAlertGraph alertItem c)) /\
  (fst (DeleteAlertGraph alertItem c) = None <-> stage = 4%nat) /\
  (forall e, fst (DeleteAlertGraph alertItem c) = Some e ->
     caused_by DeleteFail e = true /\
     Alert_table (snd (DeleteAlertGraph alertItem c)) = Alert_table c) /\
  (fst (DeleteAlertGraph alertItem c) = None ->
     let c' := snd (DeleteAlertGraph alertItem c) in
     Alert_table c' = filter (λ a, alert_ID a ≠ id) (Alert_table c) /\
     events_of c' id = [] /\ metas_of c' id = [] /\ decisions_of c' id = []).
Proof.
  intros id stage.
  pose proof (DeleteAlertGraph_outcome alertItem c) as (Hsame & Hnone & Hcause).
  fold id stage in Hsame, Hnone.
  pose proof (calls_before_failure_le 4 (faults c)) as Hle. fold stage in Hle.
  destruct (DeleteAlertGraph alertItem c) as [err c']. cbn [fst snd] in *.
  split; [exact Hsame |]. split; [exact Hnone |].
  destruct Hsame as (_ & Ha & Hd & He & Hm & _). split.
  - intros e Herr. split; [apply Hcause, Herr |].
    assert (Hstage : stage <> 4%nat) by (intros H4; apply Hnone in H4; congruence).
    rewrite Ha. clear -Hstage Hle.
    destruct stage as [| [| [| [| [| n]]]]]; try reflexivity; try congruence; lia.
  - intros Herr. apply Hnone in Herr.
    unfold events_of, metas_of, decisions_of.
    rewrite Ha, Hd, He, Hm, Herr. cbn [partly_deleted Nat.leb
      set_Events set_Metas set_Decisions set_Alerts
      Alert_table Decision_table Event_table Meta_table].
    split; [reflexivity |].
    repeat split; apply filter_none; intros x Hx Hown;
      apply list_elem_of_filter in Hx as [Hne _]; contradiction.
Qed.

(** ** Deleting by filter *)

Lemma DeleteAlertWithFilter_loop_ok (alertsToDelete : list AlertView) (c : Client) :
  faults c = [] ->
  DeleteAlertWithFilter_loop alertsToDelete c =
  (None, without_graphs ((λ v, alert_ID (view_alert v)) <$> alertsToDelete) c).
Proof.
  revert c. induction alertsToDelete as [| v rest IH]; intros c Hf; [reflexivity |].
  cbn [DeleteAlertWithFilter_loop]. unfold mbind, State_bind.
  rewrite DeleteAlertGraph_ok by assumption.
  rewrite IH by (rewrite without_graph_faults; assumption). reflexivity.
Qed.

Lemma without_graphs_Machine_table (ids : list Z) (c : Client) :
  Machine_table (without_graphs ids c) = Machine_table c.
Proof.
  revert c. induction ids as [| id ids IH]; intros c; [reflexivity |].
  rewrite without_graphs_cons, IH. reflexivity.
Qed.

(** What is selected depends on the store through the decisions of the
    alert only. *)
Lemma alert_holds_decisions (c c' : Client) (p : alert_Predicate) (a : ent_Alert) :
  decisions_of c' (alert_ID a) = decisions_of c (alert_ID a) ->
  alert_holds c' p a = alert_holds c p a.
Proof.
  intros Hd. induction p as [| | | | | | | | p IH | p1 IH1 p2 IH2];
    cbn [alert_holds]; rewrite ?Hd, ?IH, ?IH1, ?IH2; reflexivity.
Qed.

Lemma selected_decisions (c c' : Client) (q : AlertQuery) (a : ent_Alert) :
  decisions_of c' (alert_ID a) = decisions_of c (alert_ID a) ->
  selected c' q a = selected c q a.
Proof.
  intros Hd. unfold selected. induction (q_predicates q) as [| p l IH]; [reflexivity |].
  cbn [forallb]. rewrite IH, (alert_holds_decisions c c' p a Hd). reflexivity.
Qed.

(** The store after a delete by filter that met no engine failure. *)
Lemma DeleteAlertWithFilter_ok (now : Time) (f : FilterMap) (c : Client) (q : AlertQuery) :
  faults c = [] ->
  BuildAlertRequestFromFilter now Alert_Query f = Returns (Some q, None) ->
  DeleteAlertWithFilter now f c =
  (Returns (map (load_edges c (OrderAscCreatedAt (WithEdges q)))
              (query_rows c (OrderAscCreatedAt (WithEdges q))), None),
   without_graphs (alert_ID <$> query_rows c (OrderAscCreatedAt (WithEdges q))) c).
Proof.
  intros Hf Hb. unfold DeleteAlertWithFilter.
  rewrite (QueryAlertWithFilter_ok now f c q Hf Hb).
  rewrite DeleteAlertWithFilter_loop_ok by assumption.
  rewrite fmap_ID_load_edges. reflexivity.
Qed.

Lemma elem_of_ID_query_rows (c : Client) (q : AlertQuery) (id : Z) :
  id ∈ alert_ID <$> query_rows c (OrderAscCreatedAt (WithEdges q)) <->
  id ∈ alert_ID <$> filter (λ a, selected c q a) (Alert_table c).
Proof.
  rewrite !list_elem_of_fmap. split; intros (a & -> & Ha); exists a; (split; [reflexivity |]).
  - apply elem_of_query_rows in Ha as [Hin Hs]. apply list_elem_of_filter.
    split; [rewrite Hs; exact I | exact Hin].
  - apply list_elem_of_filter in Ha as [Hs Hin]. apply elem_of_query_rows.
    split; [exact Hin | apply Is_true_eq_true; exact Hs].
Qed.

(** X4: when the filter compiles and the engine does not fail, the delete by
    filter returns what the query by the same filter returns and removes
    exactly the selected alerts, with every event, meta and decision they
    own; the machines and the rows of the alerts that are not selected
    stay. *)
Theorem DeleteAlertWithFilter_deletes_selected (now : Time) (f : FilterMap) (c : Client)
    (q : AlertQuery) :
  faults c = [] ->
  BuildAlertRequestFromFilter now Alert_Query f = Returns (Some q, None) ->
  let ids := alert_ID <$> filter (λ a, selected c q a) (Alert_table c) in
  exists deleted c',
    DeleteAlertWithFilter now f c = (Returns (deleted, None), c') /\
    QueryAlertWithFilter now f c = (Returns (deleted, None), c) /\
    Alert_table c' = filter (λ a, alert_ID a ∉ ids) (Alert_table c) /\
    Event_table c' = filter (λ e, event_owner e ∉ Some <$> ids) (Event_table c) /\
    Meta_table c' = filter (λ m, meta_owner m ∉ Some <$> ids) (Meta_table c) /\
    Decision_table c' = filter (λ d, decision_owner d ∉ Some <$> ids) (Decision_table c) /\
    Machine_table c' = Machine_table c /\
    (forall a, a ∈ Alert_table c -> selected c q a = true -> a ∉ Alert_table c').
Proof.
  intros Hf Hb ids. eexists _, _.
  split; [apply (DeleteAlertWithFilter_ok now f c q Hf Hb) |].
  split; [apply (QueryAlertWithFilter_ok now f c q Hf Hb) |].
  assert (Hids : forall id,
            id ∈ alert_ID <$> query_rows c (OrderAscCreatedAt (WithEdges q)) <-> id ∈ ids)
    by (intros id; apply elem_of_ID_query_rows).
  assert (Hsome : forall o : option Z,
            o ∈ Some <$> (alert_ID <$> query_rows c (OrderAscCreatedAt (WithEdges q))) <->
            o ∈ Some <$> ids).
  { intros o. rewrite !list_elem_of_fmap.
    split; intros (id & -> & Hid); exists id; (split; [reflexivity |]); apply Hids, Hid. }
  rewrite without_graphs_Alert_table, without_graphs_Event_table, without_graphs_Meta_table,
    without_graphs_Decision_table, without_graphs_Machine_table.
  split; [apply list_filter_iff; intros a; rewrite Hids; tauto |].
  split; [apply list_filter_iff; intros e; rewrite Hsome; tauto |].
  split; [apply list_filter_iff; intros m; rewrite Hsome; tauto |].
  split; [apply list_filter_iff; intros d; rewrite Hsome; tauto |].
  split; [reflexivity |].
  intros a Hin Hs Hin'. apply list_elem_of_filter in Hin' as [Hnot _].
  apply Hnot, Hids. unfold ids. apply list_elem_of_fmap. exists a. split; [reflexivity |].
  apply list_elem_of_filter. split; [rewrite Hs; exact I | exact Hin].
Qed.

(** X5: after a delete by filter that met no engine failure, the same filter
    selects nothing: the query by it returns no alert, and a second delete
    by it returns no alert and changes nothing. *)
Theorem DeleteAlertWithFilter_then_nothing_selected (now : Time) (f : FilterMap) (c : Client)
    (q : AlertQuery) :
  faults c = [] ->
  BuildAlertRequestFromFilter now Alert_Query f = Returns (Some q, None) ->
  let c' := snd (DeleteAlertWithFilter now f c) in
  QueryAlertWithFilter now f c' = (Returns ([], None), c') /\
  DeleteAlertWithFilter now f c' = (Returns ([], None), c').
Proof.
  intros Hf Hb c'.
  assert (Hc' : c' = without_graphs
                       (alert_ID <$> query_rows c (OrderAscCreatedAt (WithEdges q))) c).
  { unfold c'. rewrite (DeleteAlertWithFilter_ok now f c q Hf Hb). reflexivity. }
  assert (Hf' : faults c' = []) by (rewrite Hc', without_graphs_faults; exact Hf).
  assert (Hnone : query_rows c' (OrderAscCreatedAt (WithEdges q)) = []).
  { destruct (query_rows c' (OrderAscCreatedAt (WithEdges q))) as [| a l] eqn:Hq;
      [reflexivity | exfalso].
    assert (Ha : a ∈ query_rows c' (OrderAscCreatedAt (WithEdges q)))
      by (rewrite Hq; left).
    apply elem_of_query_rows in Ha as [Hin Hs].
    rewrite Hc', without_graphs_Alert_table in Hin.
    apply list_elem_of_filter in Hin as [Hnot Hin]. apply Hnot.
    apply list_elem_of_fmap. exists a. split; [reflexivity |].
    apply elem_of_query_rows. split; [exact Hin |].
    rewrite <- Hs. symmetry. apply selected_decisions.
    rewrite Hc'. unfold decisions_of. rewrite without_graphs_Decision_table.
    apply owned_once_kept. exact Hnot. }
  split.
  - rewrite (QueryAlertWithFilter_ok now f c' q Hf' Hb), Hnone. reflexivity.
  - rewrite (DeleteAlertWithFilter_ok now f c' q Hf' Hb), Hnone. reflexivity.
Qed.

(** ** Deleting under engine failures *)

Lemma only_removes_refl (c : Client) : only_removes c c.
Proof. unfold only_removes. repeat split; reflexivity. Qed.

Lemma only_removes_trans (c1 c2 c3 : Client) :
  only_removes c1 c2 -> only_removes c2 c3 -> only_removes c1 c3.
Proof.
  unfold only_removes.
  intros (Hm & Ha & Hd & He & Hme & Hs1 & Hs2 & Hs3 & Hs4)
         (Hm' & Ha' & Hd' & He' & Hme' & Hs1' & Hs2' & Hs3' & Hs4').
  repeat split; try congruence; etransitivity; eassumption.
Qed.

Lemma same_tables_only_removes (c c' : Client) : same_tables c c' -> only_removes c c'.
Proof.
  unfold same_tables, only_removes.
  intros (Hm & Ha & Hd & He & Hme & Hs1 & Hs2 & Hs3 & Hs4).
  rewrite Hm, Ha, Hd, He, Hme, Hs1, Hs2, Hs3, Hs4. repeat split; reflexivity.
Qed.

Lemma partly_deleted_only_removes (stage : nat) (id : Z) (c : Client) :
  only_removes c (partly_deleted stage id c).
Proof.
  unfold partly_deleted, only_removes.
  destruct (1 <=? stage)%nat, (2 <=? stage)%nat, (3 <=? stage)%nat, (4 <=? stage)%nat;
    cbn [set_Events set_Metas set_Decisions set_Alerts
         Machine_table Alert_table Decision_table Event_table Meta_table
         Alert_seq Decision_seq Event_seq Meta_seq];
    repeat split; try reflexivity; apply sublist_filter.
Qed.

Lemma DeleteAlertGraph_only_removes (alertItem : AlertView) (c : Client) :
  only_removes c (snd (DeleteAlertGraph alertItem c)).
Proof.
  destruct (DeleteAlertGraph_outcome alertItem c) as (Hsame & _).
  eapply only_removes_trans; [apply partly_deleted_only_removes |].
  apply same_tables_only_removes, Hsame.
Qed.

Lemma DeleteAlertWithFilter_loop_only_removes (alertsToDelete : list AlertView) (c : Client) :
  only_removes c (snd (DeleteAlertWithFilter_loop alertsToDelete c)) /\
  (forall e, fst (DeleteAlertWithFilter_loop alertsToDelete c) = Some e ->
             caused_by DeleteFail e = true).
Proof.
  revert c. induction alertsToDelete as [| v rest IH]; intros c.
  - split; [apply only_removes_refl | discriminate].
  - cbn [DeleteAlertWithFilter_loop]. unfold mbind, State_bind.
    pose proof (DeleteAlertGraph_only_removes v c) as Hone.
    destruct (DeleteAlertGraph v c) as [[e |] c1]; cbn [fst snd] in *.
    + split; [exact Hone |]. intros e' [= <-]. reflexivity.
    + destruct (IH c1) as [Hrest Herr]. split; [| exact Herr].
      eapply only_removes_trans; eassumption.
Qed.

(** X6: whatever the filter and whatever the engine calls that fail, a delete
    by filter creates and changes no row: every table afterwards is what is
    left of the table before.  When it returns an error the list returned is
    empty and the error wraps [DeleteFail]; an error of the query, of the
    compiler or of the engine, is not returned: the delete then returns an
    empty list and a nil error. *)
Theorem DeleteAlertWithFilter_only_removes (now : Time) (f : FilterMap) (c : Client) :
  only_removes c (snd (DeleteAlertWithFilter now f c)) /\
  (forall result e c',
     DeleteAlertWithFilter now f c = (Returns (result, Some e), c') ->
     result = [] /\ caused_by DeleteFail e = true) /\
  (forall result e c1,
     QueryAlertWithFilter now f c = (Returns (result, Some e), c1) ->
     DeleteAlertWithFilter now f c = (Returns ([], None), c1) /\ same_tables c c1).
Proof.
  pose proof (QueryAlertWithFilter_reads_only_tables now f c) as [Hread Hempty].
  unfold DeleteAlertWithFilter.
  destruct (QueryAlertWithFilter now f c) as [[[found [qerr |]] |] c1]; cbn [snd] in *.
  - pose proof (Hempty _ _ _ eq_refl) as ->.
    cbn [DeleteAlertWithFilter_loop mret State_ret snd].
    split; [apply same_tables_only_removes, Hread |].
    split; [intros result e' c'; discriminate |].
    intros result e' c1' [= <- <- <-]. split; [reflexivity | exact Hread].
  - destruct (DeleteAlertWithFilter_loop_only_removes found c1) as [Hrem Herr].
    destruct (DeleteAlertWithFilter_loop found c1) as [[e |] c2]; cbn [fst snd] in *.
    + split; [eapply only_removes_trans;
                [apply same_tables_only_removes, Hread | exact Hrem] |].
      split.
      * intros result e' c' [= <- <- <-]. split; [reflexivity | apply Herr; reflexivity].
      * intros result e' c1'; discriminate.
    + split; [eapply only_removes_trans;
                [apply same_tables_only_removes, Hread | exact Hrem] |].
      split; intros result e' c'; discriminate.
  - split; [apply same_tables_only_removes, Hread |].
    split; intros result e' c'; discriminate.
Qed.

(** ** The flush under engine failures *)

Lemma engine_call_cases (c : Client) : exists b fs, engine_call c = (b, set_faults fs c).
Proof.
  destruct c as [machines alerts decisions events metas aseq dseq eseq mseq fs].
  unfold engine_call. cbn [faults]. destruct fs as [| b fs].
  - exists false, []. reflexivity.
  - exists b, fs. reflexivity.
Qed.

Lemma query_rows_set_faults (fs : list bool) (c : Client) (q : AlertQuery) :
  query_rows (set_faults fs c) q = query_rows c q.
Proof.
  unfold query_rows. cbn [set_faults Alert_table].
  assert (Heq : filter (λ a, selected (set_faults fs c) q a) (Alert_table c) =
                filter (λ a, selected c q a) (Alert_table c)).
  { apply list_filter_iff. intros a.
    rewrite (selected_decisions c (set_faults fs c) q a) by reflexivity. tauto. }
  rewrite Heq. reflexivity.
Qed.

Lemma Alert_Count_cases (q : AlertQuery) (c : Client) :
  exists fs,
    Alert_Count q c = ((0, Some engine_failure), set_faults fs c) \/
    Alert_Count q c = ((Z.of_nat (length (query_rows c q)), None), set_faults fs c).
Proof.
  unfold Alert_Count, mbind, State_bind.
  destruct (engine_call_cases c) as (b & fs & ->). exists fs.
  destruct b; [left; reflexivity | right].
  rewrite <- (query_rows_set_faults fs c q). reflexivity.
Qed.

Lemma Alert_All_cases (q : AlertQuery) (c : Client) :
  exists fs,
    Alert_All q c = (([], Some engine_failure), set_faults fs c) \/
    Alert_All q c = ((map (load_edges c q) (query_rows c q), None), set_faults fs c).
Proof.
  unfold Alert_All, mbind, State_bind.
  destruct (engine_call_cases c) as (b & fs & ->). exists fs.
  destruct b; [left; reflexivity | right].
  rewrite <- (query_rows_set_faults fs c q). reflexivity.
Qed.

Lemma set_faults_same_tables (fs : list bool) (c : Client) : same_tables c (set_faults fs c).
Proof. unfold same_tables. repeat split. Qed.

(** The alert row goes when the cascade returns nil, and only then. *)
Lemma DeleteAlertGraph_Alert_table (alertItem : AlertView) (c : Client) :
  Alert_table (snd (DeleteAlertGraph alertItem c)) =
  match fst (DeleteAlertGraph alertItem c) with
  | None => filter (λ a, alert_ID a ≠ alert_ID (view_alert alertItem)) (Alert_table c)
  | Some _ => Alert_table c
  end.
Proof.
  pose proof (DeleteAlertGraph_outcome alertItem c) as (Hsame & Hnone & _).
  pose proof (calls_before_failure_le 4 (faults c)) as Hle.
  destruct Hsame as (_ & Ha & _). rewrite Ha. clear Ha.
  destruct (fst (DeleteAlertGraph alertItem c)) as [e |].
  - assert (Hstage : calls_before_failure 4 (faults c) <> 4%nat)
      by (intros H4; apply Hnone in H4; discriminate).
    destruct (calls_before_failure 4 (faults c)) as [| [| [| [| [| n]]]]];
      try reflexivity; try congruence; lia.
  - rewrite (proj1 Hnone eq_refl). reflexivity.
Qed.

(** On any script of failures the loop of the flush removes the rows of the
    first [k] alerts it is given, for some [k] within the number asked. *)
Lemma FlushAlerts_loop_any (nbToDelete itemNb : Z) (alerts : list AlertView) (c : Client) :
  let r := FlushAlerts_loop nbToDelete itemNb alerts c in
  only_removes c (snd r) /\
  (forall e, fst r = Some e -> caused_by DeleteFail e = true) /\
  exists k, (k <= Z.to_nat (nbToDelete - itemNb))%nat /\
    Alert_table (snd r) =
    filter (λ a, alert_ID a ∉ (λ v, alert_ID (view_alert v)) <$> take k alerts)
      (Alert_table c).
Proof.
  revert itemNb c. induction alerts as [| v rest IH]; intros itemNb c r; subst r.
  - cbn [FlushAlerts_loop mret State_ret fst snd].
    split; [apply only_removes_refl |]. split; [discriminate |].
    exists 0%nat. split; [lia |]. symmetry. apply filter_all. intros a _.
    apply not_elem_of_nil.
  - cbn [FlushAlerts_loop]. destruct (Z.ltb_spec itemNb nbToDelete) as [Hlt | Hge].
    + unfold mbind, State_bind.
      pose proof (DeleteAlertGraph_only_removes v c) as Hone.
      pose proof (DeleteAlertGraph_outcome v c) as (_ & _ & Hcause).
      pose proof (DeleteAlertGraph_Alert_table v c) as Htab.
      destruct (DeleteAlertGraph v c) as [[e |] c1]; cbn [mret State_ret fst snd] in *.
      * split; [exact Hone |]. split.
        -- intros e' [= <-]. apply (Hcause e eq_refl).
        -- exists 0%nat. split; [lia |]. rewrite Htab. symmetry. apply filter_all.
           intros a _. apply not_elem_of_nil.
      * destruct (IH (itemNb + 1) c1) as (Hrest & Herr & k & Hk & Htable).
        split; [eapply only_removes_trans; eassumption |]. split; [exact Herr |].
        exists (S k). split; [lia |]. rewrite Htable, Htab.
        rewrite list_filter_filter. apply list_filter_iff. intros a.
        cbn [take fmap list_fmap]. rewrite not_elem_of_cons. tauto.
    + destruct (IH (itemNb + 1) c) as (Hrest & Herr & k & Hk & Htable).
      split; [exact Hrest |]. split; [exact Herr |].
      exists 0%nat. split; [lia |]. rewrite Htable.
      replace k with 0%nat by lia. reflexivity.
Qed.

Lemma NoDup_fmap_filter {A : Type} (key : A -> Z) (P : A -> Prop)
    `{!forall x, Decision (P x)} (l : list A) :
  NoDup (key <$> l) -> NoDup (key <$> filter P l).
Proof.
  induction l as [| x l IH]; intros Hnd; [constructor |].
  rewrite fmap_cons in Hnd. apply NoDup_cons in Hnd as [Hx Hnd].
  destruct (decide (P x)) as [Hp | Hp].
  - rewrite filter_cons_True by exact Hp. rewrite fmap_cons. apply NoDup_cons.
    split; [| apply IH, Hnd].
    intros Hin. apply Hx. apply list_elem_of_fmap in Hin as (y & Hy & Hin).
    apply list_elem_of_filter in Hin as [_ Hin].
    apply list_elem_of_fmap. exists y. split; assumption.
  - rewrite filter_cons_False by exact Hp. apply IH, Hnd.
Qed.

Lemma length_filter_ne {A : Type} (key : A -> Z) (id : Z) (l : list A) :
  NoDup (key <$> l) -> (length l <= S (length (filter (λ a, key a ≠ id) l)))%nat.
Proof.
  induction l as [| x l IH]; intros Hnd; [cbn; lia |].
  rewrite fmap_cons in Hnd. apply NoDup_cons in Hnd as [Hx Hnd].
  destruct (decide (key x = id)) as [Heq | Hne].
  - rewrite filter_cons_False by (intros Hne; apply Hne, Heq).
    rewrite filter_all; [cbn; lia |].
    intros y Hy Hky. apply Hx. rewrite Heq, <- Hky.
    apply list_elem_of_fmap. exists y. split; [reflexivity | exact Hy].
  - rewrite filter_cons_True by exact Hne. cbn [length]. specialize (IH Hnd). lia.
Qed.

(** Rows with distinct keys: removing the rows of [ids] removes at most one
    row for each. *)
Lemma length_filter_not_in {A : Type} (key : A -> Z) (ids : list Z) (l : list A) :
  NoDup (key <$> l) ->
  (length l <= length (filter (λ a, key a ∉ ids) l) + length ids)%nat.
Proof.
  induction ids as [| id ids IH]; intros Hnd.
  - rewrite filter_all; [lia |]. intros a _. apply not_elem_of_nil.
  - specialize (IH Hnd).
    assert (Heq : filter (λ a, key a ∉ id :: ids) l =
                  filter (λ a, key a ≠ id) (filter (λ a, key a ∉ ids) l)).
    { rewrite list_filter_filter. apply list_filter_iff. intros a.
      rewrite not_elem_of_cons. tauto. }
    rewrite Heq.
    pose proof (length_filter_ne key id (filter (λ a, key a ∉ ids) l)
                  (NoDup_fmap_filter key _ l Hnd)) as Hone.
    cbn [length]. lia.
Qed.

(** The pass on the number of alerts, on any script of failures. *)
Lemma FlushAlerts_count_any (MaxItems totalDeleted : Z) (c : Client) :
  let r := FlushAlerts_count MaxItems totalDeleted c in
  only_removes c (snd r) /\
  (forall e, fst r = inl e -> caused_by DeleteFail e = true \/ Cause e = engine_failure) /\
  (MaxItems <= 0 -> same_tables c (snd r) /\ fst r = inr totalDeleted) /\
  (NoDup (alert_ID <$> Alert_table c) ->
   Z.min MaxItems (Z.of_nat (length (Alert_table c))) <=
   Z.of_nat (length (Alert_table (snd r)))).
Proof.
  intros r. subst r. unfold FlushAlerts_count.
  destruct (Z.ltb_spec 0 MaxItems) as [Hpos | Hnpos].
  2: { cbn [mret State_ret fst snd]. split; [apply only_removes_refl |].
       split; [discriminate |]. split; [intros _; split; [apply same_tables_refl | reflexivity] |].
       intros _. lia. }
  unfold mbind, State_bind.
  destruct (Alert_Count_cases Alert_Query c) as (fs & [-> | ->]).
  { cbn [mret State_ret fst snd]. split; [apply same_tables_only_removes, set_faults_same_tables |].
    split; [intros e [= <-]; right; reflexivity |]. split; [lia |]. intros _.
    cbn [set_faults Alert_table]. lia. }
  rewrite query_rows_all.
  destruct (Z.ltb_spec MaxItems (Z.of_nat (length (Alert_table c)))) as [Hlt | Hge].
  2: { cbn [mret State_ret fst snd]. split; [apply same_tables_only_removes, set_faults_same_tables |].
       split; [discriminate |]. split; [lia |]. intros _. cbn [set_faults Alert_table]. lia. }
  destruct (Alert_All_cases (OrderAscCreatedAt (WithEdges Alert_Query)) (set_faults fs c))
    as (fs' & [-> | ->]).
  { cbn [mret State_ret fst snd]. split; [apply same_tables_only_removes; unfold same_tables;
                                           repeat split |].
    split; [intros e [= <-]; right; reflexivity |]. split; [lia |]. intros _.
    cbn [set_faults Alert_table]. lia. }
  set (alerts := map _ _).
  set (c2 := set_faults fs' (set_faults fs c)).
  destruct (FlushAlerts_loop_any (Z.of_nat (length (Alert_table c)) - MaxItems) 0 alerts c2)
    as (Hrem & Herr & k & Hk & Htable).
  assert (Hc2 : only_removes c c2)
    by (apply same_tables_only_removes; unfold same_tables; repeat split).
  destruct (FlushAlerts_loop (Z.of_nat (length (Alert_table c)) - MaxItems) 0 alerts c2)
    as [[e |] c3]; cbn [mret State_ret fst snd] in *.
  - split; [eapply only_removes_trans; eassumption |].
    split; [intros e' [= <-]; left; apply Herr; reflexivity |]. split; [lia |].
    intros Hnd. rewrite Htable.
    pose proof (length_filter_not_in alert_ID
                  ((λ v, alert_ID (view_alert v)) <$> take k alerts)
                  (Alert_table c2) Hnd) as Hlen.
    rewrite length_fmap in Hlen.
    assert (Hk' : (length (take k alerts) <= k)%nat) by (rewrite length_take; lia).
    change (Alert_table c2) with (Alert_table c) in Hlen |- *. lia.
  - split; [eapply only_removes_trans; eassumption |].
    split; [discriminate |]. split; [lia |].
    intros Hnd. rewrite Htable.
    pose proof (length_filter_not_in alert_ID
                  ((λ v, alert_ID (view_alert v)) <$> take k alerts)
                  (Alert_table c2) Hnd) as Hlen.
    rewrite length_fmap in Hlen.
    assert (Hk' : (length (take k alerts) <= k)%nat) by (rewrite length_take; lia).
    change (Alert_table c2) with (Alert_table c) in Hlen |- *. lia.
Qed.

(** X7: whatever the engine calls that fail, a flush returns, creates and
    changes no row, and returns with an error only an error that wraps
    [DeleteFail] or the failure of the engine; with [MaxItems <= 0] it
    removes nothing; and when the identifiers of the alerts are distinct it
    never leaves fewer alerts than [MaxItems], or than there were. *)
Theorem FlushAlerts_only_removes (now : Time) (MaxAge : Duration) (MaxItems : Z) (c : Client) :
  exists total err c',
    FlushAlerts now MaxAge MaxItems c = (Returns (total, err), c') /\
    only_removes c c' /\
    (forall e, err = Some e ->
       total = None /\ (caused_by DeleteFail e = true \/ Cause e = engine_failure)) /\
    (MaxItems <= 0 -> same_tables c c' /\ total = Some 0 /\ err = None) /\
    (NoDup (alert_ID <$> Alert_table c) ->
     Z.min MaxItems (Z.of_nat (length (Alert_table c))) <= Z.of_nat (length (Alert_table c'))).
Proof.
  rewrite FlushAlerts_is_count_pass.
  destruct (FlushAlerts_count_any MaxItems 0 c) as (Hrem & Herr & Hzero & Hlen).
  destruct (FlushAlerts_count MaxItems 0 c) as [[e | total] c']; cbn [fst snd] in *.
  - exists None, (Some e), c'. split; [reflexivity |]. split; [exact Hrem |].
    split; [intros e' [= <-]; split; [reflexivity | apply Herr; reflexivity] |].
    split; [| exact Hlen]. intros Hle. destruct (Hzero Hle) as [_ Habs]. discriminate.
  - exists (Some total), None, c'. split; [reflexivity |]. split; [exact Hrem |].
    split; [discriminate |]. split; [| exact Hlen].
    intros Hle. destruct (Hzero Hle) as [Hsame [= ->]]. repeat split; apply Hsame.
Qed.

(** X8: on a store with distinct alert identifiers and no engine failure, a
    flush leaves nothing for the next one to do: a second flush with the same
    [MaxItems], at any time and with any [MaxAge], reports zero and changes
    nothing. *)
Theorem FlushAlerts_twice (now now' : Time) (MaxAge MaxAge' : Duration) (MaxItems : Z)
    (c : Client) :
  faults c = [] ->
  NoDup (alert_ID <$> Alert_table c) ->
  let c' := snd (FlushAlerts now MaxAge MaxItems c) in
  FlushAlerts now' MaxAge' MaxItems c' = (Returns (Some 0, None), c').
Proof.
  intros Hf Hnd c'.
  assert (Hc' : faults c' = [] /\
                (0 < MaxItems -> Z.of_nat (length (Alert_table c')) <= MaxItems)).
  { unfold c'. rewrite FlushAlerts_is_count_pass, FlushAlerts_count_ok by assumption.
    destruct (Z.ltb_spec 0 MaxItems) as [Hpos | Hnpos]; cbn [andb];
      [| cbn [snd]; split; [exact Hf | lia]].
    destruct (Z.ltb_spec MaxItems (Z.of_nat (length (Alert_table c)))) as [Hlt | Hge];
      cbn [snd]; [| split; [exact Hf | lia]].
    split; [rewrite without_graphs_faults; exact Hf |]. intros _.
    rewrite without_graphs_Alert_table.
    set (sorted := merge_sort created_le (Alert_table c)).
    assert (Hperm : sorted ≡ₚ Alert_table c) by apply merge_sort_Permutation.
    set (n := Z.to_nat (Z.of_nat (length (Alert_table c)) - MaxItems)).
    assert (Hleft : filter (λ a, alert_ID a ∉ alert_ID <$> take n sorted) (Alert_table c) ≡ₚ
                    drop n sorted).
    { rewrite <- Hperm. rewrite filter_not_in_take by (rewrite Hperm; exact Hnd).
      reflexivity. }
    rewrite Hleft, length_drop, Hperm. lia. }
  destruct Hc' as [Hf' Hlen].
  rewrite FlushAlerts_is_count_pass, FlushAlerts_count_ok by assumption.
  destruct (Z.ltb_spec 0 MaxItems) as [Hpos | Hnpos]; cbn [andb]; [| reflexivity].
  specialize (Hlen Hpos).
  destruct (Z.ltb_spec MaxItems (Z.of_nat (length (Alert_table c')))) as [Hlt | Hge];
    [lia | reflexivity].
Qed.

(** ** What each key of a filter adds *)

Lemma entry_adds_condition (now : Time) (q : AlertQuery) (f1 f2 : FilterMap)
    (k : string) (v : list string) (p : alert_Predicate)
    (cond : Client -> ent_Alert -> Prop) :
  k <> "simulated" ->
  (forall st, BuildAlertRequestFromFilter_param now k v st = Returns (inr (fv_Where p st))) ->
  (forall c a, alert_holds c p a = true <-> cond c a) ->
  adds_condition (BuildAlertRequestFromFilter now q (f1 ++ f2))
    (BuildAlertRequestFromFilter now q (f1 ++ (k, v) :: f2)) cond.
Proof.
  intros Hk Hparam Hcond.
  pose proof (entry_adds_conjunct now q f1 f2 k v p Hk Hparam) as Hadd.
  unfold adds_condition.
  destruct (BuildAlertRequestFromFilter now q (f1 ++ f2)) as [[[q0 |] [e0 |]] |];
    destruct (BuildAlertRequestFromFilter now q (f1 ++ (k, v) :: f2)) as [[[q1 |] [e1 |]] |];
    try exact Hadd.
  intros c a. rewrite Hadd, andb_true_iff, Hcond. reflexivity.
Qed.

(** An entry whose case leaves the state as it is compiles to nothing. *)
Lemma entry_is_noop (now : Time) (q : AlertQuery) (f1 f2 : FilterMap)
    (k : string) (v : list string) :
  k <> "simulated" ->
  (forall st, BuildAlertRequestFromFilter_param now k v st = Returns (inr st)) ->
  BuildAlertRequestFromFilter now q (f1 ++ (k, v) :: f2) =
  BuildAlertRequestFromFilter now q (f1 ++ f2).
Proof.
  intros Hk Hparam.
  destruct (BuildAlertRequestFromFilter_around now q f1 f2)
    as [[Hpre Hp] | (q0 & g1 & g2 & Hpre & Hb & _)].
  - rewrite Hp by assumption.
    unfold BuildAlertRequestFromFilter. rewrite Hpre. reflexivity.
  - rewrite Hb by assumption.
    unfold BuildAlertRequestFromFilter. rewrite Hpre.
    cbn [mbind Go_bind go_bind]. rewrite !BuildAlertRequestFromFilter_loop_app.
    destruct (BuildAlertRequestFromFilter_loop now g1 (FilterVars_init q0))
      as [[e | st1] |]; [reflexivity | | reflexivity].
    cbn [BuildAlertRequestFromFilter_loop mbind Go_bind go_bind mret Go_ret].
    rewrite Hparam. reflexivity.
Qed.

(** An entry whose case returns an error: the filter yields no query. *)
Lemma entry_fails (now : Time) (q : AlertQuery) (f1 f2 : FilterMap)
    (k : string) (v : list string) (e : error) :
  k <> "simulated" ->
  (forall st, BuildAlertRequestFromFilter_param now k v st = Returns (inl e)) ->
  forall q', BuildAlertRequestFromFilter now q (f1 ++ (k, v) :: f2) <> Returns (Some q', None).
Proof.
  intros Hk Hparam q'.
  destruct (BuildAlertRequestFromFilter_around now q f1 f2)
    as [[_ Hp] | (q0 & g1 & g2 & _ & Hb & _)].
  - rewrite Hp by assumption. discriminate.
  - rewrite Hb by assumption. rewrite BuildAlertRequestFromFilter_loop_app.
    destruct (BuildAlertRequestFromFilter_loop now g1 (FilterVars_init q0))
      as [[e1 | st1] |]; [discriminate | | discriminate].
    cbn [BuildAlertRequestFromFilter_loop mbind Go_bind go_bind mret Go_ret].
    rewrite Hparam. discriminate.
Qed.

Lemma param_since (now : Time) (v : string) (vs : list string) (st : FilterVars) :
  BuildAlertRequestFromFilter_param now "since" (v :: vs) st =
  let '(duration, err) := ParseDuration v in
  match err with
  | Some e => Returns (inl (Wrap e "while parsing duration" []))
  | None =>
      if IsZero (now + - duration) then Returns (inl (Errorf "Empty time now() - %s" [ArgV]))
      else Returns (inr (fv_Where (alert_CreatedAtGTE (now + - duration)) st))
  end.
Proof. reflexivity. Qed.

Lemma param_include_capi (now : Time) (v : string) (vs : list string) (st : FilterVars) :
  BuildAlertRequestFromFilter_param now "include_capi" (v :: vs) st =
  if bool_decide (v = "false") then
    Returns (inr (fv_Where (alert_HasDecisionsWith (decision_OriginNEQ "CAPI")) st))
  else Returns (inr st).
Proof. reflexivity. Qed.

Lemma holds_decision_with (dp : decision_Predicate) (P : ent_Decision -> Prop)
    (c : Client) (a : ent_Alert) :
  (forall d, decision_holds dp d = true <-> P d) ->
  alert_holds c (alert_HasDecisionsWith dp) a = true <-> has_decision P c a.
Proof.
  intros HP. cbn [alert_holds]. rewrite existsb_elem_of. unfold decisions_of, has_decision.
  split; intros (d & Hd & Hp); exists d.
  - apply list_elem_of_filter in Hd as [Ho Hd]. apply HP in Hp. tauto.
  - destruct Hp as [Ho Hp]. split; [apply list_elem_of_filter; tauto | apply HP, Hp].
Qed.

(** X9: a [since] entry whose duration [d] parses keeps the alerts created at
    or after the clock minus [d], and an [until] entry those created at or
    before it, next to what the other entries ask; both bounds are inclusive.
    With a value that [time.ParseDuration] rejects, or when the instant
    computed is the zero instant, the filter yields no query. *)
Theorem since_until_window (now : Time) (q : AlertQuery) (f1 f2 : FilterMap)
    (v : string) (vs : list string) :
  (forall d, ParseDuration v = (d, None) -> IsZero (now + - d) = false ->
     adds_condition (BuildAlertRequestFromFilter now q (f1 ++ f2))
       (BuildAlertRequestFromFilter now q (f1 ++ ("since", v :: vs) :: f2))
       (λ _ a, now - d <= alert_CreatedAt a) /\
     adds_condition (BuildAlertRequestFromFilter now q (f1 ++ f2))
       (BuildAlertRequestFromFilter now q (f1 ++ ("until", v :: vs) :: f2))
       (λ _ a, alert_CreatedAt a <= now - d)) /\
  (snd (ParseDuration v) <> None \/ IsZero (now + - fst (ParseDuration v)) = true ->
   forall q',
     BuildAlertRequestFromFilter now q (f1 ++ ("since", v :: vs) :: f2) <>
       Returns (Some q', None) /\
     BuildAlertRequestFromFilter now q (f1 ++ ("until", v :: vs) :: f2) <>
       Returns (Some q', None)).
Proof.
  split.
  - intros d Hd Hz. split.
    + apply (entry_adds_condition now q f1 f2 "since" (v :: vs)
               (alert_CreatedAtGTE (now + - d))); [discriminate | |].
      * intros st. rewrite param_since, Hd, Hz. reflexivity.
      * intros c a. cbn [alert_holds]. rewrite bool_decide_eq_true. lia.
    + apply (entry_adds_condition now q f1 f2 "until" (v :: vs)
               (alert_CreatedAtLTE (now + - d))); [discriminate | |].
      * intros st. rewrite param_until, Hd, Hz. reflexivity.
      * intros c a. cbn [alert_holds]. rewrite bool_decide_eq_true. lia.
  - intros Hbad q'.
    assert (Herr : exists e, forall st,
              BuildAlertRequestFromFilter_param now "since" (v :: vs) st = Returns (inl e) /\
              BuildAlertRequestFromFilter_param now "until" (v :: vs) st = Returns (inl e)).
    { destruct (ParseDuration v) as [d [e |]] eqn:Hd; cbn [fst snd] in Hbad.
      - exists (Wrap e "while parsing duration" []). intros st.
        rewrite param_since, param_until, Hd. split; reflexivity.
      - destruct Hbad as [Hbad | Hz]; [contradiction |].
        exists (Errorf "Empty time now() - %s" [ArgV]). intros st.
        rewrite param_since, param_until, Hd, Hz. split; reflexivity. }
    destruct Herr as [e He]. split.
    + apply (entry_fails now q f1 f2 "since" (v :: vs) e); [discriminate |].
      intros st. apply He.
    + apply (entry_fails now q f1 f2 "until" (v :: vs) e); [discriminate |].
      intros st. apply He.
Qed.

(** X10: the [scope], [value] and [scenario] entries keep the alerts whose
    source scope, source value or scenario is the first value of the entry,
    and [decision_type] the alerts that have a decision of that type, next to
    what the other entries ask; none of them fails. *)
Theorem equality_filters (now : Time) (q : AlertQuery) (f1 f2 : FilterMap)
    (v : string) (vs : list string) :
  adds_condition (BuildAlertRequestFromFilter now q (f1 ++ f2))
    (BuildAlertRequestFromFilter now q (f1 ++ ("scope", v :: vs) :: f2))
    (λ _ a, alert_SourceScope a = v) /\
  adds_condition (BuildAlertRequestFromFilter now q (f1 ++ f2))
    (BuildAlertRequestFromFilter now q (f1 ++ ("value", v :: vs) :: f2))
    (λ _ a, alert_SourceValue a = v) /\
  adds_condition (BuildAlertRequestFromFilter now q (f1 ++ f2))
    (BuildAlertRequestFromFilter now q (f1 ++ ("scenario", v :: vs) :: f2))
    (λ _ a, alert_Scenario a = v) /\
  adds_condition (BuildAlertRequestFromFilter now q (f1 ++ f2))
    (BuildAlertRequestFromFilter now q (f1 ++ ("decision_type", v :: vs) :: f2))
    (has_decision (λ d, decision_Type d = v)).
Proof.
  split; [| split; [| split]].
  - apply (entry_adds_condition now q f1 f2 "scope" (v :: vs) (alert_SourceScopeEQ v));
      [discriminate | reflexivity |].
    intros c a. cbn [alert_holds]. apply bool_decide_eq_true.
  - apply (entry_adds_condition now q f1 f2 "value" (v :: vs) (alert_SourceValueEQ v));
      [discriminate | reflexivity |].
    intros c a. cbn [alert_holds]. apply bool_decide_eq_true.
  - apply (entry_adds_condition now q f1 f2 "scenario" (v :: vs) (alert_ScenarioEQ v));
      [discriminate | reflexivity |].
    intros c a. cbn [alert_holds]. apply bool_decide_eq_true.
  - apply (entry_adds_condition now q f1 f2 "decision_type" (v :: vs)
             (alert_HasDecisionsWith (decision_TypeEQ v)));
      [discriminate | reflexivity |].
    intros c a. apply holds_decision_with. intros d. cbn [decision_holds].
    apply bool_decide_eq_true.
Qed.

(** X11: [include_capi] with the value ["false"] keeps the alerts that have a
    decision whose origin is not ["CAPI"], so an alert without decisions is
    not kept; with any other value, ["true"] or not, the entry changes
    nothing and is no error. *)
Theorem include_capi_filter (now : Time) (q : AlertQuery) (f1 f2 : FilterMap)
    (v : string) (vs : list string) :
  (v = "false" ->
   adds_condition (BuildAlertRequestFromFilter now q (f1 ++ f2))
     (BuildAlertRequestFromFilter now q (f1 ++ ("include_capi", v :: vs) :: f2))
     (has_decision (λ d, decision_Origin d <> "CAPI"))) /\
  (v <> "false" ->
   BuildAlertRequestFromFilter now q (f1 ++ ("include_capi", v :: vs) :: f2) =
   BuildAlertRequestFromFilter now q (f1 ++ f2)).
Proof.
  split; intros Hv.
  - apply (entry_adds_condition now q f1 f2 "include_capi" (v :: vs)
             (alert_HasDecisionsWith (decision_OriginNEQ "CAPI"))); [discriminate | |].
    + intros st. rewrite param_include_capi, bool_decide_eq_true_2 by exact Hv. reflexivity.
    + intros c a. apply holds_decision_with. intros d. cbn [decision_holds].
      apply bool_decide_eq_true.
  - apply entry_is_noop; [discriminate |].
    intros st. rewrite param_include_capi, bool_decide_eq_false_2 by exact Hv. reflexivity.
Qed.

Lemma Filter_lookup_absent (k : string) (f : FilterMap) :
  k ∉ f.*1 -> Filter_lookup k f = None.
Proof.
  induction f as [| [k' v'] f IH]; intros Hk; [reflexivity |].
  cbn [fmap list_fmap fst] in Hk. apply not_elem_of_cons in Hk as [Hne Hk].
  cbn [Filter_lookup]. rewrite bool_decide_eq_false_2 by congruence. apply IH, Hk.
Qed.

Lemma Filter_delete_absent (k : string) (f : FilterMap) :
  k ∉ f.*1 -> Filter_delete k f = f.
Proof.
  intros Hk. unfold Filter_delete. apply filter_all. intros [k' v'] Hin Heq.
  apply Hk. cbn in Heq. subst k'. apply list_elem_of_fmap. exists (k, v').
  split; [reflexivity | exact Hin].
Qed.

Lemma Filter_lookup_present (k : string) (v : list string) (f1 f2 : FilterMap) :
  k ∉ f1.*1 -> Filter_lookup k (f1 ++ (k, v) :: f2) = Some v.
Proof.
  induction f1 as [| [k' v'] f1 IH]; intros Hk.
  - cbn [app Filter_lookup]. rewrite bool_decide_eq_true_2 by reflexivity. reflexivity.
  - cbn [fmap list_fmap fst] in Hk. apply not_elem_of_cons in Hk as [Hne Hk].
    cbn [app Filter_lookup]. rewrite bool_decide_eq_false_2 by congruence. apply IH, Hk.
Qed.

Lemma Filter_delete_present (k : string) (v : list string) (f1 f2 : FilterMap) :
  k ∉ (f1 ++ f2).*1 -> Filter_delete k (f1 ++ (k, v) :: f2) = f1 ++ f2.
Proof.
  intros Hk. unfold Filter_delete. rewrite filter_app, filter_cons_False by (cbn; tauto).
  rewrite <- filter_app. apply (Filter_delete_absent k (f1 ++ f2) Hk).
Qed.

(** X12: a [simulated] entry with the value ["false"] keeps the alerts that
    are not simulated, next to what the other entries ask; with any other
    value it changes nothing, and a filter without the key excludes no
    simulated alert: the empty filter returns the query as it was given. *)
Theorem simulated_filter (now : Time) (q : AlertQuery) (f1 f2 : FilterMap)
    (v : string) (vs : list string) :
  "simulated" ∉ (f1 ++ f2).*1 ->
  (v = "false" ->
   adds_condition (BuildAlertRequestFromFilter now q (f1 ++ f2))
     (BuildAlertRequestFromFilter now q (f1 ++ ("simulated", v :: vs) :: f2))
     (λ _ a, alert_Simulated a = false)) /\
  (v <> "false" ->
   BuildAlertRequestFromFilter now q (f1 ++ ("simulated", v :: vs) :: f2) =
   BuildAlertRequestFromFilter now q (f1 ++ f2)) /\
  BuildAlertRequestFromFilter now q [] = Returns (Some q, None).
Proof.
  intros Hk.
  assert (Hk1 : "simulated" ∉ f1.*1)
    by (rewrite fmap_app in Hk; apply not_elem_of_app in Hk; tauto).
  assert (Hwith : BuildAlertRequestFromFilter now q (f1 ++ ("simulated", v :: vs) :: f2) =
                  r ← BuildAlertRequestFromFilter_loop now (f1 ++ f2)
                        (FilterVars_init (if bool_decide (v = "false")
                                          then Where (alert_SimulatedEQ false) q else q));
                  mret (compiled r)).
  { unfold BuildAlertRequestFromFilter, simulated_prelude.
    rewrite Filter_lookup_present by exact Hk1.
    rewrite Filter_delete_present by exact Hk. reflexivity. }
  assert (Hwithout : BuildAlertRequestFromFilter now q (f1 ++ f2) =
                     r ← BuildAlertRequestFromFilter_loop now (f1 ++ f2) (FilterVars_init q);
                     mret (compiled r)).
  { unfold BuildAlertRequestFromFilter, simulated_prelude.
    rewrite Filter_lookup_absent by exact Hk. reflexivity. }
  split; [| split; [| reflexivity]]; intros Hv; rewrite Hwith, Hwithout.
  - rewrite bool_decide_eq_true_2 by exact Hv.
    set (p := alert_SimulatedEQ false).
    assert (Hrel : one_more_predicate_vars p (FilterVars_init q)
                     (FilterVars_init (Where p q))).
    { unfold one_more_predicate_vars, one_more_predicate.
      cbn [FilterVars_init fv_startIP fv_endIP fv_alerts Where q_withDecisions q_withEvents
        q_withMetas q_withOwner q_orderCreatedAt q_predicates].
      repeat (split; [reflexivity |]).
      exists (q_predicates q), []. rewrite app_nil_r. split; reflexivity. }
    pose proof (loop_one_more_predicate now p (f1 ++ f2) _ _ Hrel) as Hloop.
    unfold adds_condition.
    destruct (BuildAlertRequestFromFilter_loop now (f1 ++ f2) (FilterVars_init q))
      as [[e | a] |];
      destruct (BuildAlertRequestFromFilter_loop now (f1 ++ f2)
                  (FilterVars_init (Where p q))) as [[e' | b] |];
      try contradiction; cbn [mbind Go_bind go_bind mret Go_ret compiled];
      [exact Hloop | | exact I].
    intros c x.
    rewrite (selected_one_more_predicate c p (bounds_restriction a) (bounds_restriction b) x)
      by (apply bounds_restriction_one_more_predicate, Hloop).
    rewrite andb_true_iff. unfold p. cbn [alert_holds]. rewrite bool_decide_eq_true.
    reflexivity.
  - rewrite bool_decide_eq_false_2 by exact Hv. reflexivity.
Qed.

(** ** The effect of an entry on the state of the compiler *)

(** A case of the switch panics, returns an error, adds a predicate, sets the
    bounds or does nothing, and which of these does not depend on the state;
    only [ip] and [range] set the bounds. *)
Lemma param_shape (now : Time) (k : string) (v : list string) :
  (forall st, BuildAlertRequestFromFilter_param now k v st = Panics) \/
  (exists e, forall st, BuildAlertRequestFromFilter_param now k v st = Returns (inl e)) \/
  (exists p, forall st,
     BuildAlertRequestFromFilter_param now k v st = Returns (inr (fv_Where p st))) \/
  ((k = "ip" \/ k = "range") /\
   exists startIP endIP, forall st,
     BuildAlertRequestFromFilter_param now k v st =
     Returns (inr (fv_bounds startIP endIP st))) \/
  (forall st, BuildAlertRequestFromFilter_param now k v st = Returns (inr st)).
Proof.
  unfold BuildAlertRequestFromFilter_param.
  destruct v as [| v vs]; cbn [index0 mbind mret Go_bind Go_ret go_bind];
    repeat case_bool_decide; try (left; reflexivity); destruct_calls;
    cbn [mbind mret Go_bind Go_ret go_bind];
    first [ right; left; eexists; intros st; reflexivity
          | right; right; left; eexists; intros st; reflexivity
          | right; right; right; left;
            split; [auto | eexists _, _; intros st; reflexivity]
          | right; right; right; right; intros st; reflexivity ].
Qed.

Section Related.
Variable R : FilterVars -> FilterVars -> Prop.
Hypothesis R_Where : forall p st st', R st st' -> R (fv_Where p st) (fv_Where p st').
Hypothesis R_bounds :
  forall startIP endIP st st', R st st' ->
    R (fv_bounds startIP endIP st) (fv_bounds startIP endIP st').

Lemma param_related (now : Time) (k : string) (v : list string) (st st' : FilterVars) :
  R st st' ->
  related R (BuildAlertRequestFromFilter_param now k v st)
    (BuildAlertRequestFromFilter_param now k v st').
Proof.
  intros Hrel. unfold related.
  destruct (param_shape now k v)
    as [Hp | [(e & Hp) | [(p & Hp) | [(_ & s & e & Hp) | Hp]]]];
    rewrite (Hp st), (Hp st'); auto.
Qed.

Lemma loop_related (now : Time) (f : FilterMap) (st st' : FilterVars) :
  R st st' ->
  related R (BuildAlertRequestFromFilter_loop now f st)
    (BuildAlertRequestFromFilter_loop now f st').
Proof.
  revert st st'. induction f as [| [k v] f IH]; intros st st' Hrel; [exact Hrel |].
  cbn [BuildAlertRequestFromFilter_loop mbind Go_bind go_bind mret Go_ret].
  pose proof (param_related now k v st st' Hrel) as Hstep. unfold related in Hstep.
  destruct (BuildAlertRequestFromFilter_param now k v st) as [[e | a] |];
    destruct (BuildAlertRequestFromFilter_param now k v st') as [[e' | b] |];
    try contradiction; try exact Hstep.
  apply IH, Hstep.
Qed.

End Related.

(** ** The restriction to the bounds *)

(** A filter with one entry that sets the bounds compiles as it does without
    the entry, with the restriction to the bounds when both are not 0. *)
Lemma entry_sets_bounds (now : Time) (q : AlertQuery) (f1 f2 : FilterMap)
    (k : string) (v : list string) (startIP endIP : Z) :
  k <> "simulated" -> sets_bounds now k v startIP endIP ->
  "ip" ∉ (f1 ++ f2).*1 -> "range" ∉ (f1 ++ f2).*1 ->
  match BuildAlertRequestFromFilter now q (f1 ++ f2),
        BuildAlertRequestFromFilter now q (f1 ++ (k, v) :: f2) with
  | Returns (Some q0, None), Returns (Some q1, None) =>
      q1 = if bool_decide (startIP ≠ 0) && bool_decide (endIP ≠ 0)
           then Where (alert_And (alert_HasDecisionsWith (decision_StartIPGTE startIP))
                                 (alert_HasDecisionsWith (decision_EndIPLTE endIP))) q0
           else q0
  | Returns (None, Some e0), Returns (None, Some e1) => e0 = e1
  | Panics, Panics => True
  | _, _ => False
  end.
Proof.
  intros Hk Hparam Hip Hrange.
  destruct (BuildAlertRequestFromFilter_around now q f1 f2)
    as [[Hpre Hp] | (q0 & g1 & g2 & Hpre & Hb & _ & Hkeys)].
  - rewrite Hp by assumption.
    unfold BuildAlertRequestFromFilter. rewrite Hpre. exact I.
  - rewrite Hb by assumption.
    unfold BuildAlertRequestFromFilter at 1. rewrite Hpre.
    cbn [mbind Go_bind go_bind].
    apply Hkeys in Hip, Hrange. clear Hkeys Hb Hpre.
    rewrite fmap_app in Hip, Hrange.
    apply not_elem_of_app in Hip as [Hip1 Hip2].
    apply not_elem_of_app in Hrange as [Hrange1 Hrange2].
    rewrite !BuildAlertRequestFromFilter_loop_app.
    destruct (BuildAlertRequestFromFilter_loop now g1 (FilterVars_init q0))
      as [[e | st1] |] eqn:Hloop1; [reflexivity | | exact I].
    destruct (loop_keeps_bounds now g1 _ _ Hip1 Hrange1 Hloop1) as [Hs1 He1].
    cbn [BuildAlertRequestFromFilter_loop mbind Go_bind go_bind mret Go_ret].
    rewrite (Hparam st1). cbn [mbind Go_bind go_bind].
    rewrite loop_bounds by assumption.
    destruct (BuildAlertRequestFromFilter_loop now g2 st1)
      as [[e | st2] |] eqn:Hloop2; [reflexivity | | exact I].
    destruct (loop_keeps_bounds now g2 _ _ Hip2 Hrange2 Hloop2) as [Hs2 He2].
    cbn [mbind Go_bind go_bind mret Go_ret compiled]. unfold bounds_restriction.
    cbn [fv_bounds fv_startIP fv_endIP fv_alerts].
    rewrite Hs2, Hs1, He2, He1. cbn [FilterVars_init fv_startIP fv_endIP].
    rewrite (bool_decide_eq_false_2 (0 ≠ 0)) by (intros Hne; apply Hne; reflexivity).
    cbn [andb]. reflexivity.
Qed.

Lemma selected_Where (c : Client) (p : alert_Predicate) (q : AlertQuery) (a : ent_Alert) :
  selected c (Where p q) a = selected c q a && alert_holds c p a.
Proof.
  unfold selected. cbn [Where q_predicates]. rewrite forallb_app. cbn [forallb].
  rewrite andb_true_r. reflexivity.
Qed.

(** X13: in a filter with one [range] or [ip] entry whose bounds [startIP] and
    [endIP] are both not 0, the entry keeps the alerts that have a decision
    starting at or after [startIP] and a decision ending at or before [endIP],
    next to what the other entries ask; the two conditions are separate
    predicates, so they need not be met by the same decision. *)
Theorem bounds_filter (now : Time) (q : AlertQuery) (f1 f2 : FilterMap)
    (startIP endIP : Z) :
  startIP <> 0 -> endIP <> 0 ->
  "ip" ∉ (f1 ++ f2).*1 -> "range" ∉ (f1 ++ f2).*1 ->
  (forall r vs, GetIpsFromIpRange r = (startIP, endIP, None) ->
     adds_condition (BuildAlertRequestFromFilter now q (f1 ++ f2))
       (BuildAlertRequestFromFilter now q (f1 ++ ("range", r :: vs) :: f2))
       (λ c a, has_decision (λ d, startIP <= decision_StartIP d) c a /\
               has_decision (λ d, decision_EndIP d <= endIP) c a)) /\
  (forall X vs, IsIpv4 X = true -> GetIpsFromIpRange (X +:+ "/32") = (startIP, endIP, None) ->
     adds_condition (BuildAlertRequestFromFilter now q (f1 ++ f2))
       (BuildAlertRequestFromFilter now q (f1 ++ ("ip", X :: vs) :: f2))
       (λ c a, has_decision (λ d, startIP <= decision_StartIP d) c a /\
               has_decision (λ d, decision_EndIP d <= endIP) c a)).
Proof.
  intros Hs He Hip Hrange.
  assert (Hgen : forall k v, k <> "simulated" -> sets_bounds now k v startIP endIP ->
            adds_condition (BuildAlertRequestFromFilter now q (f1 ++ f2))
              (BuildAlertRequestFromFilter now q (f1 ++ (k, v) :: f2))
              (λ c a, has_decision (λ d, startIP <= decision_StartIP d) c a /\
                      has_decision (λ d, decision_EndIP d <= endIP) c a)).
  { intros k v Hk Hset.
    pose proof (entry_sets_bounds now q f1 f2 k v startIP endIP Hk Hset Hip Hrange) as Hb.
    unfold adds_condition.
    destruct (BuildAlertRequestFromFilter now q (f1 ++ f2)) as [[[q0 |] [e0 |]] |];
      destruct (BuildAlertRequestFromFilter now q (f1 ++ (k, v) :: f2))
        as [[[q1 |] [e1 |]] |]; try exact Hb.
    rewrite !bool_decide_eq_true_2 in Hb by assumption. cbn [andb] in Hb. subst q1.
    intros c a. rewrite selected_Where, andb_true_iff.
    cbn [alert_holds]. rewrite andb_true_iff.
    change (existsb (decision_holds (decision_StartIPGTE startIP))
              (decisions_of c (alert_ID a)))
      with (alert_holds c (alert_HasDecisionsWith (decision_StartIPGTE startIP)) a).
    change (existsb (decision_holds (decision_EndIPLTE endIP))
              (decisions_of c (alert_ID a)))
      with (alert_holds c (alert_HasDecisionsWith (decision_EndIPLTE endIP)) a).
    rewrite (holds_decision_with (decision_StartIPGTE startIP)
               (λ d, startIP <= decision_StartIP d))
      by (intros d; cbn [decision_holds]; apply bool_decide_eq_true).
    rewrite (holds_decision_with (decision_EndIPLTE endIP)
               (λ d, decision_EndIP d <= endIP))
      by (intros d; cbn [decision_holds]; apply bool_decide_eq_true).
    reflexivity. }
  split.
  - intros r vs Hr. apply Hgen; [discriminate |].
    intros st. rewrite param_range, Hr. reflexivity.
  - intros X vs Hv4 Hr. apply Hgen; [discriminate |].
    intros st. rewrite param_ip, Hv4, Hr. reflexivity.
Qed.

(** ** The order of the entries *)

Lemma Filter_lookup_None (k : string) (f : FilterMap) :
  Filter_lookup k f = None -> k ∉ f.*1.
Proof.
  induction f as [| [k' v'] f IH]; intros Hl; [apply not_elem_of_nil |].
  cbn [Filter_lookup] in Hl. case_bool_decide as Hk; [discriminate |].
  cbn [fmap list_fmap fst]. apply not_elem_of_cons. split; [congruence | apply IH, Hl].
Qed.

(** The compiler as a function of the value of [simulated] and of the other
    entries. *)
Lemma BuildAlertRequestFromFilter_unfold (now : Time) (q : AlertQuery) (f : FilterMap) :
  BuildAlertRequestFromFilter now q f =
  q0 ← match Filter_lookup "simulated" f with
       | Some v =>
           v0 ← index0 v;
           mret (if bool_decide (v0 = "false") then Where (alert_SimulatedEQ false) q else q)
       | None => mret q
       end;
  r ← BuildAlertRequestFromFilter_loop now (Filter_delete "simulated" f) (FilterVars_init q0);
  mret (compiled r).
Proof.
  unfold BuildAlertRequestFromFilter, simulated_prelude.
  destruct (Filter_lookup "simulated" f) as [[| v0 vs] |] eqn:Hl; [reflexivity.. |].
  rewrite Filter_delete_absent by (apply Filter_lookup_None, Hl). reflexivity.
Qed.

Lemma sets_bounds_key (now : Time) (k : string) (v : list string) (startIP endIP : Z) :
  sets_bounds now k v startIP endIP -> k <> "simulated".
Proof.
  intros Hset ->. specialize (Hset (FilterVars_init Alert_Query)).
  destruct v as [| v vs]; discriminate Hset.
Qed.

(** X14: of two entries that set the bounds, the one visited first has no
    effect: the filter compiles as it does without it.  With both [ip] and
    [range] in a filter, the entry applied is the one the iteration over the
    map visits last. *)
Theorem last_bounds_entry_wins (now : Time) (q : AlertQuery) (f1 f2 f3 : FilterMap)
    (k1 k2 : string) (v1 v2 : list string) (s1 e1 s2 e2 : Z) :
  sets_bounds now k1 v1 s1 e1 -> sets_bounds now k2 v2 s2 e2 ->
  BuildAlertRequestFromFilter now q (f1 ++ (k1, v1) :: f2 ++ (k2, v2) :: f3) =
  BuildAlertRequestFromFilter now q (f1 ++ f2 ++ (k2, v2) :: f3).
Proof.
  intros Hset1 Hset2.
  pose proof (sets_bounds_key now k1 v1 s1 e1 Hset1) as Hk1.
  pose proof (sets_bounds_key now k2 v2 s2 e2 Hset2) as Hk2.
  rewrite !BuildAlertRequestFromFilter_unfold.
  rewrite Filter_lookup_app_cons_ne by exact Hk1.
  rewrite Filter_delete_app_cons_ne by exact Hk1.
  rewrite (Filter_delete_app "simulated" f1 (f2 ++ (k2, v2) :: f3)).
  rewrite Filter_delete_app_cons_ne by exact Hk2.
  set (g1 := Filter_delete "simulated" f1). set (g2 := Filter_delete "simulated" f2).
  set (g3 := Filter_delete "simulated" f3).
  destruct (match Filter_lookup "simulated" (f1 ++ f2 ++ (k2, v2) :: f3) with
            | Some v => _ | None => _ end) as [q0 |]; [| reflexivity].
  cbn [mbind Go_bind go_bind]. f_equal.
  rewrite !BuildAlertRequestFromFilter_loop_app.
  destruct (BuildAlertRequestFromFilter_loop now g1 (FilterVars_init q0))
    as [[e | st1] |]; [reflexivity | | reflexivity].
  cbn [BuildAlertRequestFromFilter_loop mbind Go_bind go_bind mret Go_ret].
  rewrite (Hset1 st1). cbn [mbind Go_bind go_bind].
  rewrite !BuildAlertRequestFromFilter_loop_app.
  pose proof (loop_related (λ st st', fv_alerts st = fv_alerts st')
                (λ p st st' Heq, f_equal (Where p) Heq) (λ s e st st' Heq, Heq)
                now g2 (fv_bounds s1 e1 st1) st1 eq_refl) as Hrel.
  unfold related in Hrel.
  destruct (BuildAlertRequestFromFilter_loop now g2 (fv_bounds s1 e1 st1)) as [[e | a] |];
    destruct (BuildAlertRequestFromFilter_loop now g2 st1) as [[e' | b] |];
    try contradiction; [congruence | | reflexivity].
  cbn [BuildAlertRequestFromFilter_loop mbind Go_bind go_bind mret Go_ret].
  rewrite (Hset2 a), (Hset2 b). unfold fv_bounds. rewrite Hrel. reflexivity.
Qed.

Lemma same_conditions_refl (st : FilterVars) : same_conditions st st.
Proof. unfold same_conditions. repeat split; reflexivity. Qed.

Lemma same_conditions_trans (a b c : FilterVars) :
  same_conditions a b -> same_conditions b c -> same_conditions a c.
Proof.
  unfold same_conditions. intros (Hs & He & Hp) (Hs' & He' & Hp').
  repeat split; [congruence | congruence | etransitivity; eassumption].
Qed.

Lemma same_conditions_Where (p : alert_Predicate) (st st' : FilterVars) :
  same_conditions st st' -> same_conditions (fv_Where p st) (fv_Where p st').
Proof.
  unfold same_conditions. intros (Hs & He & Hp).
  cbn [fv_Where fv_startIP fv_endIP fv_alerts Where q_predicates].
  repeat split; [assumption | assumption |]. rewrite Hp. reflexivity.
Qed.

Lemma same_conditions_bounds (startIP endIP : Z) (st st' : FilterVars) :
  same_conditions st st' ->
  same_conditions (fv_bounds startIP endIP st) (fv_bounds startIP endIP st').
Proof.
  unfold same_conditions. intros (Hs & He & Hp).
  cbn [fv_bounds fv_startIP fv_endIP fv_alerts]. repeat split; [reflexivity.. | exact Hp].
Qed.

Lemma same_conditions_swap (p1 p2 : alert_Predicate) (st st' : FilterVars) :
  same_conditions st st' ->
  same_conditions (fv_Where p1 (fv_Where p2 st)) (fv_Where p2 (fv_Where p1 st')).
Proof.
  unfold same_conditions. intros (Hs & He & Hp).
  cbn [fv_Where fv_startIP fv_endIP fv_alerts Where q_predicates].
  repeat split; [assumption | assumption |].
  rewrite Hp, <- !app_assoc. apply Permutation_app_head. apply perm_swap.
Qed.

Lemma same_conditions_Where_bounds (p : alert_Predicate) (startIP endIP : Z)
    (st st' : FilterVars) :
  same_conditions st st' ->
  same_conditions (fv_Where p (fv_bounds startIP endIP st))
    (fv_bounds startIP endIP (fv_Where p st')).
Proof.
  unfold same_conditions. intros (Hs & He & Hp).
  cbn [fv_Where fv_bounds fv_startIP fv_endIP fv_alerts Where q_predicates].
  repeat split; [reflexivity.. |]. rewrite Hp. reflexivity.
Qed.

Lemma same_conditions_sym (a b : FilterVars) : same_conditions a b -> same_conditions b a.
Proof. unfold same_conditions. intros (Hs & He & Hp). repeat split; symmetry; assumption. Qed.

Lemma related_related_or_failed (R : FilterVars -> FilterVars -> Prop)
    (r r' : Go (error + FilterVars)) :
  related R r r' -> related_or_failed R r r'.
Proof.
  unfold related, related_or_failed.
  destruct r as [[e | a] |], r' as [[e' | b] |]; auto.
Qed.

Lemma related_or_failed_trans (r1 r2 r3 : Go (error + FilterVars)) :
  related_or_failed same_conditions r1 r2 -> related_or_failed same_conditions r2 r3 ->
  related_or_failed same_conditions r1 r3.
Proof.
  unfold related_or_failed.
  destruct r1 as [[e1 | a1] |], r2 as [[e2 | a2] |], r3 as [[e3 | a3] |];
    auto; try contradiction.
  apply same_conditions_trans.
Qed.

Lemma loop_same_conditions (now : Time) (f : FilterMap) (st st' : FilterVars) :
  same_conditions st st' ->
  related_or_failed same_conditions (BuildAlertRequestFromFilter_loop now f st)
    (BuildAlertRequestFromFilter_loop now f st').
Proof.
  intros HS. apply related_related_or_failed.
  apply loop_related;
    [apply same_conditions_Where | apply same_conditions_bounds | exact HS].
Qed.

(** Two entries next to each other, not both setting the bounds, can be
    visited in either order. *)
Lemma loop_swap (now : Time) (k1 k2 : string) (v1 v2 : list string) (f : FilterMap)
    (st st' : FilterVars) :
  ~ ((k1 = "ip" \/ k1 = "range") /\ (k2 = "ip" \/ k2 = "range")) ->
  same_conditions st st' ->
  related_or_failed same_conditions
    (BuildAlertRequestFromFilter_loop now ((k2, v2) :: (k1, v1) :: f) st)
    (BuildAlertRequestFromFilter_loop now ((k1, v1) :: (k2, v2) :: f) st').
Proof.
  intros Hnot HS.
  destruct (param_shape now k1 v1)
    as [Hp1 | [(x1 & Hp1) | [(p1 & Hp1) | [(Hk1 & s1 & e1 & Hp1) | Hp1]]]];
    destruct (param_shape now k2 v2)
      as [Hp2 | [(x2 & Hp2) | [(p2 & Hp2) | [(Hk2 & s2 & e2 & Hp2) | Hp2]]]];
    try (exfalso; apply Hnot; split; assumption);
    repeat (cbn [BuildAlertRequestFromFilter_loop mbind Go_bind go_bind mret Go_ret];
            rewrite ?Hp1, ?Hp2);
    try exact I; apply loop_same_conditions;
    first [ exact HS
          | apply same_conditions_Where, HS
          | apply same_conditions_bounds, HS
          | apply same_conditions_swap, HS
          | apply same_conditions_Where_bounds, HS
          | apply same_conditions_sym, same_conditions_Where_bounds, same_conditions_sym, HS ].
Qed.

Lemma loop_Permutation (now : Time) (f f' : FilterMap) :
  f ≡ₚ f' -> NoDup f.*1 -> ~ ("ip" ∈ f.*1 /\ "range" ∈ f.*1) ->
  forall st st', same_conditions st st' ->
    related_or_failed same_conditions (BuildAlertRequestFromFilter_loop now f st)
      (BuildAlertRequestFromFilter_loop now f' st').
Proof.
  induction 1 as [| [k v] l l' Hperm IH | [k1 v1] [k2 v2] l | l l' l'' Hperm1 IH1 Hperm2 IH2];
    intros Hnd Hcond st st' HS.
  - exact HS.
  - cbn [fmap list_fmap fst] in Hnd, Hcond. apply NoDup_cons in Hnd as [Hk Hnd].
    cbn [BuildAlertRequestFromFilter_loop mbind Go_bind go_bind mret Go_ret].
    pose proof (param_related same_conditions same_conditions_Where same_conditions_bounds
                  now k v st st' HS) as Hstep.
    unfold related in Hstep.
    destruct (BuildAlertRequestFromFilter_param now k v st) as [[e | a] |];
      destruct (BuildAlertRequestFromFilter_param now k v st') as [[e' | b] |];
      try contradiction; try exact I.
    apply IH; [exact Hnd | | exact Hstep].
    intros [Hip Hrange]. apply Hcond. split; right; assumption.
  - cbn [fmap list_fmap fst] in Hnd, Hcond.
    apply NoDup_cons in Hnd as [Hk2 Hnd]. apply not_elem_of_cons in Hk2 as [Hne _].
    apply loop_swap; [| exact HS].
    intros [[-> | ->] [-> | ->]]; try congruence; apply Hcond; split;
      repeat (first [apply list_elem_of_here | apply list_elem_of_further]).
  - eapply related_or_failed_trans.
    + apply (IH1 Hnd Hcond st st), same_conditions_refl.
    + apply IH2; [| | exact HS].
      * rewrite <- Hperm1. exact Hnd.
      * rewrite <- Hperm1. exact Hcond.
Qed.

Lemma Filter_lookup_Permutation (k : string) (f f' : FilterMap) :
  f ≡ₚ f' -> NoDup f.*1 -> Filter_lookup k f = Filter_lookup k f'.
Proof.
  induction 1 as [| [k0 v0] l l' Hperm IH | [k1 v1] [k2 v2] l | l l' l'' Hperm1 IH1 Hperm2 IH2];
    intros Hnd.
  - reflexivity.
  - cbn [fmap list_fmap fst] in Hnd. apply NoDup_cons in Hnd as [_ Hnd].
    cbn [Filter_lookup]. rewrite IH by exact Hnd. reflexivity.
  - cbn [fmap list_fmap fst] in Hnd.
    apply NoDup_cons in Hnd as [Hk2 _]. apply not_elem_of_cons in Hk2 as [Hne _].
    cbn [Filter_lookup]. repeat case_bool_decide; congruence.
  - rewrite IH1 by exact Hnd. apply IH2. rewrite <- Hperm1. exact Hnd.
Qed.

Lemma forallb_Permutation {A : Type} (p : A -> bool) (l l' : list A) :
  l ≡ₚ l' -> forallb p l = forallb p l'.
Proof.
  induction 1 as [| x l l' _ IH | x y l | l l' l'' _ IH1 _ IH2]; cbn [forallb].
  - reflexivity.
  - rewrite IH. reflexivity.
  - destruct (p x), (p y); reflexivity.
  - congruence.
Qed.

Lemma same_conditions_selected (st st' : FilterVars) (c : Client) (a : ent_Alert) :
  same_conditions st st' ->
  selected c (bounds_restriction st) a = selected c (bounds_restriction st') a.
Proof.
  intros (Hs & He & Hp). unfold bounds_restriction. rewrite Hs, He.
  destruct (bool_decide (fv_startIP st' <> 0) && bool_decide (fv_endIP st' <> 0)).
  - rewrite !selected_Where. f_equal. apply forallb_Permutation, Hp.
  - apply forallb_Permutation, Hp.
Qed.

(** X15: the order in which the entries of a filter are visited does not
    change what the filter selects, provided the filter does not have both
    [ip] and [range]: of two orders of the same entries, with distinct keys,
    either both fail or both give a query, and the two queries select the same
    alerts of every store. *)
Theorem compilation_order (now : Time) (q : AlertQuery) (f f' : FilterMap) :
  f ≡ₚ f' -> NoDup f.*1 -> ~ ("ip" ∈ f.*1 /\ "range" ∈ f.*1) ->
  same_selection (BuildAlertRequestFromFilter now q f) (BuildAlertRequestFromFilter now q f').
Proof.
  intros Hperm Hnd Hcond.
  rewrite !BuildAlertRequestFromFilter_unfold.
  rewrite <- (Filter_lookup_Permutation "simulated" f f' Hperm Hnd).
  destruct (match Filter_lookup "simulated" f with
            | Some v => _ | None => _ end) as [q0 |]; [| exact I].
  cbn [mbind Go_bind go_bind].
  assert (Hperm' : Filter_delete "simulated" f ≡ₚ Filter_delete "simulated" f')
    by (unfold Filter_delete; rewrite Hperm; reflexivity).
  assert (Hsub : forall k, k ∈ (Filter_delete "simulated" f).*1 -> k ∈ f.*1).
  { intros k Hk. apply list_elem_of_fmap in Hk as (kv & -> & Hin).
    apply list_elem_of_filter in Hin as [_ Hin].
    apply list_elem_of_fmap. exists kv. split; [reflexivity | exact Hin]. }
  assert (Hnd' : NoDup (Filter_delete "simulated" f).*1).
  { unfold Filter_delete. clear -Hnd. induction f as [| [k v] f IH]; [constructor |].
    cbn [fmap list_fmap fst] in Hnd. apply NoDup_cons in Hnd as [Hk Hnd].
    destruct (decide (k ≠ "simulated")) as [Hne | Heq].
    - rewrite filter_cons_True by exact Hne. cbn [fmap list_fmap fst].
      apply NoDup_cons. split; [| apply IH, Hnd].
      intros Hin. apply Hk. apply list_elem_of_fmap in Hin as (kv & -> & Hin).
      apply list_elem_of_filter in Hin as [_ Hin].
      apply list_elem_of_fmap. exists kv. split; [reflexivity | exact Hin].
    - rewrite filter_cons_False by exact Heq. apply IH, Hnd. }
  pose proof (loop_Permutation now _ _ Hperm' Hnd'
                (λ '(conj Hip Hrange), Hcond (conj (Hsub _ Hip) (Hsub _ Hrange)))
                (FilterVars_init q0) (FilterVars_init q0)
                (same_conditions_refl _)) as Hloop.
  unfold related_or_failed in Hloop. unfold same_selection.
  destruct (BuildAlertRequestFromFilter_loop now (Filter_delete "simulated" f)
              (FilterVars_init q0)) as [[e | a] |];
    destruct (BuildAlertRequestFromFilter_loop now (Filter_delete "simulated" f')
                (FilterVars_init q0)) as [[e' | b] |];
    try contradiction; cbn [mbind Go_bind go_bind mret Go_ret compiled]; try exact I.
  intros c x. apply same_conditions_selected, Hloop.
Qed.

(** ** Keys the compiler does not know *)

Lemma param_unknown (now : Time) (k : string) (v : list string) (st : FilterVars) :
  k ∉ recognized_keys ->
  BuildAlertRequestFromFilter_param now k v st =
  match v with
  | [] => Panics
  | v0 :: _ =>
      Returns (inl (Wrap InvalidFilter "Filter parameter '%s' is unknown (=%s)"
                      [ArgS k; ArgS v0]))
  end.
Proof.
  intros Hk. unfold BuildAlertRequestFromFilter_param.
  repeat (case_bool_decide as Heq;
          [exfalso; apply Hk; rewrite Heq; unfold recognized_keys;
           repeat (first [apply list_elem_of_here | apply list_elem_of_further]) |
           clear Heq]).
  destruct v; reflexivity.
Qed.

Lemma loop_success_keys (now : Time) (f : FilterMap) (st st' : FilterVars) :
  BuildAlertRequestFromFilter_loop now f st = Returns (inr st') ->
  Forall (λ kv, kv.1 ∈ recognized_keys) f.
Proof.
  revert st. induction f as [| [k v] f IH]; intros st Hloop; [constructor |].
  cbn [BuildAlertRequestFromFilter_loop mbind Go_bind go_bind mret Go_ret] in Hloop.
  destruct (decide (k ∈ recognized_keys)) as [Hk | Hk].
  - constructor; [exact Hk |].
    destruct (BuildAlertRequestFromFilter_param now k v st) as [[e | a] |];
      [discriminate | apply (IH a), Hloop | discriminate].
  - rewrite (param_unknown now k v st Hk) in Hloop. destruct v; discriminate.
Qed.

(** A filter that compiles has known keys only. *)
Lemma compiled_keys (now : Time) (q q' : AlertQuery) (f : FilterMap) :
  BuildAlertRequestFromFilter now q f = Returns (Some q', None) ->
  Forall (λ kv, kv.1 ∈ recognized_keys) f.
Proof.
  rewrite BuildAlertRequestFromFilter_unfold. intros Hb.
  destruct (match Filter_lookup "simulated" f with
            | Some v => _ | None => _ end) as [q0 |]; [| discriminate].
  cbn [mbind Go_bind go_bind] in Hb.
  destruct (BuildAlertRequestFromFilter_loop now (Filter_delete "simulated" f)
              (FilterVars_init q0)) as [[e | a] |] eqn:Hloop; [discriminate | | discriminate].
  apply loop_success_keys in Hloop. rewrite Forall_forall in Hloop.
  apply Forall_forall. intros [k v] Hin.
  destruct (decide (k = "simulated")) as [-> | Hne].
  - cbn. unfold recognized_keys. apply list_elem_of_here.
  - apply (Hloop (k, v)). apply list_elem_of_filter. split; [exact Hne | exact Hin].
Qed.

(** X16: a filter with a key the compiler does not know never compiles to a
    query, whatever the other entries and the order of visit, so a query by
    it never returns a nil error; alone, the entry gives an error that wraps
    [InvalidFilter]. *)
Theorem unknown_key_refused (now : Time) (q : AlertQuery) (f : FilterMap) (k : string) :
  k ∈ f.*1 -> k ∉ recognized_keys ->
  (forall q', BuildAlertRequestFromFilter now q f <> Returns (Some q', None)) /\
  (forall c result c', QueryAlertWithFilter now f c <> (Returns (result, None), c')) /\
  (forall v vs,
     BuildAlertRequestFromFilter now q [(k, v :: vs)] =
     Returns (None, Some (Wrap InvalidFilter "Filter parameter '%s' is unknown (=%s)"
                            [ArgS k; ArgS v]))).
Proof.
  intros Hin Hk.
  assert (Hnever : forall q0 q', BuildAlertRequestFromFilter now q0 f <> Returns (Some q', None)).
  { intros q0 q' Hb. apply compiled_keys in Hb. rewrite Forall_forall in Hb.
    apply list_elem_of_fmap in Hin as (kv & -> & Hin). apply Hk, (Hb kv Hin). }
  split; [apply Hnever |]. split.
  - intros c result c'. unfold QueryAlertWithFilter.
    destruct (BuildAlertRequestFromFilter now Alert_Query f) as [[[q' |] [e |]] |] eqn:Hb;
      try discriminate.
    exfalso. apply (Hnever _ _ Hb).
  - intros v vs. rewrite BuildAlertRequestFromFilter_unfold.
    assert (Hne : k <> "simulated").
    { intros ->. apply Hk. unfold recognized_keys. apply list_elem_of_here. }
    cbn [Filter_lookup]. rewrite bool_decide_eq_false_2 by exact Hne.
    unfold Filter_delete. rewrite filter_cons_True by exact Hne. rewrite filter_nil.
    cbn [mbind Go_bind go_bind mret Go_ret BuildAlertRequestFromFilter_loop].
    rewrite (param_unknown now k (v :: vs) _ Hk). reflexivity.
Qed.

End Properties.

(** * The properties on concrete inputs *)

#[local] Existing Instance sample.

(** Six hours past the epoch, with a maximum age of two hours, four of the
    five alerts are older than the cutoff; the flush keeps them all. *)
Lemma FlushAlerts_age_pass_witness :
  0 < 2 * Hour /\
  (filter (λ a, alert_CreatedAt a <= 6 * Hour + - (2 * Hour)) (Alert_table five_alerts) <> []) /\
  DeleteAlertWithFilter (H := sample) (6 * Hour)
    [("until", [Format_RFC3339 Local_offset (6 * Hour + - (2 * Hour))])] five_alerts =
    (Returns ([], None), five_alerts) /\
  FlushAlerts (H := sample) (6 * Hour) (2 * Hour) 0 five_alerts =
    (Returns (Some 0, None), five_alerts).
Proof.
  split; [reflexivity |]. split; [discriminate |].
  apply (FlushAlerts_age_pass_deletes_nothing (H := sample) (6 * Hour) (2 * Hour) five_alerts).
  reflexivity.
Defined.

Lemma CreateAlertBulk_reuses_children_witness :
  persist_events without_children
    {| bv_decisions := []; bv_metas := [];
       bv_events := new_events 1 [{| ec_Time := 0; ec_Serialized := "[]" |}];
       bv_ret := []; bv_bulk := [] |} empty_Client =
  (inr (new_events 1 [{| ec_Time := 0; ec_Serialized := "[]" |}]), empty_Client).
Proof.
  destruct CreateAlertBulk_reuses_children as [Hstale _].
  destruct (Hstale 0 without_children
              {| bv_decisions := []; bv_metas := [];
                 bv_events := new_events 1 [{| ec_Time := 0; ec_Serialized := "[]" |}];
                 bv_ret := []; bv_bulk := [] |} empty_Client eq_refl eq_refl eq_refl)
    as [Hevents _].
  exact Hevents.
Defined.

Lemma DeleteAlertWithFilter_loses_compile_error_witness :
  BuildAlertRequestFromFilter (H := sample) 0 Alert_Query [("origin", ["cscli"])] =
    Returns (None, Some (Wrap InvalidFilter "Filter parameter '%s' is unknown (=%s)"
                           [ArgS "origin"; ArgS "cscli"])) /\
  QueryAlertWithFilter (H := sample) 0 [("origin", ["cscli"])] five_alerts =
    (Returns ([], Some (Wrap InvalidFilter "Filter parameter '%s' is unknown (=%s)"
                          [ArgS "origin"; ArgS "cscli"])), five_alerts) /\
  DeleteAlertWithFilter (H := sample) 0 [("origin", ["cscli"])] five_alerts =
    (Returns ([], None), five_alerts).
Proof.
  split; [reflexivity |].
  apply (DeleteAlertWithFilter_loses_compile_error (H := sample) 0
           [("origin", ["cscli"])] five_alerts).
  reflexivity.
Defined.

Lemma CreateAlertBulk_returns_ids_in_order_witness :
  faults empty_Client = [] /\
  forallb (valid_submission (H := sample))
    (replicate 20 without_children ++ [with_children]) = true /\
  exists rows c',
    CreateAlertBulk (H := sample) 0 "machine-1"
      (replicate 20 without_children ++ [with_children]) empty_Client =
      (((λ a, Itoa (alert_ID a)) <$> rows, None), c') /\
    length rows = length (replicate 20 without_children ++ [with_children]) /\
    Alert_table c' = Alert_table empty_Client ++ rows /\
    Forall2 (ingested (H := sample) 0 (machine_of empty_Client "machine-1"))
      (replicate 20 without_children ++ [with_children]) rows /\
    alert_ID <$> rows =
      consecutive (Alert_seq empty_Client + 1)
        (length (replicate 20 without_children ++ [with_children])) /\
    Alert_seq c' =
      Alert_seq empty_Client +
      Z.of_nat (length (replicate 20 without_children ++ [with_children])).
Proof.
  split; [reflexivity |]. split; [reflexivity |].
  apply (CreateAlertBulk_returns_ids_in_order (H := sample)); reflexivity.
Defined.

Lemma FlushAlerts_count_pass_witness :
  faults five_alerts = [] /\
  NoDup (alert_ID <$> Alert_table five_alerts) /\
  exists c',
    FlushAlerts (H := sample) (6 * Hour) 0 3 five_alerts = (Returns (Some 2, None), c') /\
    Z.of_nat (length (Alert_table c')) = 3.
Proof.
  assert (Hnd : NoDup (alert_ID <$> Alert_table five_alerts)).
  { apply (bool_decide_unpack _). vm_compute. exact I. }
  split; [reflexivity |]. split; [exact Hnd |].
  destruct (FlushAlerts_count_pass (H := sample) (6 * Hour) 0 3 five_alerts eq_refl Hnd)
    as [Hdelete _].
  destruct Hdelete as (c' & Hflush & _ & Hlen & _); [vm_compute; split; reflexivity |].
  exists c'. split; [exact Hflush | exact Hlen].
Defined.

Lemma machine_lookup_outcomes_witness :
  CreateAlertBulk (H := sample) 0 "machine-1" [with_children] failing_Client =
    (([], Some (Wrap QueryFail "machine '%s': %s"
                  [ArgS "machine-1"; ArgE (Some engine_failure)])), empty_Client) /\
  exists rows c',
    CreateAlertBulk (H := sample) 0 "machine-1" [with_children; without_children]
      empty_Client = (((λ a, Itoa (alert_ID a)) <$> rows, None), c') /\
    length rows = 2%nat /\
    Forall (λ row, alert_owner row = None) rows.
Proof.
  destruct (machine_lookup_outcomes (H := sample) 0 "machine-1") as (Habort & _ & Hgo).
  split.
  - apply (Habort [] with_children [] failing_Client BulkVars_init failing_Client None);
      reflexivity.
  - destruct (Hgo [with_children; without_children] empty_Client None
                (Wrap UserNotExists "user '%s'" [ArgS "machine-1"]) empty_Client)
      as (rows & c' & Hcall & Hlen & _ & Hnone); try reflexivity.
    exists rows, c'. auto.
Defined.

Lemma has_active_decision_filter_witness :
  faults decided_alerts = [] /\
  exists result,
    QueryAlertWithFilter (H := sample) (5 * Hour) [("has_active_decision", ["true"])]
      decided_alerts = (Returns (result, None), decided_alerts) /\
    forall a, a ∈ view_alert <$> result <->
      a ∈ Alert_table decided_alerts /\
      exists d, d ∈ Decision_table decided_alerts /\
                decision_owner d = Some (alert_ID a) /\ 5 * Hour <= decision_Until d.
Proof.
  split; [reflexivity |].
  destruct (has_active_decision_filter (H := sample) (5 * Hour)) as [Htrue _].
  apply (Htrue decided_alerts). reflexivity.
Defined.

Lemma ip_filter_is_host_range_witness :
  IsIpv4 (Collaborators := sample) "10.0.0.5" = true /\
  BuildAlertRequestFromFilter (H := sample) 0 Alert_Query [("ip", ["10.0.0.5"])] =
  BuildAlertRequestFromFilter (H := sample) 0 Alert_Query [("range", ["10.0.0.5/32"])].
Proof.
  split; [reflexivity |].
  destruct (ip_filter_is_host_range (H := sample) 0 "10.0.0.5" [] [] [] [] eq_refl)
    as [Hbuild _].
  specialize (Hbuild Alert_Query). cbn [app] in Hbuild.
  change ("10.0.0.5" +:+ "/32") with "10.0.0.5/32" in Hbuild.
  destruct (BuildAlertRequestFromFilter 0 Alert_Query [("ip", ["10.0.0.5"])])
    as [[[q1 |] [e1 |]] |] eqn:Hip;
    destruct (BuildAlertRequestFromFilter 0 Alert_Query [("range", ["10.0.0.5/32"])])
      as [[[q2 |] [e2 |]] |] eqn:Hrange;
    try contradiction; try discriminate Hip; try discriminate Hrange.
  subst q2. reflexivity.
Defined.

Lemma BuildAlertRequestFromFilter_reads_first_value_witness :
  Forall (λ kv : string * list string, kv.2 <> []) [("scope", ["Ip"]); ("since", ["4h"])] /\
  BuildAlertRequestFromFilter (H := sample) 0 Alert_Query
    [("scope", ["Ip"]); ("since", ["4h"])] <> Panics /\
  BuildAlertRequestFromFilter (H := sample) 0 Alert_Query [("scope", [])] = Panics.
Proof.
  assert (Hall : Forall (λ kv : string * list string, kv.2 <> [])
                   [("scope", ["Ip"]); ("since", ["4h"])])
    by (repeat constructor; discriminate).
  destruct (BuildAlertRequestFromFilter_reads_first_value (H := sample) 0 Alert_Query)
    as (Htotal & _ & Hkey & _).
  split; [exact Hall |]. split; [apply Htotal, Hall |].
  apply Hkey. apply (bool_decide_unpack _). vm_compute. exact I.
Defined.

Lemma zero_start_bound_drops_restriction_witness :
  GetIpsFromIpRange (Collaborators := sample) "0.0.0.0/0" = (0, 4294967295, None) /\
  BuildAlertRequestFromFilter (H := sample) 0 Alert_Query
    [("scenario", ["ssh-bruteforce"]); ("range", ["0.0.0.0/0"])] =
  BuildAlertRequestFromFilter (H := sample) 0 Alert_Query [("scenario", ["ssh-bruteforce"])].
Proof.
  split; [reflexivity |].
  destruct (zero_start_bound_drops_restriction (H := sample) 0 Alert_Query) as (_ & Hdrop & _).
  apply (Hdrop [("scenario", ["ssh-bruteforce"])] [] "0.0.0.0/0" [] 4294967295);
    [reflexivity | |]; apply (bool_decide_unpack _); vm_compute; exact I.
Defined.

(** ** The queries on the sample stores *)

Example has_active_decision_true :
  (λ v, alert_ID (view_alert v)) <$>
    (match QueryAlertWithFilter (H := sample) (5 * Hour)
             [("has_active_decision", ["true"])] decided_alerts with
     | (Returns (result, _), _) => result
     | _ => []
     end) = [1].
Proof. vm_compute. reflexivity. Qed.

Example has_active_decision_false :
  (λ v, alert_ID (view_alert v)) <$>
    (match QueryAlertWithFilter (H := sample) (5 * Hour)
             [("has_active_decision", ["false"])] decided_alerts with
     | (Returns (result, _), _) => result
     | _ => []
     end) = [3].
Proof. vm_compute. reflexivity. Qed.

Example FlushAlerts_keeps_three_newest :
  alert_ID <$> Alert_table (snd (FlushAlerts (H := sample) (6 * Hour) 0 3 five_alerts)) =
    [1; 3; 5] /\
  event_owner <$> Event_table (snd (FlushAlerts (H := sample) (6 * Hour) 0 3 five_alerts)) =
    [Some 1; Some 3; Some 5].
Proof. vm_compute. split; reflexivity. Qed.

Example range_all_is_no_filter :
  QueryAlertWithFilter (H := sample) (5 * Hour) [("range", ["0.0.0.0/0"])] decided_alerts =
  QueryAlertWithFilter (H := sample) (5 * Hour) [] decided_alerts.
Proof. vm_compute. reflexivity. Qed.

Example range_host_selects_by_decision :
  (λ v, alert_ID (view_alert v)) <$>
    (match QueryAlertWithFilter (H := sample) (5 * Hour) [("ip", ["10.0.0.5"])]
             decided_alerts with
     | (Returns (result, _), _) => result
     | _ => []
     end) = [1; 2].
Proof. vm_compute. reflexivity. Qed.
